(** * openprint-lock frontend: enrollment stream handler, resource
      controllers and the API client

    Shallow embedding of
    - [frontend/src/features/fingerprint/FingerprintList.tsx]
      ([handleAddFingerprint], the cancel button and the modal footer),
    - [frontend/src/features/monitoring/MonitoringControl.tsx] and the door
      control component ([fetchMonitoringStatus], [handleStartMonitoring],
      [handleStopMonitoring], [fetchDoorStatus], [handleLock],
      [handleUnlock], [getStatusBadge]),
    - [frontend/src/services/api] ([createAPI]) and
      [frontend/src/store/settings.ts],
    - the rest of the components around them: the modal and the identity
      list of [FingerprintList.tsx] ([showAddModal],
      [handleModalCloseOrCancel], [fetchFingerprints], [handleDelete]),
      the log viewer ([LogManagement]), the menu of the layout, what the
      resource components display, and the settings form.

    React state is threaded explicitly; every [await] of the source is a
    point where the transport answers and where the user may press a
    button. *)

From Stdlib Require Import ZArith List String Ascii Bool Lia DecimalString.
From Stdlib Require Import DecimalPos DecimalZ Permutation Sorted.
From Stdlib.Strings Require Import Byte.
Import ListNotations.
Open Scope Z_scope.
Set Warnings "-register-all".

(** ** JavaScript strings and values *)

Module JS.

(** A JavaScript string is a sequence of UTF-16 code units. *)
Definition jsstring := list Z.

(** A source literal, written in ASCII. *)
Definition lit (s : string) : jsstring :=
  map (fun a => Z.of_N (N_of_ascii a)) (list_ascii_of_string s).

Definition str_eqb (a b : jsstring) : bool :=
  if list_eq_dec Z.eq_dec a b then true else false.

(** [s.startsWith(p)] *)
Fixpoint startsWith (s p : jsstring) : bool :=
  match p, s with
  | [], _ => true
  | _ :: _, [] => false
  | c :: p', d :: s' => (c =? d) && startsWith s' p'
  end.

(** [s.substring(n)] for [0 <= n] *)
Definition substring (s : jsstring) (n : nat) : jsstring := skipn n s.

(** [s.split('\n')]: always at least one piece; the last piece is what
    follows the last line feed. *)
Fixpoint split_nl (s : jsstring) : list jsstring :=
  match s with
  | [] => [[]]
  | c :: s' =>
      if c =? 10 then [] :: split_nl s'
      else match split_nl s' with
           | l :: ls => (c :: l) :: ls
           | [] => [[c]]
           end
  end.

(** Values as [JSON.parse] builds them, and [undefined] for absent
    properties. Numbers are kept abstract. *)
Inductive value (num : Type) : Type :=
| VUndefined
| VNull
| VBool (b : bool)
| VNum (n : num)
| VStr (s : jsstring)
| VArr (l : list (value num))
| VObj (fields : list (jsstring * value num)).

Arguments VUndefined {num}.
Arguments VNull {num}.
Arguments VBool {num} b.
Arguments VNum {num} n.
Arguments VStr {num} s.
Arguments VArr {num} l.
Arguments VObj {num} fields.

(** What the JavaScript engine provides and the source only calls. *)
Class Host := {
  num : Type;
  (** ToBoolean on a number: false for zeros and NaN *)
  num_truthy : num -> bool;
  Number_toString : num -> jsstring;
  (** [JSON.parse]: the value, or the message of the SyntaxError thrown *)
  JSON_parse : jsstring -> value num + jsstring;
  JSON_stringify : value num -> jsstring;
  (** message of the TypeError thrown when property [p] of [null] or
      [undefined] is read *)
  TypeError_message : value num -> jsstring -> jsstring;
  (** message of the TypeError thrown when an object cannot be converted
      to a primitive value *)
  ToPrimitive_message : jsstring;
  (** message of the DOMException that an aborted request rejects with *)
  AbortError_message : jsstring
}.

(** A thrown error as the handlers look at it: [error.name] and
    [error.message]. *)
Record jsError := { name : jsstring; message : jsstring }.

Section Values.
Context {H : Host}.

Definition val := value num.

Definition TypeError (m : jsstring) : jsError :=
  {| name := lit "TypeError"; message := m |}.

Definition SyntaxError (m : jsstring) : jsError :=
  {| name := lit "SyntaxError"; message := m |}.

(** What a fetch, a body read or a stream read rejects with once the
    signal of the request is aborted. *)
Definition AbortError : jsError :=
  {| name := lit "AbortError"; message := AbortError_message |}.

(** ToBoolean *)
Definition truthy (v : val) : bool :=
  match v with
  | VUndefined | VNull => false
  | VBool b => b
  | VNum n => num_truthy n
  | VStr s => match s with [] => false | _ => true end
  | VArr _ | VObj _ => true
  end.

(** [a || b] *)
Definition or_else (a b : val) : val := if truthy a then a else b.

Fixpoint lookup (p : jsstring) (fields : list (jsstring * val)) : val :=
  match fields with
  | [] => VUndefined
  | (k, v) :: r => if str_eqb k p then v else lookup p r
  end.

(** [v.p] for a property [p] that no prototype defines: throws on [null]
    and [undefined], is [undefined] on other primitives and on arrays. *)
Definition getProp (v : val) (p : jsstring) : val + jsError :=
  match v with
  | VUndefined | VNull => inr (TypeError (TypeError_message v p))
  | VObj fields => inl (lookup p fields)
  | _ => inl VUndefined
  end.

(** [v === 'literal'] *)
Definition strict_eq_str (v : val) (s : jsstring) : bool :=
  match v with
  | VStr t => str_eqb t s
  | _ => false
  end.

(** [Object.hasOwn(o, p)] *)
Definition hasOwn (p : jsstring) (fields : list (jsstring * val)) : bool :=
  existsb (fun m => str_eqb (fst m) p) fields.

(** What the conversion of an object to a primitive value throws when no
    method of the object yields one. *)
Definition ToPrimitiveError : jsError := TypeError ToPrimitive_message.

(** ToString, as a template literal applies it; [None] when the
    conversion throws [ToPrimitiveError]. The values are those that
    [JSON.parse] builds: no member is callable and every prototype is the
    built-in one. An object with an own [toString] member therefore has
    no method left that yields a primitive, and the conversion throws; an
    array joins the conversions of its elements, the empty string standing
    for [null] and [undefined]. *)
Fixpoint ToString (v : val) : option jsstring :=
  match v with
  | VUndefined => Some (lit "undefined")
  | VNull => Some (lit "null")
  | VBool true => Some (lit "true")
  | VBool false => Some (lit "false")
  | VNum n => Some (Number_toString n)
  | VStr s => Some s
  | VArr l =>
      (fix join (l : list val) : option jsstring :=
         match l with
         | [] => Some []
         | x :: r =>
             match match x with
                   | VUndefined | VNull => Some []
                   | _ => ToString x
                   end with
             | None => None
             | Some e =>
                 match r with
                 | [] => Some e
                 | _ :: _ =>
                     match join r with
                     | None => None
                     | Some s => Some (e ++ lit "," ++ s)
                     end
                 end
             end
         end) l
  | VObj fields =>
      if hasOwn (lit "toString") fields then None
      else Some (lit "[object Object]")
  end.

(** ToString of an integer number such as [response.status]. *)
Definition Z_toString (z : Z) : jsstring :=
  lit (NilZero.string_of_int (Z.to_int z)).

End Values.
End JS.
Import JS.

(** ** TextDecoder *)

Module TextDecoder.

(** The UTF-8 decoder of the Encoding standard, one byte at a time. *)
Record utf8 := {
  code_point : Z;
  bytes_seen : Z;
  bytes_needed : Z;
  lower_boundary : Z;
  upper_boundary : Z
}.

Definition utf8_init : utf8 :=
  {| code_point := 0; bytes_seen := 0; bytes_needed := 0;
     lower_boundary := 128; upper_boundary := 191 |}.

Definition between (lo b hi : Z) : bool := (lo <=? b) && (b <=? hi).

(** A byte read while no sequence is open. An error is U+FFFD. *)
Definition utf8_lead (b : Z) : utf8 * list Z :=
  if between 0 b 127 then (utf8_init, [b])
  else if between 194 b 223 then
    ({| code_point := Z.land b 31; bytes_seen := 0; bytes_needed := 1;
        lower_boundary := 128; upper_boundary := 191 |}, [])
  else if between 224 b 239 then
    ({| code_point := Z.land b 15; bytes_seen := 0; bytes_needed := 2;
        lower_boundary := if b =? 224 then 160 else 128;
        upper_boundary := if b =? 237 then 159 else 191 |}, [])
  else if between 240 b 244 then
    ({| code_point := Z.land b 7; bytes_seen := 0; bytes_needed := 3;
        lower_boundary := if b =? 240 then 144 else 128;
        upper_boundary := if b =? 244 then 143 else 191 |}, [])
  else (utf8_init, [65533]).

Definition utf8_handler (d : utf8) (b : Z) : utf8 * list Z :=
  if bytes_needed d =? 0 then utf8_lead b
  else if negb (between (lower_boundary d) b (upper_boundary d)) then
    (* the sequence is broken: error, and the byte is read again *)
    let (d', out) := utf8_lead b in (d', 65533 :: out)
  else
    let cp := Z.lor (Z.shiftl (code_point d) 6) (Z.land b 63) in
    let seen := bytes_seen d + 1 in
    if seen =? bytes_needed d then (utf8_init, [cp])
    else ({| code_point := cp; bytes_seen := seen;
             bytes_needed := bytes_needed d;
             lower_boundary := 128; upper_boundary := 191 |}, []).

(** A scalar value as UTF-16 code units. *)
Definition utf16 (cp : Z) : jsstring :=
  if cp <? 65536 then [cp]
  else [55296 + Z.shiftr (cp - 65536) 10; 56320 + Z.land (cp - 65536) 1023].

(** [new TextDecoder()]: UTF-8, not fatal, the byte order mark removed. *)
Record t := { decoder : utf8; BOM_seen : bool }.

Definition create : t := {| decoder := utf8_init; BOM_seen := false |}.

(** Serialising the scalar values of one step, with the BOM rule. *)
Fixpoint serialize (seen : bool) (cps : list Z) : bool * jsstring :=
  match cps with
  | [] => (seen, [])
  | cp :: r =>
      if negb seen && (cp =? 65279) then serialize true r
      else let (seen', s) := serialize true r in (seen', utf16 cp ++ s)
  end.

Definition decode_byte (td : t) (b : byte) : t * jsstring :=
  let (d, cps) := utf8_handler (decoder td) (Z.of_N (Byte.to_N b)) in
  let (seen, s) := serialize (BOM_seen td) cps in
  ({| decoder := d; BOM_seen := seen |}, s).

(** [decoder.decode(value, { stream: true })]: the decoder state is kept
    for the next call, an unfinished sequence yields nothing yet. *)
Fixpoint decode (td : t) (bytes : list byte) : t * jsstring :=
  match bytes with
  | [] => (td, [])
  | b :: bs =>
      let (td1, s1) := decode_byte td b in
      let (td2, s2) := decode td1 bs in
      (td2, s1 ++ s2)
  end.

(** A source literal that is not ASCII, read as the UTF-8 text it is. *)
Definition text (s : string) : jsstring :=
  snd (decode create (map byte_of_ascii (list_ascii_of_string s))).

End TextDecoder.

(** ** The settings store ([store/settings.ts]) *)

Module Settings.

Record SettingsState := {
  baseUrl : jsstring;
  token : jsstring;
  isDarkMode : bool
}.

Definition initial : SettingsState :=
  {| baseUrl := lit "http://localhost:80"; token := []; isDarkMode := false |}.

Definition setBaseUrl (url : jsstring) (s : SettingsState) : SettingsState :=
  {| baseUrl := url; token := token s; isDarkMode := isDarkMode s |}.

Definition setToken (t : jsstring) (s : SettingsState) : SettingsState :=
  {| baseUrl := baseUrl s; token := t; isDarkMode := isDarkMode s |}.

Definition toggleDarkMode (s : SettingsState) : SettingsState :=
  {| baseUrl := baseUrl s; token := token s;
     isDarkMode := negb (isDarkMode s) |}.

Definition reset (_ : SettingsState) : SettingsState := initial.

End Settings.

(** ** The enrollment handler ([FingerprintList.tsx]) *)

Module Fingerprint.
Section Handler.
Context {H : Host}.

(** A [fetch(url, init)] call. The signal is the index of its
    AbortController. *)
Record fetchCall := {
  url : jsstring;
  method : jsstring;
  contentType : jsstring;
  authorization : jsstring;
  body : jsstring;
  signal : nat
}.

Inductive noticeKind := Success | Error | Info | Warning.

(** What the component does to the outside, in program order. *)
Inductive effect :=
| Notice (k : noticeKind) (content : val)   (* messageApi.success / error / info / warning *)
| ConsoleError                              (* console.error *)
| Fetch (c : fetchCall)                     (* fetch *)
| Refresh                                   (* fetchFingerprints() *)
| ReaderCancel                              (* reader.cancel() *)
| SetTimeout.                               (* the auto-close timer, 1500 ms *)

(** The state of the component: its [useState] cells, the AbortControllers
    created so far (the aborted flag of each), the ref to the current one,
    and the effects issued so far. [sseLog] is declared [string[]], an
    entry is whatever value the code puts there. The cell is written
    through queued updaters, which React runs when it next renders:
    [sseLog] is what the updaters that return have made of it, and
    [logFaults] holds, in the order they were queued, the errors of the
    updaters that throw instead. React fails the render on the first of
    them; what the handler, which keeps running, still does is what the
    other cells and the effects go on to record. *)
Record component := {
  isRegistering : bool;
  sseLog : list val;
  isAddModalVisible : bool;
  controllers : list bool;
  abortControllerRef : option nat;
  effects : list effect;
  logFaults : list jsError
}.

Definition setIsRegistering (b : bool) (st : component) : component :=
  {| isRegistering := b; sseLog := sseLog st;
     isAddModalVisible := isAddModalVisible st;
     controllers := controllers st;
     abortControllerRef := abortControllerRef st; effects := effects st;
     logFaults := logFaults st |}.

Definition setSseLog (l : list val) (st : component) : component :=
  {| isRegistering := isRegistering st; sseLog := l;
     isAddModalVisible := isAddModalVisible st;
     controllers := controllers st;
     abortControllerRef := abortControllerRef st; effects := effects st;
     logFaults := logFaults st |}.

Definition setIsAddModalVisible (b : bool) (st : component) : component :=
  {| isRegistering := isRegistering st; sseLog := sseLog st;
     isAddModalVisible := b;
     controllers := controllers st;
     abortControllerRef := abortControllerRef st; effects := effects st;
     logFaults := logFaults st |}.

Definition setControllers (c : list bool) (st : component) : component :=
  {| isRegistering := isRegistering st; sseLog := sseLog st;
     isAddModalVisible := isAddModalVisible st;
     controllers := c;
     abortControllerRef := abortControllerRef st; effects := effects st;
     logFaults := logFaults st |}.

Definition setRef (r : option nat) (st : component) : component :=
  {| isRegistering := isRegistering st; sseLog := sseLog st;
     isAddModalVisible := isAddModalVisible st;
     controllers := controllers st;
     abortControllerRef := r; effects := effects st;
     logFaults := logFaults st |}.

Definition emit (e : effect) (st : component) : component :=
  {| isRegistering := isRegistering st; sseLog := sseLog st;
     isAddModalVisible := isAddModalVisible st;
     controllers := controllers st;
     abortControllerRef := abortControllerRef st;
     effects := effects st ++ [e];
     logFaults := logFaults st |}.

(** [setSseLog(updater)] with an updater that throws [e] when it is run *)
Definition queueFault (e : jsError) (st : component) : component :=
  {| isRegistering := isRegistering st; sseLog := sseLog st;
     isAddModalVisible := isAddModalVisible st;
     controllers := controllers st;
     abortControllerRef := abortControllerRef st;
     effects := effects st;
     logFaults := logFaults st ++ [e] |}.

(** [setSseLog(prev => [...prev, entry])] *)
Definition appendLog (entry : val) (st : component) : component :=
  setSseLog (sseLog st ++ [entry]) st.

(** [new AbortController()], stored in the ref *)
Definition newController (st : component) : component * nat :=
  let id := List.length (controllers st) in
  (setRef (Some id) (setControllers (controllers st ++ [false]) st), id).

Fixpoint setFlag (id : nat) (l : list bool) : list bool :=
  match l, id with
  | [], _ => []
  | _ :: r, O => true :: r
  | b :: r, S n => b :: setFlag n r
  end.

(** [controller.abort()] *)
Definition abort (id : nat) (st : component) : component :=
  setControllers (setFlag id (controllers st)) st.

(** [signal.aborted] *)
Definition aborted (id : nat) (st : component) : bool :=
  nth id (controllers st) false.

(** The footer of the modal (lines 291-310): while [isRegistering], the
    only button is the one that cancels the operation. *)
Inductive button := CancelOp | Close | Submit.

Definition footer (st : component) : list button :=
  if isRegistering st then [CancelOp] else [Close; Submit].

(** onClick of the cancel button (lines 294-298) *)
Definition cancelOpClick (st : component) : component :=
  match abortControllerRef st with
  | Some id => abort id st
  | None => st
  end.

(** The user presses the cancel button, if it is rendered. *)
Definition pressCancelOp (st : component) : component :=
  if isRegistering st then cancelOpClick st else st.

(** The callback of the auto-close timer (lines 162-166) *)
Definition autoClose (st : component) : component :=
  setSseLog [] (setIsAddModalVisible false st).

(** *** One line of the stream (lines 150-185) *)

Inductive lineResult := Continue | ReturnSuccess | ReturnCancelled.

(** [setSseLog(prev => [...prev, eventData.message ||
    JSON.stringify(eventData)])] of line 154. The updater is only queued:
    React runs it when it next renders, so what it reads it reads outside
    the [try]. Reading [message] off [null] throws there, in React: the
    handler has then queued an update that appends nothing and fails the
    render. *)
Definition queueEntry (eventData : val) (st : component) : component :=
  match getProp eventData (lit "message") with
  | inl message =>
      appendLog (or_else message (VStr (JSON_stringify eventData))) st
  | inr e => queueFault e st
  end.

(** The body of the [try] after [JSON.parse] has returned [eventData]
    (lines 154-179): the state it leaves, and how it is left. *)
Definition handleEvent (eventData : val) (st : component)
  : component * (lineResult + jsError) :=
  let st := queueEntry eventData st in
  match getProp eventData (lit "status") with
  | inr e => (st, inr e)
  | inl status =>
      if strict_eq_str status (lit "success") then
        match getProp eventData (lit "message") with
        | inr e => (st, inr e)
        | inl message =>
            let st := emit (Notice Success
                        (or_else message
                           (VStr (lit "Fingerprint registered successfully!"))))
                        st in
            let st := setIsRegistering false st in
            let st := emit Refresh st in
            let st := emit ReaderCancel st in
            let st := emit SetTimeout st in
            (st, inl ReturnSuccess)
        end
      else
        match getProp eventData (lit "status") with
        | inr e => (st, inr e)
        | inl status =>
            if strict_eq_str status (lit "error") then
              match getProp eventData (lit "message") with
              | inr e => (st, inr e)
              | inl message =>
                  let st := emit (Notice Error
                              (or_else message
                                 (VStr (lit "An error occurred during registration."))))
                              st in
                  let st := setIsRegistering false st in
                  (st, inl Continue)
              end
            else
              match getProp eventData (lit "status") with
              | inr e => (st, inr e)
              | inl status =>
                  if strict_eq_str status (lit "cancelled") then
                    match getProp eventData (lit "message") with
                    | inr e => (st, inr e)
                    | inl message =>
                        let st := emit (Notice Info
                                    (or_else message
                                       (VStr (lit "Registration was cancelled."))))
                                    st in
                        let st := setIsRegistering false st in
                        let st := emit ReaderCancel st in
                        (st, inl ReturnCancelled)
                    end
                  else (st, inl Continue)
              end
        end
  end.

(** The [catch (e)] of lines 181-184 *)
Definition parseErrorNote (message : jsstring) : val :=
  VStr (lit "Error parsing SSE event: " ++ message).

Definition catchParse (e : jsError) (st : component) : component :=
  appendLog (parseErrorNote (message e)) (emit ConsoleError st).

Definition processLine (line : jsstring) (st : component)
  : component * lineResult :=
  if startsWith line (lit "data: ") then
    let jsonData := substring line (List.length (lit "data: ")) in
    match JSON_parse jsonData with
    | inr m => (catchParse (SyntaxError m) st, Continue)
    | inl eventData =>
        match handleEvent eventData st with
        | (st, inl r) => (st, r)
        | (st, inr e) => (catchParse e st, Continue)
        end
    end
  else (st, Continue).

(** [for (const line of lines)], left by the first [return] *)
Fixpoint processLines (lines : list jsstring) (st : component)
  : component * lineResult :=
  match lines with
  | [] => (st, Continue)
  | line :: rest =>
      match processLine line st with
      | (st', Continue) => processLines rest st'
      | r => r
      end
  end.

(** *** The transport *)

(** The body of a streamed response: the chunks that [reader.read()]
    delivers one after the other, then either [done] ([None]) or a
    rejection. *)
Record stream := {
  chunks : list (list byte);
  ending : option jsError
}.

Record response := {
  ok : bool;
  status : Z;
  (** what [response.json()] settles with *)
  json : val + jsError;
  (** [response.body]; [None] is [null] *)
  responseBody : option stream
}.

Inductive fetchOutcome :=
| FetchRejected (e : jsError)
| FetchResolved (r : response).

(** One run of the handler against the outside: what the server answers,
    and during which [await] of the handler (0 is the [fetch], then one per
    further [await] reached) the user presses the cancel button, if at
    all. *)
Record world := {
  outcome : fetchOutcome;
  click : option nat
}.

Definition userAt (click : option nat) (k : nat) (st : component)
  : component :=
  match click with
  | Some n => if Nat.eqb n k then pressCancelOp st else st
  | None => st
  end.

(** A pending [await] on the request whose signal is [sig]: once the
    signal is aborted the promise rejects with the AbortError, whatever
    the server had to say. *)
Definition settle {A : Type} (sig : nat) (st : component)
  (answer : A + jsError) : A + jsError :=
  if aborted sig st then inr AbortError else answer.

(** How the [try] block is left. *)
Inductive exit :=
| ExitNotOk            (* return of line 118 *)
| ExitNoBody           (* return of line 126 *)
| ExitSuccess          (* return of line 167 *)
| ExitCancelledEvent   (* return of line 178 *)
| ExitStreamEnded      (* break of line 142 *)
| ExitAborted          (* catch, AbortError *)
| ExitConnectionError. (* catch, any other error *)

Definition endedMarker : val := VStr (lit "Registration stream ended.").

(** [reader.read()] once the chunks are used up. *)
Definition readEnd (e : option jsError) : unit + jsError :=
  match e with
  | None => inl tt
  | Some err => inr err
  end.

(** The [if (done)] block of lines 136-143. [captured] is the
    [isRegistering] that the block tests. *)
Definition done (captured : bool) (st : component) : component :=
  let st := appendLog endedMarker st in
  if captured then
    setIsRegistering false
      (emit (Notice Warning
               (VStr (lit "Registration process ended without a clear status.")))
         st)
  else st.

(** The [while (true)] loop of lines 134-187. [captured] is the
    [isRegistering] that the body of the handler reads: the constant bound
    by the render that created the handler, which [setIsRegistering] does
    not change. [k] numbers the [await]. *)
Fixpoint consume (captured : bool) (sig : nat) (click : option nat)
  (k : nat) (rest : list (list byte)) (e : option jsError)
  (decoder : TextDecoder.t) (buffer : jsstring) (st : component)
  : component * (exit + jsError) :=
  let st := userAt click k st in
  match rest with
  | [] =>
      match settle sig st (readEnd e) with
      | inr err => (st, inr err)
      | inl _ => (done captured st, inl ExitStreamEnded)
      end
  | chunk :: rest' =>
      match settle sig st (inl chunk) with
      | inr err => (st, inr err)
      | inl value =>
          let (decoder', text) := TextDecoder.decode decoder value in
          let lines := split_nl (buffer ++ text) in
          let buffer' := last lines [] in
          match processLines (removelast lines) st with
          | (st', ReturnSuccess) => (st', inl ExitSuccess)
          | (st', ReturnCancelled) => (st', inl ExitCancelledEvent)
          | (st', Continue) =>
              consume captured sig click (S k) rest' e decoder' buffer' st'
          end
      end
  end.

(** *** [handleAddFingerprint] (lines 94-205) *)

Definition quote : jsstring := [34].

Definition startEntry (values_name : jsstring) : val :=
  VStr (lit "Starting registration for " ++ quote ++ values_name ++ quote
          ++ lit "...").

Definition enrollRequest (store : Settings.SettingsState)
  (values_name : jsstring) (sig : nat) : fetchCall :=
  {| url := Settings.baseUrl store ++ lit "/fingerprints";
     method := lit "POST";
     contentType := lit "application/json";
     authorization := lit "Bearer " ++ Settings.token store;
     body := JSON_stringify (VObj [(lit "name", VStr values_name)]);
     signal := sig |}.

Definition parseFailure : val :=
  VObj [(lit "message",
         VStr (lit "Failed to parse error response from server."))].

(** The [try] block. *)
Definition tryBlock (captured : bool) (sig : nat) (w : world)
  (st : component) : component * (exit + jsError) :=
  let st := userAt (click w) 0 st in
  match settle sig st
          (match outcome w with
           | FetchRejected e => inr e
           | FetchResolved r => inl r
           end) with
  | inr e => (st, inr e)
  | inl r =>
      if negb (ok r) then
        let st := userAt (click w) 1 st in
        let errorData :=
          match settle sig st (json r) with
          | inl v => v
          | inr _ => parseFailure
          end in
        match getProp errorData (lit "message") with
        | inr e => (st, inr e)
        | inl m =>
            match ToString
                    (or_else m (VStr (lit "Registration failed to start.")))
            with
            | None => (st, inr ToPrimitiveError)
            | Some text =>
                let errorMessage :=
                  VStr (lit "Error " ++ Z_toString (status r) ++ lit ": "
                          ++ text) in
                let st := emit (Notice Error errorMessage) st in
                let st := appendLog errorMessage st in
                let st := setIsRegistering false st in
                (st, inl ExitNotOk)
            end
        end
      else
        match responseBody r with
        | None =>
            let noBodyMessage :=
              VStr (lit "No response body from server for SSE.") in
            let st := emit (Notice Error noBodyMessage) st in
            let st := appendLog noBodyMessage st in
            let st := setIsRegistering false st in
            (st, inl ExitNoBody)
        | Some s =>
            consume captured sig (click w) 1 (chunks s) (ending s)
              TextDecoder.create [] st
        end
  end.

Definition abortMessage : val :=
  VStr (lit "Fingerprint registration cancelled by user.").

(** The [catch (error)] of lines 188-198 *)
Definition catchBlock (error : jsError) (st : component) : component :=
  if str_eqb (name error) (lit "AbortError") then
    appendLog abortMessage (emit (Notice Info abortMessage) st)
  else
    let networkErrorMessage :=
      VStr (lit "Connection error: " ++ message error) in
    appendLog networkErrorMessage
      (emit ConsoleError (emit (Notice Error networkErrorMessage) st)).

(** The [finally] of lines 199-204 *)
Definition finallyBlock (sig : nat) (st : component) : component :=
  let st := setIsRegistering false st in
  match abortControllerRef st with
  | Some id => if Nat.eqb id sig then setRef None st else st
  | None => st
  end.

(** Lines 95-110, up to the [fetch] call; [store] is what
    [useSettingsStore.getState()] returns on line 99. *)
Definition start (values_name : jsstring) (store : Settings.SettingsState)
  (st : component) : component * nat :=
  let st := setIsRegistering true st in
  let st := setSseLog [startEntry values_name] st in
  let (st, sig) := newController st in
  (emit (Fetch (enrollRequest store values_name sig)) st, sig).

(** What follows the [try] block: nothing when it returned, the [catch]
    when it threw, and the [finally] in both cases. *)
Definition conclude (sig : nat) (res : component * (exit + jsError))
  : component * exit :=
  match res with
  | (st, inl x) => (finallyBlock sig st, x)
  | (st, inr error) =>
      (finallyBlock sig (catchBlock error st),
       if str_eqb (name error) (lit "AbortError") then ExitAborted
       else ExitConnectionError)
  end.

Definition handleAddFingerprint (values_name : jsstring)
  (store : Settings.SettingsState) (w : world) (st : component)
  : component * exit :=
  let captured := isRegistering st in
  let (st, sig) := start values_name store st in
  conclude sig (tryBlock captured sig w st).

(** The same answer of the server, its body cut into the chunks [cs]. *)
Definition rechunk (cs : list (list byte)) (w : world) : world :=
  {| outcome :=
       match outcome w with
       | FetchResolved r =>
           FetchResolved
             {| ok := ok r; status := status r; json := json r;
                responseBody :=
                  match responseBody r with
                  | Some s => Some {| chunks := cs; ending := ending s |}
                  | None => None
                  end |}
       | o => o
       end;
     click := click w |}.

(** The transcript entry of an event (line 154). *)
Definition eventEntry (eventData : val) : val :=
  match getProp eventData (lit "message") with
  | inl m => or_else m (VStr (JSON_stringify eventData))
  | inr _ => VUndefined
  end.

(** [line] is an event line whose payload is the object [fields] with the
    given status. *)
Definition carries (line status : jsstring)
  (fields : list (jsstring * val)) : Prop :=
  startsWith line (lit "data: ") = true /\
  JSON_parse (substring line (List.length (lit "data: "))) = inl (VObj fields) /\
  lookup (lit "status") fields = VStr status.

(** The status that the handler reads off a line, when it gets that far. *)
Definition lineStatus (line : jsstring) : option val :=
  if startsWith line (lit "data: ") then
    match JSON_parse (substring line (List.length (lit "data: "))) with
    | inl eventData =>
        match getProp eventData (lit "message"),
              getProp eventData (lit "status") with
        | inl _, inl s => Some s
        | _, _ => None
        end
    | inr _ => None
    end
  else None.

(** The line delivers a success, error or cancelled event. *)
Definition terminal (line : jsstring) : bool :=
  match lineStatus line with
  | Some s =>
      strict_eq_str s (lit "success") || strict_eq_str s (lit "error")
      || strict_eq_str s (lit "cancelled")
  | None => false
  end.

(** The message of the error that the [catch] of line 181 receives for
    an event line, if the [try] of lines 152-180 throws: the SyntaxError
    of [JSON.parse], or the TypeError of reading [status] off [null]
    (line 156). *)
Definition payloadError (line : jsstring) : option jsstring :=
  match JSON_parse (substring line (List.length (lit "data: "))) with
  | inr m => Some m
  | inl eventData =>
      match getProp eventData (lit "status") with
      | inr e => Some (message e)
      | inl _ => None
      end
  end.

(** What the [try] has queued for the transcript when it throws: nothing
    when [JSON.parse] threw; the update of line 154 otherwise, whose
    updater throws in its turn. *)
Definition queuedBefore (line : jsstring) (st : component) : component :=
  match JSON_parse (substring line (List.length (lit "data: "))) with
  | inr _ => st
  | inl eventData => queueEntry eventData st
  end.

(** From [a] to [b] the transcript and the effects were only appended to,
    and no AbortController was created. *)
Definition grows (a b : component) : Prop :=
  (exists log, sseLog b = sseLog a ++ log) /\
  (exists es, effects b = effects a ++ es) /\
  List.length (controllers b) = List.length (controllers a).

(** How often the identity list was refreshed, and the reader cancelled. *)
Definition refreshes (es : list effect) : nat :=
  List.length (filter (fun e => match e with Refresh => true | _ => false end) es).

Definition readerCancels (es : list effect) : nat :=
  List.length
    (filter (fun e => match e with ReaderCancel => true | _ => false end) es).

(** A text made of complete lines, each closed by a line feed. *)
Definition joinLines (lines : list jsstring) : jsstring :=
  List.concat (map (fun l => l ++ [10]) lines).

Definition noLineFeed (s : jsstring) : bool :=
  forallb (fun c => negb (c =? 10)) s.

End Handler.
End Fingerprint.

(** ** The API client ([services/api], [createAPI]) *)

Module Api.

Record headers := {
  ContentType : jsstring;
  Authorization : jsstring
}.

(** An axios request configuration. *)
Record config := {
  baseURL : jsstring;
  timeout : Z;
  hdrs : headers;
  method : jsstring;
  url : jsstring
}.

(** An axios instance: its defaults, fixed when it is created. *)
Record instance := {
  defaultBaseURL : jsstring;
  defaultTimeout : Z;
  defaultHeaders : headers
}.

(** [axios.create({...})] with the store as it is at creation *)
Definition createAPI (store : Settings.SettingsState) : instance :=
  {| defaultBaseURL := Settings.baseUrl store;
     defaultTimeout := 10000;
     defaultHeaders :=
       {| ContentType := lit "application/json";
          Authorization := lit "Bearer " ++ Settings.token store |} |}.

(** The request interceptor (lines 362-368); [store] is what
    [useSettingsStore.getState()] returns when the interceptor runs. *)
Definition requestInterceptor (store : Settings.SettingsState)
  (c : config) : config :=
  {| baseURL := Settings.baseUrl store;
     timeout := timeout c;
     hdrs := {| ContentType := ContentType (hdrs c);
                Authorization := lit "Bearer " ++ Settings.token store |};
     method := method c;
     url := url c |}.

(** [api.get(url)], [api.post(url)], [api.delete(url)]: the defaults of the
    instance are merged with the call, then the interceptor runs; the
    result is what goes on the wire. *)
Definition request (api : instance) (store : Settings.SettingsState)
  (m u : jsstring) : config :=
  requestInterceptor store
    {| baseURL := defaultBaseURL api;
       timeout := defaultTimeout api;
       hdrs := defaultHeaders api;
       method := m;
       url := u |}.

Definition get api store u := request api store (lit "get") u.
Definition post api store u := request api store (lit "post") u.
Definition delete api store u := request api store (lit "delete") u.

End Api.

(** ** The resource controllers ([MonitoringControl.tsx] and the door
       control component) *)

Module Resource.
Section Controllers.
Context {H : Host}.

Inductive noticeKind := Success | Error.

Inductive effect :=
| Notice (k : noticeKind) (content : jsstring)          (* messageApi *)
| ConsoleError (label : jsstring) (error : jsError)     (* console.error *)
| Request (c : Api.config).                             (* api.get / api.post *)

(** The [useState] cells of either component and what it did so far. The
    status cell is declared as a union of string literals; it holds
    whatever value [setMonitoringStatus] / [setDoorStatus] was given. *)
Record component := {
  status : val;
  loading : bool;
  actionLoading : bool;
  effects : list effect
}.

Definition setStatus (v : val) (st : component) : component :=
  {| status := v; loading := loading st;
     actionLoading := actionLoading st; effects := effects st |}.

Definition setLoading (b : bool) (st : component) : component :=
  {| status := status st; loading := b;
     actionLoading := actionLoading st; effects := effects st |}.

Definition setActionLoading (b : bool) (st : component) : component :=
  {| status := status st; loading := loading st;
     actionLoading := b; effects := effects st |}.

Definition emit (e : effect) (st : component) : component :=
  {| status := status st; loading := loading st;
     actionLoading := actionLoading st; effects := effects st ++ [e] |}.

(** [useState('unknown')] *)
Definition initial : component :=
  {| status := VStr (lit "unknown"); loading := false;
     actionLoading := false; effects := [] |}.

(** What a handler's promise settles with. *)
Inductive completion :=
| Resolved (v : val)
| Rejected (e : jsError).

(** The shape shared by [fetchMonitoringStatus] and [fetchDoorStatus]:
    [answer] is [response.data] or what [api.get] rejects with. *)
Definition fetchStatus (path failureText failureLabel : jsstring)
  (api : Api.instance) (store : Settings.SettingsState)
  (answer : val + jsError) (st : component) : component * completion :=
  let st := setLoading true st in
  let st := emit (Request (Api.get api store path)) st in
  let caught (error : jsError) (st : component) :=
    emit (ConsoleError failureLabel error)
      (emit (Notice Error failureText) st) in
  let st :=
    match answer with
    | inr error => caught error st
    | inl data =>
        match getProp data (lit "status") with
        | inr error => caught error st
        | inl s => setStatus s st
        end
    end in
  (setLoading false st, Resolved VUndefined).

(** The shape shared by [handleStartMonitoring], [handleStopMonitoring],
    [handleLock] and [handleUnlock]: [answer] is whether [api.post]
    resolved or what it rejected with. *)
Definition applyCommand (path successText target failureText
  failureLabel : jsstring)
  (api : Api.instance) (store : Settings.SettingsState)
  (answer : unit + jsError) (st : component) : component * completion :=
  let st := setActionLoading true st in
  let st := emit (Request (Api.post api store path)) st in
  let st :=
    match answer with
    | inl _ =>
        setStatus (VStr target) (emit (Notice Success successText) st)
    | inr error =>
        emit (ConsoleError failureLabel error)
          (emit (Notice Error failureText) st)
    end in
  (setActionLoading false st, Resolved VUndefined).

(** *** MonitoringControl *)

Definition fetchMonitoringStatus :=
  fetchStatus (lit "/monitoring/status")
    (TextDecoder.text "获取监控状态失败，请检查网络连接和API设置")
    (TextDecoder.text "获取监控状态失败:").

Definition handleStartMonitoring :=
  applyCommand (lit "/monitoring/start") (TextDecoder.text "指纹监控已启动")
    (lit "enabled_and_active")
    (TextDecoder.text "启动监控失败，请重试") (TextDecoder.text "启动监控失败:").

Definition handleStopMonitoring :=
  applyCommand (lit "/monitoring/stop") (TextDecoder.text "指纹监控已停止")
    (lit "disabled")
    (TextDecoder.text "停止监控失败，请重试") (TextDecoder.text "停止监控失败:").

(** [getStatusBadge] of MonitoringControl: the badge status and its text *)
Definition monitoringBadge (st : component) : jsstring * jsstring :=
  if strict_eq_str (status st) (lit "enabled_and_active") then
    (lit "processing", TextDecoder.text "监控中")
  else if strict_eq_str (status st) (lit "enabled_but_paused") then
    (lit "warning", TextDecoder.text "已暂停")
  else if strict_eq_str (status st) (lit "disabled") then
    (lit "error", TextDecoder.text "已停止")
  else (lit "default", TextDecoder.text "未知状态").

Definition monitoringRecognized (v : val) : bool :=
  strict_eq_str v (lit "enabled_and_active")
  || strict_eq_str v (lit "enabled_but_paused")
  || strict_eq_str v (lit "disabled")
  || strict_eq_str v (lit "unknown").

(** *** DoorControl *)

Definition fetchDoorStatus :=
  fetchStatus (lit "/servo/status")
    (TextDecoder.text "获取门状态失败，请检查网络连接和API设置")
    (TextDecoder.text "获取门状态失败:").



(** [getStatusBadge] of DoorControl *)
Definition doorBadge (st : component) : jsstring * jsstring :=
  if strict_eq_str (status st) (lit "locked") then
    (lit "error", TextDecoder.text "已锁定")
  else if strict_eq_str (status st) (lit "unlocked") then
    (lit "success", TextDecoder.text "已解锁")
  else (lit "default", TextDecoder.text "未知状态").

Definition doorRecognized (v : val) : bool :=
  strict_eq_str v (lit "locked")
  || strict_eq_str v (lit "unlocked")
  || strict_eq_str v (lit "unknown").

(** A status handler [fetch] with its rendering [badge]: the status that
    the server sent is stored as it is and no error is reported, a value
    that is not [recognized] is rendered like ['unknown'], and the status
    is left alone and an error reported only when the request fails or
    when reading the status off the answer throws. *)
Definition storesAsReceived
  (fetch : Api.instance -> Settings.SettingsState -> val + jsError ->
           component -> component * completion)
  (path : jsstring) (badge : component -> jsstring * jsstring)
  (recognized : val -> bool) : Prop :=
  forall api store st,
    (forall data s,
       getProp data (lit "status") = inl s ->
       status (fst (fetch api store (inl data) st)) = s /\
       effects (fst (fetch api store (inl data) st)) =
         effects st ++ [Request (Api.get api store path)] /\
       (recognized s = false ->
        badge (fst (fetch api store (inl data) st)) =
        badge (setStatus (VStr (lit "unknown")) st))) /\
    (forall answer error,
       answer = inr error \/
       (exists data, answer = inl data /\
                     getProp data (lit "status") = inr error) ->
       status (fst (fetch api store answer st)) = status st /\
       exists failureText failureLabel,
         effects (fst (fetch api store answer st)) =
         effects st ++ [Request (Api.get api store path);
                        Notice Error failureText;
                        ConsoleError failureLabel error]).


End Controllers.
End Resource.

(** ** Requests over time *)

Module Timeline.
Section Timeline.
Context {H : Host}.

(** What happens in the application, as far as requests are concerned. *)
Inductive action :=
| Configure (f : Settings.SettingsState -> Settings.SettingsState)
    (* the settings form: setBaseUrl, setToken, reset *)
| Call (created : Settings.SettingsState) (m u : jsstring)
    (* api.get / post / delete on an instance that [createAPI()] built
       when the store was [created] *)
| Enroll (values_name : jsstring) (st : Fingerprint.component).
    (* handleAddFingerprint *)

(** The request of [fetchFingerprints] (line 31) *)
Definition listIdentities (created : Settings.SettingsState) : action :=
  Call created (lit "get") (lit "/fingerprints").

(** The request of [handleDelete(id)] (line 64) *)
Definition deleteIdentity (created : Settings.SettingsState)
  (id : jsstring) : action :=
  Call created (lit "delete") (lit "/fingerprints/" ++ id).

(** The request of [fetchMonitoringStatus] or [fetchDoorStatus] *)
Definition fetchResourceStatus (created : Settings.SettingsState)
  (path : jsstring) : action :=
  Call created (lit "get") path.

(** The request of a command handler *)
Definition commandResource (created : Settings.SettingsState)
  (path : jsstring) : action :=
  Call created (lit "post") path.

(** A request on the wire: where it goes and its Authorization header. *)
Record wire := {
  target : jsstring;
  path : jsstring;
  auth : jsstring
}.

Definition ofConfig (c : Api.config) : wire :=
  {| target := Api.baseURL c; path := Api.url c;
     auth := Api.Authorization (Api.hdrs c) |}.

Definition ofFetch (effects : list Fingerprint.effect) : list wire :=
  flat_map
    (fun e =>
       match e with
       | Fingerprint.Fetch c =>
           [{| target := firstn (List.length (Fingerprint.url c)
                                  - List.length (lit "/fingerprints"))
                           (Fingerprint.url c);
               path := lit "/fingerprints";
               auth := Fingerprint.authorization c |}]
       | _ => []
       end)
    effects.

(** The requests issued by a sequence of actions, from the code. *)
Fixpoint issued (store : Settings.SettingsState) (acts : list action)
  : list wire :=
  match acts with
  | [] => []
  | Configure f :: rest => issued (f store) rest
  | Call created m u :: rest =>
      ofConfig (Api.request (Api.createAPI created) store m u)
        :: issued store rest
  | Enroll values_name st :: rest =>
      ofFetch
        (skipn (List.length (Fingerprint.effects st))
           (Fingerprint.effects
              (fst (Fingerprint.start values_name store st))))
        ++ issued store rest
  end.

(** The requests that the specification asks for: each one carries the
    base address and the token that the store holds when it is issued. *)
Fixpoint fresh (store : Settings.SettingsState) (acts : list action)
  : list wire :=
  match acts with
  | [] => []
  | Configure f :: rest => fresh (f store) rest
  | Call _ _ u :: rest =>
      {| target := Settings.baseUrl store; path := u;
         auth := lit "Bearer " ++ Settings.token store |}
        :: fresh store rest
  | Enroll _ _ :: rest =>
      {| target := Settings.baseUrl store; path := lit "/fingerprints";
         auth := lit "Bearer " ++ Settings.token store |}
        :: fresh store rest
  end.

End Timeline.
End Timeline.

(** ** A concrete host and concrete streams, to run the model on *)

Module Sample.

(** The content of a string literal up to its closing quote, and the rest. *)
Fixpoint readString (s : jsstring) : option (jsstring * jsstring) :=
  match s with
  | [] => None
  | c :: r =>
      if c =? 34 then Some ([], r)
      else match readString r with
           | Some (x, r') => Some (c :: x, r')
           | None => None
           end
  end.

(** The members of an object whose values are strings without escapes. *)
Fixpoint readFields (fuel : nat) (s : jsstring)
  : option (list (jsstring * value Z)) :=
  match fuel with
  | O => None
  | S f =>
      match s with
      | 34 :: r =>
          match readString r with
          | Some (k, 58 :: 34 :: r') =>
              match readString r' with
              | Some (v, [125]) => Some [(k, VStr v)]
              | Some (v, 44 :: r'') =>
                  option_map (cons (k, VStr v)) (readFields f r'')
              | _ => None
              end
          | _ => None
          end
      | _ => None
      end
  end.

(** [JSON.parse] on the texts used below: [null], and objects of string
    members written without white space. Anything else is refused. *)
Definition parse (s : jsstring) : value Z + jsstring :=
  match s with
  | 123 :: r =>
      match readFields (List.length r) r with
      | Some fs => inl (VObj fs)
      | None => inr (lit "Unexpected token")
      end
  | _ =>
      if str_eqb s (lit "null") then inl VNull
      else inr (lit "Unexpected token")
  end.

(** [JSON.stringify] on those values and on strings, none of which holds
    a character that is escaped: the members in their order, without
    white space. *)
Fixpoint stringifyFields (fs : list (jsstring * value Z)) : jsstring :=
  match fs with
  | [] => []
  | (k, v) :: r =>
      [34] ++ k ++ [34; 58]
        ++ match v with
           | VStr s => [34] ++ s ++ [34]
           | _ => lit "null"
           end
        ++ match r with
           | [] => []
           | _ :: _ => 44 :: stringifyFields r
           end
  end.

Definition stringify (v : value Z) : jsstring :=
  match v with
  | VObj fs => [123] ++ stringifyFields fs ++ [125]
  | VStr s => [34] ++ s ++ [34]
  | _ => lit "null"
  end.

#[export] Instance host : Host := {|
  num := Z;
  num_truthy := fun z => negb (z =? 0);
  Number_toString := fun z => lit (NilZero.string_of_int (Z.to_int z));
  JSON_parse := parse;
  JSON_stringify := stringify;
  TypeError_message := fun v p =>
    lit "Cannot read properties of "
      ++ match v with VUndefined => lit "undefined" | _ => lit "null" end
      ++ lit " (reading '" ++ p ++ lit "')";
  ToPrimitive_message := lit "Cannot convert object to primitive value";
  AbortError_message := lit "The user aborted a request."
|}.

Definition bytes (s : string) : list byte :=
  map byte_of_ascii (list_ascii_of_string s).

Definition q : list byte := [x22].

(** [data: {"status":"<status>","message":"<message>"}] and a line feed *)
Definition eventLine (status message : list byte) : list byte :=
  bytes "data: {" ++ q ++ bytes "status" ++ q ++ bytes ":" ++ q ++ status
    ++ q ++ bytes "," ++ q ++ bytes "message" ++ q ++ bytes ":" ++ q
    ++ message ++ q ++ bytes "}" ++ [x0a].

(** Two progress events and a success event; the second message is
    "Étape 2", whose first character takes two bytes. *)
Definition enrollmentBytes : list byte :=
  eventLine (bytes "progress") (bytes "Place finger")
    ++ eventLine (bytes "progress") ([xc3; x89] ++ bytes "tape 2")
    ++ eventLine (bytes "success") (bytes "Enrolled").

(** The same bytes in four reads: the first ends inside the first line,
    the second between the two bytes of the two-byte character, the third
    is empty. *)
Definition ragged : list (list byte) :=
  [firstn 10 enrollmentBytes; firstn 76 (skipn 10 enrollmentBytes); [];
   skipn 86 enrollmentBytes].

(** Code units of ASCII bytes. *)
Definition chars (bs : list byte) : jsstring :=
  map (fun b => Z.of_N (Byte.to_N b)) bs.

(** A line without its line feed. *)
Definition chomp (line : list byte) : list byte := removelast line.

Definition progressLine : list byte :=
  eventLine (bytes "progress") (bytes "Place finger").

Definition successLine : list byte :=
  eventLine (bytes "success") (bytes "Enrolled").

(** A line that is no event line, as a server may send to keep alive. *)
Definition commentLine : list byte := bytes ": keep-alive" ++ [x0a].

Definition idle : Fingerprint.component :=
  {| Fingerprint.isRegistering := false;
     Fingerprint.sseLog := [];
     Fingerprint.isAddModalVisible := true;
     Fingerprint.controllers := [];
     Fingerprint.abortControllerRef := None;
     Fingerprint.effects := [];
     Fingerprint.logFaults := [] |}.

Definition store : Settings.SettingsState :=
  {| Settings.baseUrl := lit "http://192.168.1.100:80";
     Settings.token := lit "secret";
     Settings.isDarkMode := false |}.

Definition streaming (cs : list (list byte)) (e : option jsError)
  (c : option nat) : Fingerprint.world :=
  {| Fingerprint.outcome :=
       Fingerprint.FetchResolved
         {| Fingerprint.ok := true; Fingerprint.status := 200;
            Fingerprint.json := inl VNull;
            Fingerprint.responseBody :=
              Some {| Fingerprint.chunks := cs; Fingerprint.ending := e |} |};
     Fingerprint.click := c |}.

(** The text of a line, without its line feed. *)
Definition lineText (line : list byte) : jsstring :=
  snd (TextDecoder.decode TextDecoder.create (chomp line)).

(** The members of the object that an event line carries. *)
Definition fieldsOf (line : list byte) : list (jsstring * value Z) :=
  match parse (substring (lineText line) (List.length (lit "data: "))) with
  | inl (VObj fields) => fields
  | _ => []
  end.

Definition stepLine : list byte :=
  eventLine (bytes "progress") ([xc3; x89] ++ bytes "tape 2").

(** An event line whose payload is cut short. *)
Definition brokenLine : list byte := bytes "data: {" ++ q ++ bytes "status" ++ [x0a].

(** An event line whose payload is [null]. *)
Definition nullLine : list byte := bytes "data: null" ++ [x0a].

(** [data: {"foo":"bar"}]: a payload that is JSON and no event. *)
Definition strangerLine : list byte :=
  bytes "data: {" ++ q ++ bytes "foo" ++ q ++ bytes ":" ++ q
    ++ bytes "bar" ++ q ++ bytes "}" ++ [x0a].

(** The state while a first enrollment is reading its stream. *)
Definition busy : Fingerprint.component :=
  {| Fingerprint.isRegistering := true;
     Fingerprint.sseLog :=
       [Fingerprint.startEntry (lit "bob"); VStr (lit "Place finger")];
     Fingerprint.isAddModalVisible := true;
     Fingerprint.controllers := [false];
     Fingerprint.abortControllerRef := Some 0%nat;
     Fingerprint.effects :=
       [Fingerprint.Fetch (Fingerprint.enrollRequest store (lit "bob") 0)];
     Fingerprint.logFaults := [] |}.

(** The server refuses the enrollment; the user presses the cancel button
    while the body of the refusal is being read. *)
Definition refusedThenCancelled : Fingerprint.world :=
  {| Fingerprint.outcome :=
       Fingerprint.FetchResolved
         {| Fingerprint.ok := false; Fingerprint.status := 500;
            Fingerprint.json :=
              inl (VObj [(lit "message", VStr (lit "sensor busy"))]);
            Fingerprint.responseBody := None |};
     Fingerprint.click := Some 1%nat |}.

(** Two events in two chunks; the user presses the cancel button while
    the second read is pending. *)
Definition cancelledMidway : Fingerprint.world :=
  streaming [progressLine; successLine] None (Some 2%nat).

(** The monitoring component showing 'disabled'. *)
Definition stopped : Resource.component :=
  Resource.setStatus (VStr (lit "disabled")) Resource.initial.

(** A status answer that the component does not know. *)
Definition jammed : value Z := VObj [(lit "status", VStr (lit "jammed"))].

(** The monitoring component after that answer came in. *)
Definition afterJammed : Resource.component :=
  fst (Resource.fetchMonitoringStatus (Api.createAPI store) store
         (inl jammed) stopped).

Definition timedOut : jsError :=
  {| name := lit "AxiosError"; message := lit "timeout of 10000ms exceeded" |}.

(** A progress event, then a success event whose line feed never comes. *)
Definition unfinished : Fingerprint.world :=
  streaming [progressLine ++ chomp successLine] None None.

(** A comment, a progress event, half of a line, then the end. *)
Definition inconclusive : Fingerprint.world :=
  streaming [commentLine; progressLine ++ bytes "data: {"] None None.

End Sample.

(** ** The effects of a run, by kind *)

Module Trace.
Import Fingerprint.
Section Trace.
Context {H : Host}.

(** An effect without its payload. *)
Inductive tag :=
| TNotice (k : noticeKind)
| TConsole
| TFetch
| TRefresh
| TReaderCancel
| TTimer.

Definition kind (e : effect) : tag :=
  match e with
  | Notice k _ => TNotice k
  | ConsoleError => TConsole
  | Fetch _ => TFetch
  | Refresh => TRefresh
  | ReaderCancel => TReaderCancel
  | SetTimeout => TTimer
  end.

Definition noticeKind_eqb (a b : noticeKind) : bool :=
  match a, b with
  | Success, Success | Error, Error | Info, Info | Warning, Warning => true
  | _, _ => false
  end.

Definition tag_eqb (a b : tag) : bool :=
  match a, b with
  | TNotice k, TNotice k' => noticeKind_eqb k k'
  | TConsole, TConsole | TFetch, TFetch | TRefresh, TRefresh
  | TReaderCancel, TReaderCancel | TTimer, TTimer => true
  | _, _ => false
  end.

(** How many effects of kind [t] were issued. *)
Definition occurrences (t : tag) (es : list effect) : nat :=
  List.length (filter (fun e => tag_eqb (kind e) t) es).

(** What a line that does not end the loop may issue (lines 169 and
    182): error notices and console errors. *)
Definition quiet (e : effect) : bool :=
  match kind e with
  | TConsole | TNotice Error => true
  | _ => false
  end.

(** The kinds of the effects by which each exit is reached, in order.
    [captured] is the [isRegistering] that the [done] block tests. *)
Definition closing (captured : bool) (x : exit) : list tag :=
  match x with
  | ExitNotOk => [TNotice Error]
  | ExitNoBody => [TNotice Error]
  | ExitSuccess => [TNotice Success; TRefresh; TReaderCancel; TTimer]
  | ExitCancelledEvent => [TNotice Info; TReaderCancel]
  | ExitStreamEnded => if captured then [TNotice Warning] else []
  | ExitAborted => [TNotice Info]
  | ExitConnectionError => [TNotice Error; TConsole]
  end.

Definition lineClosing (r : lineResult) : list tag :=
  match r with
  | Continue => []
  | ReturnSuccess => closing false ExitSuccess
  | ReturnCancelled => closing false ExitCancelledEvent
  end.

Definition isSuccess (x : exit) : bool :=
  match x with ExitSuccess => true | _ => false end.

Definition isCancelledEvent (x : exit) : bool :=
  match x with ExitCancelledEvent => true | _ => false end.

Definition isStreamEnded (x : exit) : bool :=
  match x with ExitStreamEnded => true | _ => false end.

(** The line delivers a success or cancelled event: the two events on
    which the loop returns. *)
Definition returning (line : jsstring) : bool :=
  match lineStatus line with
  | Some s =>
      strict_eq_str s (lit "success") || strict_eq_str s (lit "cancelled")
  | None => false
  end.

(** The exit that a returning line leads to. *)
Definition exitOf (r : lineResult) : exit :=
  match r with
  | ReturnSuccess => ExitSuccess
  | _ => ExitCancelledEvent
  end.

Definition continues (r : lineResult) : bool :=
  match r with Continue => true | _ => false end.

(** The same world, with another moment for the click. *)
Definition withClick (c : option nat) (w : world) : world :=
  {| outcome := outcome w; click := c |}.

(** What the handler takes for the body of a refusal (line 113). *)
Definition errorDataOf (j : val + jsError) : val :=
  match j with
  | inl v => v
  | inr _ => parseFailure
  end.

(** What line 114 converts to a string: the message of the refusal, or
    the default text. *)
Definition refusalDetail (m : val) : val :=
  or_else m (VStr (lit "Registration failed to start.")).

(** The message of a refusal (line 114), [text] being the detail as a
    string. *)
Definition refusalMessage (status : Z) (text : jsstring) : val :=
  VStr (lit "Error " ++ Z_toString status ++ lit ": " ++ text).

(** What the loop adds last to the effects. *)
Definition afterLoop (captured : bool) (r : exit + jsError) : list tag :=
  match r with
  | inl x => closing captured x
  | inr _ => []
  end.

(** [after] has the effects of [before], then quiet ones, then effects
    of the kinds [tail]. *)
Definition extends (before after : component) (tail : list tag) : Prop :=
  exists q c,
    effects after = effects before ++ q ++ c /\
    forallb quiet q = true /\
    map kind c = tail.

End Trace.
End Trace.

(** ** Opening and closing the modal ([FingerprintList.tsx], lines 73-92) *)

Module Modal.
Import Fingerprint.
Section Modal.
Context {H : Host}.

(** The component together with the one field of its form; [None] is a
    field without a value, as [form.resetFields()] leaves it. *)
Record view := {
  cells : component;
  nameField : option jsstring
}.

(** [showAddModal] *)
Definition showAddModal (v : view) : view :=
  let st := cells v in
  let st := setSseLog [] st in
  let st := setIsRegistering false st in
  let st :=
    match abortControllerRef st with
    | Some id => setRef None (abort id st)
    | None => st
    end in
  {| cells := setIsAddModalVisible true st; nameField := None |}.

(** [handleModalCloseOrCancel] *)
Definition handleModalCloseOrCancel (v : view) : view :=
  let st := cells v in
  let st :=
    match abortControllerRef st with
    | Some id =>
        if isRegistering st && negb (aborted id st) then abort id st else st
    | None => st
    end in
  let st := setIsAddModalVisible false st in
  let st := setSseLog [] st in
  let st := setIsRegistering false st in
  {| cells := st; nameField := None |}.

End Modal.
End Modal.

(** ** More streams and answers to run the model on *)

Module Scenario.

#[local] Existing Instance Sample.host.

Definition errorLine : list byte :=
  Sample.eventLine (Sample.bytes "error") (Sample.bytes "Sensor timeout").

Definition cancelledLine : list byte :=
  Sample.eventLine (Sample.bytes "cancelled") (Sample.bytes "Stopped").

(** An error event, then a success event in a second chunk; the user
    presses where the cancel button was while the second read is
    pending. *)
Definition errorThenSuccess : Fingerprint.world :=
  Sample.streaming [errorLine; Sample.successLine] None (Some 2%nat).

(** A progress event, a cancelled event, then more events and a broken
    connection. *)
Definition cancelledThenMore : Fingerprint.world :=
  Sample.streaming
    [Sample.progressLine ++ cancelledLine ++ Sample.successLine]
    (Some Sample.timedOut) None.

(** A refusal with a JSON body, and a stream that nobody asked for. *)
Definition refused : Fingerprint.response :=
  {| Fingerprint.ok := false; Fingerprint.status := 409;
     Fingerprint.json :=
       inl (VObj [(lit "message", VStr (lit "Name already enrolled"))]);
     Fingerprint.responseBody :=
       Some {| Fingerprint.chunks := [Sample.successLine];
               Fingerprint.ending := None |} |}.

(** A refusal whose message is the object [{"toString":"x"}], which no
    template literal can convert. *)
Definition refusedOddly : Fingerprint.response :=
  {| Fingerprint.ok := false; Fingerprint.status := 409;
     Fingerprint.json :=
       inl (VObj [(lit "message",
                   VObj [(lit "toString", VStr (lit "x"))])]);
     Fingerprint.responseBody := None |}.

(** A refusal whose body is the JSON text [null]. *)
Definition refusedNull : Fingerprint.response :=
  {| Fingerprint.ok := false; Fingerprint.status := 500;
     Fingerprint.json := inl VNull;
     Fingerprint.responseBody := None |}.

Definition answering (r : Fingerprint.response) : Fingerprint.world :=
  {| Fingerprint.outcome := Fingerprint.FetchResolved r;
     Fingerprint.click := None |}.

End Scenario.

(** ** Log management ([LogManagement], in the dashboard file) *)

Module Logs.
Section Logs.
Context {H : Host}.

Inductive noticeKind := Success | Error | Warning.

Inductive effect :=
| Notice (k : noticeKind) (content : jsstring)            (* messageApi *)
| ConsoleError (label : jsstring) (error : jsError)       (* console.error *)
| Request (c : Api.config)                                (* api.get *)
| Download (filename content : jsstring)                  (* the click on the link *)
| Uncaught (error : jsError).                             (* thrown out of the handler *)

(** The [useState] cells. [logFiles] and [selectedLog] hold what the
    server sent, whatever it is; [logContent] is the text of a response
    read with [responseType: 'text']. *)
Record component := {
  logFiles : val;
  selectedLog : val;
  logContent : jsstring;
  loadingFiles : bool;
  loadingContent : bool;
  effects : list effect
}.

Definition initial : component :=
  {| logFiles := VArr []; selectedLog := VNull; logContent := [];
     loadingFiles := false; loadingContent := false; effects := [] |}.

Definition setLogFiles (v : val) (st : component) : component :=
  {| logFiles := v; selectedLog := selectedLog st;
     logContent := logContent st; loadingFiles := loadingFiles st;
     loadingContent := loadingContent st; effects := effects st |}.

Definition setSelectedLog (v : val) (st : component) : component :=
  {| logFiles := logFiles st; selectedLog := v;
     logContent := logContent st; loadingFiles := loadingFiles st;
     loadingContent := loadingContent st; effects := effects st |}.

Definition setLogContent (c : jsstring) (st : component) : component :=
  {| logFiles := logFiles st; selectedLog := selectedLog st;
     logContent := c; loadingFiles := loadingFiles st;
     loadingContent := loadingContent st; effects := effects st |}.

Definition setLoadingFiles (b : bool) (st : component) : component :=
  {| logFiles := logFiles st; selectedLog := selectedLog st;
     logContent := logContent st; loadingFiles := b;
     loadingContent := loadingContent st; effects := effects st |}.

Definition setLoadingContent (b : bool) (st : component) : component :=
  {| logFiles := logFiles st; selectedLog := selectedLog st;
     logContent := logContent st; loadingFiles := loadingFiles st;
     loadingContent := b; effects := effects st |}.

Definition emit (e : effect) (st : component) : component :=
  {| logFiles := logFiles st; selectedLog := selectedLog st;
     logContent := logContent st; loadingFiles := loadingFiles st;
     loadingContent := loadingContent st; effects := effects st ++ [e] |}.

(** [fetchLogContent(filename)] up to its [await] (lines 194-199): the
    request, unless the template literal of line 196 throws. The options
    of the call only keep axios from parsing the text. *)
Definition fetchLogContent_begin (api : Api.instance)
  (store : Settings.SettingsState) (filename : val) (st : component)
  : component * option jsError :=
  let st := setLoadingContent true st in
  match ToString filename with
  | Some name =>
      (emit (Request (Api.get api store (lit "/logs/" ++ name))) st, None)
  | None => (st, Some ToPrimitiveError)
  end.

(** [fetchLogContent] from its [await] on (lines 200-207); [answer] is
    the text received, or what the [try] threw. *)
Definition fetchLogContent_end (answer : jsstring + jsError)
  (st : component) : component :=
  let st :=
    match answer with
    | inl data => setLogContent data st
    | inr error =>
        setLogContent []
          (emit (ConsoleError (TextDecoder.text "获取日志内容失败:") error)
             (emit (Notice Error (TextDecoder.text "获取日志内容失败，请重试"))
                st))
    end in
  setLoadingContent false st.

Definition fetchLogContent (api : Api.instance)
  (store : Settings.SettingsState) (filename : val)
  (answer : jsstring + jsError) (st : component) : component :=
  match fetchLogContent_begin api store filename st with
  | (st, None) => fetchLogContent_end answer st
  | (st, Some error) => fetchLogContent_end (inr error) st
  end.

(** [logs.length > 0] for a truthy [logs]. The length of an object is
    whatever its [length] member is; [positive] is [> 0] on it. *)
Definition nonEmpty (positive : val -> bool) (logs : val) : bool :=
  match logs with
  | VArr l => match l with [] => false | _ => true end
  | VStr s => match s with [] => false | _ => true end
  | VObj fields => positive (lookup (lit "length") fields)
  | _ => false
  end.

(** [logs[0]] *)
Definition first (logs : val) : val :=
  match logs with
  | VArr l => hd VUndefined l
  | VStr s => match s with [] => VUndefined | c :: _ => VStr [c] end
  | VObj fields => lookup (lit "0") fields
  | _ => VUndefined
  end.

(** [fetchLogFiles] (lines 174-191). [answer] is [response.data] or the
    rejection of the list request; [content] is what the request for the
    first log settles with, should it be made: that request is not
    awaited, so the [finally] of the list comes before its answer. When
    no request is made because line 196 throws, [fetchLogContent] has run
    its [catch] and [finally] before it returns. *)
Definition fetchLogFiles (positive : val -> bool) (api : Api.instance)
  (store : Settings.SettingsState) (answer : val + jsError)
  (content : jsstring + jsError) (st : component) : component :=
  let st := setLoadingFiles true st in
  let st := emit (Request (Api.get api store (lit "/logs"))) st in
  let caught (error : jsError) (st : component) :=
    emit (ConsoleError (TextDecoder.text "获取日志文件列表失败:") error)
      (emit (Notice Error
               (TextDecoder.text "获取日志文件列表失败，请检查网络连接和API设置"))
         st) in
  match answer with
  | inr error => setLoadingFiles false (caught error st)
  | inl data =>
      match getProp data (lit "logs") with
      | inr error => setLoadingFiles false (caught error st)
      | inl logs =>
          let st := setLogFiles (or_else logs (VArr [])) st in
          if truthy logs && nonEmpty positive logs then
            let st := setSelectedLog (first logs) st in
            match fetchLogContent_begin api store (first logs) st with
            | (st, None) =>
                fetchLogContent_end content (setLoadingFiles false st)
            | (st, Some error) =>
                setLoadingFiles false (fetchLogContent_end (inr error) st)
            end
          else setLoadingFiles false st
      end
  end.

(** [handleLogSelect] (lines 214-217) *)
Definition handleLogSelect (api : Api.instance)
  (store : Settings.SettingsState) (value : val)
  (answer : jsstring + jsError) (st : component) : component :=
  fetchLogContent api store value answer (setSelectedLog value st).

(** [!selectedLog || !logContent]: the guard of [handleDownload] and the
    [disabled] of its button *)
Definition nothingToDownload (st : component) : bool :=
  negb (truthy (selectedLog st))
  || match logContent st with [] => true | _ => false end.

(** [handleDownload] (lines 219-241). The [download] attribute takes a
    string: assigning [selectedLog] converts it, and what the conversion
    throws leaves the handler. *)
Definition handleDownload (st : component) : component :=
  if nothingToDownload st then
    emit (Notice Warning (TextDecoder.text "没有可下载的日志内容")) st
  else
    match ToString (selectedLog st) with
    | Some filename =>
        emit (Notice Success (TextDecoder.text "日志文件下载成功"))
          (emit (Download filename (logContent st)) st)
    | None => emit (Uncaught ToPrimitiveError) st
    end.

(** A row of the table of lines. *)
Record row := { key : Z; line : Z; content : jsstring }.

Fixpoint numbered (index : nat) (lines : list jsstring) : list row :=
  match lines with
  | [] => []
  | l :: rest =>
      {| key := Z.of_nat index; line := Z.of_nat index + 1; content := l |}
        :: numbered (S index) rest
  end.

(** [logLines] (lines 244-248) *)
Definition logLines (st : component) : list row :=
  match logContent st with
  | [] => []
  | _ => numbered 0 (split_nl (logContent st))
  end.

(** The number of line feeds in a text. *)
Definition lineFeeds (s : jsstring) : nat :=
  List.length (filter (fun c => c =? 10) s).

(** [lines.join('\n')] *)
Fixpoint joinWithLineFeed (lines : list jsstring) : jsstring :=
  match lines with
  | [] => []
  | l :: rest =>
      match rest with
      | [] => l
      | _ :: _ => l ++ 10 :: joinWithLineFeed rest
      end
  end.

End Logs.
End Logs.

(** ** The menu of the layout ([AppLayout]) *)

Module Menu.

(** [s.includes(p)] *)
Fixpoint includes (s p : jsstring) : bool :=
  startsWith s p
  || match s with
     | [] => false
     | _ :: s' => includes s' p
     end.

(** [selectedKey] (lines 25-32), from [location.pathname] *)
Definition selectedKey (path : jsstring) : jsstring :=
  if includes path (lit "/fingerprint") then lit "2"
  else if includes path (lit "/door") then lit "3"
  else if includes path (lit "/monitoring") then lit "4"
  else if includes path (lit "/logs") then lit "5"
  else lit "1".

(** [handleMenuClick] (lines 35-55): where [navigate] is sent *)
Definition handleMenuClick (key : jsstring) : jsstring :=
  if str_eqb key (lit "1") then lit "/"
  else if str_eqb key (lit "2") then lit "/fingerprint"
  else if str_eqb key (lit "3") then lit "/door"
  else if str_eqb key (lit "4") then lit "/monitoring"
  else if str_eqb key (lit "5") then lit "/logs"
  else lit "/".

(** The keys of the five menu items (lines 95-126) *)
Definition items : list jsstring :=
  [lit "1"; lit "2"; lit "3"; lit "4"; lit "5"].

End Menu.

(** ** What the resource components display *)

Module Display.
Import Resource.
Section Display.
Context {H : Host}.

(** The [value] of the Statistic of MonitoringControl (lines 92-100) *)
Definition monitoringText (st : component) : jsstring :=
  if strict_eq_str (status st) (lit "enabled_and_active") then
    TextDecoder.text "监控中"
  else if strict_eq_str (status st) (lit "enabled_but_paused") then
    TextDecoder.text "已暂停"
  else if strict_eq_str (status st) (lit "disabled") then
    TextDecoder.text "已停止"
  else TextDecoder.text "未知状态".

(** Its color (lines 102-109) *)
Definition monitoringColor (st : component) : jsstring :=
  if strict_eq_str (status st) (lit "enabled_and_active") then lit "#52c41a"
  else if strict_eq_str (status st) (lit "enabled_but_paused") then
    lit "#faad14"
  else if strict_eq_str (status st) (lit "disabled") then lit "#ff4d4f"
  else lit "#d9d9d9".

Inductive icon :=
| EyeOutlined | EyeInvisibleOutlined | SyncOutlined
| LockOutlined | UnlockOutlined.

(** Its prefix (lines 111-119) *)
Definition monitoringPrefix (st : component) : icon :=
  if strict_eq_str (status st) (lit "enabled_and_active") then EyeOutlined
  else if strict_eq_str (status st) (lit "unknown") then SyncOutlined
  else EyeInvisibleOutlined.

(** [isActive] (line 81), the position of the switch *)
Definition isActive (st : component) : bool :=
  strict_eq_str (status st) (lit "enabled_and_active").

(** [handleToggleMonitoring] (lines 57-63) *)
Definition handleToggleMonitoring (checked : bool) :=
  if checked then handleStartMonitoring else handleStopMonitoring.

(** The Statistic of DoorControl (lines 243-255) *)
Definition doorText (st : component) : jsstring :=
  if strict_eq_str (status st) (lit "locked") then TextDecoder.text "已锁定"
  else if strict_eq_str (status st) (lit "unlocked") then
    TextDecoder.text "已解锁"
  else TextDecoder.text "未知状态".

Definition doorColor (st : component) : jsstring :=
  if strict_eq_str (status st) (lit "locked") then lit "#ff4d4f"
  else if strict_eq_str (status st) (lit "unlocked") then lit "#52c41a"
  else lit "#d9d9d9".

Definition doorPrefix (st : component) : icon :=
  if strict_eq_str (status st) (lit "locked") then LockOutlined
  else if strict_eq_str (status st) (lit "unlocked") then UnlockOutlined
  else SyncOutlined.

End Display.
End Display.

(** ** The settings form ([SettingsForm]) *)

Module SettingsForm.

(** The store, the two fields of the form, and the [baseUrl] and [token]
    with which the effect of lines 14-20 last ran. *)
Record view := {
  store : Settings.SettingsState;
  formBaseUrl : jsstring;
  formToken : jsstring;
  deps : jsstring * jsstring
}.

(** The effect of lines 14-20: the store is copied into the form. *)
Definition syncForm (v : view) : view :=
  {| store := store v;
     formBaseUrl := Settings.baseUrl (store v);
     formToken := Settings.token (store v);
     deps := (Settings.baseUrl (store v), Settings.token (store v)) |}.

(** The first render: the effect runs. *)
Definition mount (s : Settings.SettingsState) : view :=
  syncForm {| store := s; formBaseUrl := []; formToken := [];
              deps := ([], []) |}.

(** A later render: the effect runs again when [baseUrl] or [token] is
    not what it was at its last run. *)
Definition render (v : view) : view :=
  if str_eqb (fst (deps v)) (Settings.baseUrl (store v))
     && str_eqb (snd (deps v)) (Settings.token (store v))
  then v else syncForm v.

Definition withStore (s : Settings.SettingsState) (v : view) : view :=
  {| store := s; formBaseUrl := formBaseUrl v; formToken := formToken v;
     deps := deps v |}.

(** [handleSave] (lines 22-25), then the render that the store causes *)
Definition handleSave (baseUrl token : jsstring) (v : view) : view :=
  render (withStore (Settings.setToken token
                       (Settings.setBaseUrl baseUrl (store v))) v).

(** [onFinish] with the values that the form shows: what the submit
    button does once the rules of the two fields pass. *)
Definition submit (v : view) : view :=
  handleSave (formBaseUrl v) (formToken v) v.

(** [handleReset] (lines 27-33), then the render that the store causes *)
Definition handleReset (v : view) : view :=
  render
    {| store := Settings.reset (store v);
       formBaseUrl := lit "http://localhost:80";
       formToken := lit "fingerprint_system_token_2025_secure";
       deps := deps v |}.

End SettingsForm.

(** ** The identity list ([FingerprintList.tsx], lines 28-71) *)

Module Identity.
Section Identity.
Context {H : Host}.

(** What [Object.entries] throws on [null] and [undefined]. *)
Variable toObjectError : jsError.

(** The key of an element of an array or of a character of a string. *)
Definition indexKey (i : nat) : jsstring := Z_toString (Z.of_nat i).

Fixpoint indexed {A : Type} (i : nat) (l : list A) : list (jsstring * A) :=
  match l with
  | [] => []
  | x :: r => (indexKey i, x) :: indexed (S i) r
  end.

Definition digit (c : Z) : bool := (48 <=? c) && (c <=? 57).

(** One more decimal digit, of code unit [c], after the value [acc]. *)
Definition step (acc c : Z) : Z := 10 * acc + (c - 48).

Definition digitsValue (k : jsstring) : Z := fold_left step k 0.

(** The code units of a decimal numeral. *)
Definition numeral (d : Decimal.uint) : jsstring :=
  lit (NilEmpty.string_of_uint d).

(** A key that is an array index: the decimal text, without a leading
    zero, of an integer below 2^32 - 1. *)
Definition arrayIndex (k : jsstring) : option Z :=
  match k with
  | [] => None
  | c :: r =>
      if forallb digit k
         && match r with [] => true | _ :: _ => negb (c =? 48) end
         && (digitsValue k <=? 4294967294)
      then Some (digitsValue k) else None
  end.

(** The own properties of an object built from a list of members: a key
    counts where it comes first, as [lookup] has it. *)
Fixpoint own (fields : list (jsstring * val)) : list (jsstring * val) :=
  match fields with
  | [] => []
  | (k, v) :: r =>
      (k, v) :: filter (fun p => negb (str_eqb (fst p) k)) (own r)
  end.

Fixpoint insert (n : Z) (p : jsstring * val)
  (l : list (Z * (jsstring * val))) : list (Z * (jsstring * val)) :=
  match l with
  | [] => [(n, p)]
  | (m, q) :: r =>
      if n <? m then (n, p) :: l else (m, q) :: insert n p r
  end.

Fixpoint sortByIndex (l : list (Z * (jsstring * val)))
  : list (Z * (jsstring * val)) :=
  match l with
  | [] => []
  | (n, p) :: r => insert n p (sortByIndex r)
  end.

Definition withIndex (p : jsstring * val) : list (Z * (jsstring * val)) :=
  match arrayIndex (fst p) with
  | Some n => [(n, p)]
  | None => []
  end.

Definition isName (p : jsstring * val) : bool :=
  match arrayIndex (fst p) with
  | Some _ => false
  | None => true
  end.

(** The order in which an object lists its own properties: array indices
    in ascending order, then the other keys in the order of creation. *)
Definition ordered (o : list (jsstring * val)) : list (jsstring * val) :=
  map snd (sortByIndex (flat_map withIndex o)) ++ filter isName o.

(** [Object.entries(data)] *)
Definition Object_entries (data : val)
  : list (jsstring * val) + jsError :=
  match data with
  | VUndefined | VNull => inr toObjectError
  | VBool _ | VNum _ => inl []
  | VStr s => inl (indexed 0 (map (fun c => VStr [c]) s))
  | VArr l => inl (indexed 0 l)
  | VObj fields => inl (ordered (own fields))
  end.

Inductive noticeKind := Success | Error.

Inductive effect :=
| Notice (k : noticeKind) (content : jsstring)
| ConsoleError (label : jsstring) (error : jsError)
| Request (c : Api.config).

(** The cells of the list: the rows, each an id and a name, and the
    loading flag. *)
Record component := {
  fingerprints : list (jsstring * val);
  loading : bool;
  effects : list effect
}.

Definition setFingerprints (l : list (jsstring * val)) (st : component) :=
  {| fingerprints := l; loading := loading st; effects := effects st |}.

Definition setLoading (b : bool) (st : component) :=
  {| fingerprints := fingerprints st; loading := b; effects := effects st |}.

Definition emit (e : effect) (st : component) :=
  {| fingerprints := fingerprints st; loading := loading st;
     effects := effects st ++ [e] |}.

(** [fetchFingerprints] (lines 28-47); [answer] is [response.data] or the
    rejection of the request. *)
Definition fetchFingerprints (api : Api.instance)
  (store : Settings.SettingsState) (answer : val + jsError)
  (st : component) : component :=
  let st := setLoading true st in
  let st := emit (Request (Api.get api store (lit "/fingerprints"))) st in
  let caught (error : jsError) (st : component) :=
    emit (ConsoleError (TextDecoder.text "获取指纹列表失败:") error)
      (emit (Notice Error
               (TextDecoder.text "获取指纹列表失败，请检查网络连接和API设置"))
         st) in
  let st :=
    match answer with
    | inr error => caught error st
    | inl data =>
        match Object_entries data with
        | inr error => caught error st
        | inl entries => setFingerprints entries st
        end
    end in
  setLoading false st.

(** [handleDelete(id)] (lines 62-71); [answer] is whether the DELETE
    resolved, [list] the answer to the list request that follows it. *)
Definition handleDelete (api : Api.instance)
  (store : Settings.SettingsState) (id : jsstring)
  (answer : unit + jsError) (list : val + jsError) (st : component)
  : component :=
  let st := emit (Request (Api.delete api store (lit "/fingerprints/" ++ id)))
              st in
  match answer with
  | inl _ =>
      fetchFingerprints api store list
        (emit (Notice Success (TextDecoder.text "指纹删除成功")) st)
  | inr error =>
      emit (ConsoleError (TextDecoder.text "指纹删除失败:") error)
        (emit (Notice Error (TextDecoder.text "指纹删除失败，请重试")) st)
  end.

(** The members of an object without the key [id]: what a server that
    deleted [id] lists next. *)
Definition without (id : jsstring) (fields : list (jsstring * val))
  : list (jsstring * val) :=
  filter (fun p => negb (str_eqb (fst p) id)) fields.

(** The member that an identity with a numeric id is served as. *)
Definition member (e : Z * val) : jsstring * val :=
  (Z_toString (fst e), snd e).

Definition tagged (e : Z * val) : Z * (jsstring * val) :=
  (fst e, member e).

Definition untagged (x : Z * (jsstring * val)) : Z * val :=
  (fst x, snd (snd x)).

(** The requests among the effects, in the order they were issued. *)
Definition requests (es : list effect) : list Api.config :=
  flat_map (fun e => match e with Request c => [c] | _ => [] end) es.

End Identity.
End Identity.

(** * Properties *)

(** ** Line splitting and the decoder *)

Module SplitFacts.

Example split_nl_lines :
  split_nl (lit "a" ++ [10] ++ lit "bc" ++ [10]) = [lit "a"; lit "bc"; []].
Proof. reflexivity. Qed.

Example split_nl_keeps_partial :
  split_nl (lit "a" ++ [10] ++ lit "bc") = [lit "a"; lit "bc"].
Proof. reflexivity. Qed.

(** U+00C9 in two reads: nothing after the first byte, the character
    after the second. *)
Example decode_across_reads :
  snd (TextDecoder.decode TextDecoder.create [xc3]) = [] /\
  snd (TextDecoder.decode
         (fst (TextDecoder.decode TextDecoder.create [xc3])) [x89]) = [201].
Proof. split; reflexivity. Qed.

(** A lead byte followed by an ASCII byte: U+FFFD, then the ASCII byte. *)
Example decode_broken_sequence :
  snd (TextDecoder.decode TextDecoder.create [xe2; x41]) = [65533; 65].
Proof. reflexivity. Qed.

(** U+1F600 becomes a surrogate pair; a leading byte order mark is
    removed. *)
Example decode_astral_after_bom :
  snd (TextDecoder.decode TextDecoder.create
         [xef; xbb; xbf; xf0; x9f; x98; x80]) = [55357; 56832].
Proof. reflexivity. Qed.

Lemma split_nl_nonempty (s : jsstring) : split_nl s <> [].
Proof.
  destruct s as [|c s]; simpl; [discriminate|].
  destruct (c =? 10); [discriminate|].
  destruct (split_nl s); discriminate.
Qed.

Lemma removelast_cons {A} (x : A) (l : list A) :
  l <> [] -> removelast (x :: l) = x :: removelast l.
Proof. destruct l; [congruence | reflexivity]. Qed.

Lemma last_cons {A} (x : A) (l : list A) (d : A) :
  l <> [] -> last (x :: l) d = last l d.
Proof. destruct l; [congruence | reflexivity]. Qed.

Lemma last_app {A} (l l' : list A) (d : A) :
  l' <> [] -> last (l ++ l') d = last l' d.
Proof.
  intros Hl. induction l as [|x l IH]; [reflexivity|].
  cbn [app]. rewrite last_cons; [exact IH|].
  destruct l; [exact Hl | discriminate].
Qed.

(** Splitting a text that arrives in two parts: the complete lines of the
    first part, then the split of what the first part left over followed
    by the second part. *)
Lemma split_nl_app (x y : jsstring) :
  split_nl (x ++ y) =
  removelast (split_nl x) ++ split_nl (last (split_nl x) [] ++ y).
Proof.
  induction x as [|c x IH]; [reflexivity|].
  change ((c :: x) ++ y) with (c :: (x ++ y)).
  cbn [split_nl]. destruct (c =? 10) eqn:Ec.
  - rewrite removelast_cons, last_cons by apply split_nl_nonempty.
    rewrite IH. reflexivity.
  - rewrite IH. pose proof (split_nl_nonempty x) as Hx.
    destruct (split_nl x) as [|l ls]; [congruence|].
    destruct ls as [|l' ls].
    + cbn [removelast last app]. cbn [split_nl]. rewrite Ec.
      pose proof (split_nl_nonempty (l ++ y)) as Hn.
      destruct (split_nl (l ++ y)); [congruence | reflexivity].
    + rewrite !removelast_cons, !last_cons by discriminate.
      reflexivity.
Qed.

(** What is kept in the buffer holds no line feed. *)
Lemma split_nl_last (x : jsstring) :
  split_nl (last (split_nl x) []) = [last (split_nl x) []].
Proof.
  induction x as [|c x IH]; [reflexivity|].
  cbn [split_nl]. destruct (c =? 10) eqn:Ec.
  - rewrite last_cons by apply split_nl_nonempty. exact IH.
  - pose proof (split_nl_nonempty x) as Hx.
    destruct (split_nl x) as [|l ls]; [congruence|].
    destruct ls as [|l' ls].
    + cbn [last] in *. cbn [split_nl]. rewrite Ec, IH. reflexivity.
    + rewrite last_cons by discriminate.
      rewrite last_cons in IH by discriminate. exact IH.
Qed.

Lemma split_nl_noLineFeed (s : jsstring) :
  Fingerprint.noLineFeed s = true -> split_nl s = [s].
Proof.
  induction s as [|c s IH]; [reflexivity|].
  cbn. intros Hs. apply andb_prop in Hs as [Hc Hs].
  apply negb_true_iff in Hc. rewrite Hc, (IH Hs). reflexivity.
Qed.

Lemma split_nl_line (l rest : jsstring) :
  Fingerprint.noLineFeed l = true ->
  split_nl (l ++ 10 :: rest) = l :: split_nl rest.
Proof.
  induction l as [|c l IH]; [reflexivity|].
  cbn. intros Hs. apply andb_prop in Hs as [Hc Hs].
  apply negb_true_iff in Hc. rewrite Hc, (IH Hs). reflexivity.
Qed.

(** The split of complete lines followed by an unfinished one. *)
Lemma split_nl_joinLines (lines : list jsstring) (partial : jsstring) :
  forallb Fingerprint.noLineFeed lines = true ->
  Fingerprint.noLineFeed partial = true ->
  split_nl (Fingerprint.joinLines lines ++ partial) = lines ++ [partial].
Proof.
  intros Hl Hp. induction lines as [|l lines IH].
  - apply split_nl_noLineFeed, Hp.
  - cbn in Hl. apply andb_prop in Hl as [Hl1 Hl2].
    change (Fingerprint.joinLines (l :: lines))
      with ((l ++ [10]) ++ Fingerprint.joinLines lines).
    rewrite <- !app_assoc. cbn [app].
    rewrite split_nl_line by exact Hl1.
    rewrite (IH Hl2). reflexivity.
Qed.

(** The split of complete lines followed by any text. *)
Lemma split_nl_joinLines_more (lines : list jsstring) (more : jsstring) :
  forallb Fingerprint.noLineFeed lines = true ->
  split_nl (Fingerprint.joinLines lines ++ more) = lines ++ split_nl more.
Proof.
  intros Hl. induction lines as [|l lines IH]; [reflexivity|].
  cbn in Hl. apply andb_prop in Hl as [Hl1 Hl2].
  change (Fingerprint.joinLines (l :: lines))
    with ((l ++ [10]) ++ Fingerprint.joinLines lines).
  rewrite <- !app_assoc. cbn [app].
  rewrite split_nl_line by exact Hl1.
  rewrite (IH Hl2). reflexivity.
Qed.

Lemma decode_app (td : TextDecoder.t) (a b : list byte) :
  TextDecoder.decode td (a ++ b) =
  let (td1, s1) := TextDecoder.decode td a in
  let (td2, s2) := TextDecoder.decode td1 b in
  (td2, s1 ++ s2).
Proof.
  revert td. induction a as [|x a IH]; intros td.
  - cbn. destruct (TextDecoder.decode td b). reflexivity.
  - cbn [app TextDecoder.decode].
    destruct (TextDecoder.decode_byte td x) as [td1 s1].
    rewrite IH. destruct (TextDecoder.decode td1 a) as [td2 s2].
    destruct (TextDecoder.decode td2 b) as [td3 s3].
    rewrite app_assoc. reflexivity.
Qed.

End SplitFacts.

(** ** The consume loop *)

Module LoopFacts.
Import Fingerprint SplitFacts.

(** Reading a cell of a state that was built by setters. *)
Ltac cells :=
  cbn [fst snd isRegistering sseLog isAddModalVisible controllers
       abortControllerRef effects logFaults setIsRegistering setSseLog
       setIsAddModalVisible setControllers setRef emit queueFault
       appendLog].

(** Property reads throw on [null] and [undefined] only, whatever the
    property. *)
Lemma getProp_defined {H : Host} (v x : val) (p q : jsstring) :
  getProp v p = inl x -> exists y, getProp v q = inl y.
Proof.
  destruct v; cbn; intro E; try discriminate; eauto.
Qed.

Lemma getProp_throws {H : Host} (v : val) (p q : jsstring) (e : jsError) :
  getProp v p = inr e ->
  getProp v q = inr (TypeError (TypeError_message v q)).
Proof.
  destruct v; cbn; intro E; try discriminate; reflexivity.
Qed.

(** The cases of [processLine line st], in the order of the source: the
    three events on which something is done, any other payload that has
    properties, a payload that has none, a text that is not JSON, and a
    line that is no event line. *)
Ltac line_cases line st :=
  unfold processLine, handleEvent, queueEntry;
  destruct (startsWith line (lit "data: "));
  [ destruct (JSON_parse (substring line (List.length (lit "data: "))))
      as [eventData|m];
    [ let Es := fresh "Es" in
      destruct (getProp eventData (lit "status")) as [status|e] eqn:Es;
      [ let Em := fresh "Em" in
        destruct (getProp_defined eventData status (lit "status")
                    (lit "message") Es) as [message Em];
        rewrite Em;
        destruct (strict_eq_str status (lit "success"));
        [ | destruct (strict_eq_str status (lit "error"));
            [ | destruct (strict_eq_str status (lit "cancelled")) ] ]
      | rewrite (getProp_throws eventData (lit "status") (lit "message") e
                   Es) ]
    | ]
  | ]; cbn.

Section Loop.
Context {H : Host}.

(** A line never touches the AbortControllers, the ref or the modal. *)
Lemma processLine_frame (line : jsstring) (st : component) :
  controllers (fst (processLine line st)) = controllers st /\
  abortControllerRef (fst (processLine line st)) = abortControllerRef st /\
  isAddModalVisible (fst (processLine line st)) = isAddModalVisible st.
Proof. line_cases line st; repeat split; reflexivity. Qed.

Lemma processLines_frame (lines : list jsstring) (st : component) :
  controllers (fst (processLines lines st)) = controllers st /\
  abortControllerRef (fst (processLines lines st)) = abortControllerRef st /\
  isAddModalVisible (fst (processLines lines st)) = isAddModalVisible st.
Proof.
  revert st. induction lines as [|l lines IH]; intros st.
  - repeat split; reflexivity.
  - cbn [processLines]. pose proof (processLine_frame l st) as Hl.
    destruct (processLine l st) as [st' r]. cbn [fst] in Hl.
    destruct Hl as (Hc & Hr & Hm).
    destruct r; cbn [fst]; try (repeat split; assumption).
    destruct (IH st') as (Hc' & Hr' & Hm').
    repeat split; congruence.
Qed.

Lemma processLines_aborted (sig : nat) (lines : list jsstring)
  (st : component) :
  aborted sig (fst (processLines lines st)) = aborted sig st.
Proof.
  unfold aborted. destruct (processLines_frame lines st) as (-> & _).
  reflexivity.
Qed.

(** The lines of two batches, processed in one [for] loop or in two. *)
Lemma processLines_app (a b : list jsstring) (st : component) :
  processLines (a ++ b) st =
  match processLines a st with
  | (st', Continue) => processLines b st'
  | r => r
  end.
Proof.
  revert st. induction a as [|l a IH]; intros st; [reflexivity|].
  cbn [app processLines]. destruct (processLine l st) as [st' r].
  destruct r; [apply IH | reflexivity | reflexivity].
Qed.

(** Without a click the number of the [await] plays no role. *)
Lemma consume_index (captured : bool) (sig k k' : nat)
  (rest : list (list byte)) (e : option jsError) (d : TextDecoder.t)
  (b : jsstring) (st : component) :
  consume captured sig None k rest e d b st =
  consume captured sig None k' rest e d b st.
Proof.
  revert k k' d b st. induction rest as [|c rest IH]; intros; [reflexivity|].
  cbn [consume userAt]. destruct (settle sig st (inl c)); [|reflexivity].
  destruct (TextDecoder.decode d l) as [d' text].
  destruct (processLines _ st) as [st' r].
  destruct r; [apply IH | reflexivity | reflexivity].
Qed.

(** Two chunks read one after the other, or as one chunk. *)
Lemma consume_merge (captured : bool) (sig k : nat) (c1 c2 : list byte)
  (rest : list (list byte)) (e : option jsError) (d : TextDecoder.t)
  (b : jsstring) (st : component) :
  consume captured sig None k ((c1 ++ c2) :: rest) e d b st =
  consume captured sig None k (c1 :: c2 :: rest) e d b st.
Proof.
  cbn [consume userAt]. unfold settle.
  destruct (aborted sig st) eqn:Ha; [reflexivity|].
  rewrite decode_app.
  destruct (TextDecoder.decode d c1) as [d1 t1].
  destruct (TextDecoder.decode d1 c2) as [d2 t2] eqn:Hd2.
  rewrite app_assoc, split_nl_app.
  pose proof (split_nl_nonempty (last (split_nl (b ++ t1)) [] ++ t2)) as Hn.
  rewrite removelast_app, last_app by exact Hn.
  rewrite processLines_app.
  pose proof (processLines_aborted sig (removelast (split_nl (b ++ t1))) st)
    as Hp.
  destruct (processLines (removelast (split_nl (b ++ t1))) st) as [st1 r].
  cbn [fst] in Hp.
  destruct r; [|reflexivity|reflexivity].
  cbn [consume userAt]. unfold settle. rewrite Hp, Ha, Hd2.
  destruct (processLines _ st1) as [st2 r2].
  destruct r2; [apply consume_index | reflexivity | reflexivity].
Qed.

(** One iteration that reads a chunk. *)
Lemma consume_cons (captured : bool) (sig : nat) (click : option nat)
  (k : nat) (c : list byte) (rest : list (list byte)) (e : option jsError)
  (d : TextDecoder.t) (b : jsstring) (st : component) :
  consume captured sig click k (c :: rest) e d b st =
  match settle sig (userAt click k st) (inl c) with
  | inr err => (userAt click k st, inr err)
  | inl value =>
      let (d', text) := TextDecoder.decode d value in
      match processLines (removelast (split_nl (b ++ text)))
              (userAt click k st) with
      | (st', ReturnSuccess) => (st', inl ExitSuccess)
      | (st', ReturnCancelled) => (st', inl ExitCancelledEvent)
      | (st', Continue) =>
          consume captured sig click (S k) rest e d'
            (last (split_nl (b ++ text)) []) st'
      end
  end.
Proof. reflexivity. Qed.

(** The loop sees the bytes, not the chunks. *)
Lemma consume_concat (captured : bool) (sig k : nat)
  (cs : list (list byte)) (e : option jsError) (d : TextDecoder.t)
  (b : jsstring) (st : component) :
  split_nl b = [b] ->
  consume captured sig None k cs e d b st =
  consume captured sig None k [List.concat cs] e d b st.
Proof.
  revert k d b st. induction cs as [|c cs IH]; intros k d b st Hb.
  - cbn [List.concat consume userAt TextDecoder.decode]. unfold settle.
    destruct (aborted sig st) eqn:Ha; [reflexivity|].
    change (TextDecoder.decode d []) with (d, @nil Z). cbv iota beta.
    rewrite app_nil_r, Hb. cbn [removelast last processLines].
    cbn [consume userAt]. unfold settle. rewrite Ha. reflexivity.
  - cbn [List.concat]. rewrite consume_merge.
    rewrite (consume_cons _ _ _ _ c cs),
      (consume_cons _ _ _ _ c [List.concat cs]).
    destruct (settle sig (userAt None k st) (inl c)); [|reflexivity].
    destruct (TextDecoder.decode d l) as [d1 t1].
    destruct (processLines _ _) as [st1 r].
    destruct r; [|reflexivity|reflexivity].
    apply IH. apply split_nl_last.
Qed.

End Loop.
End LoopFacts.

(** ** The enrollment handler *)

Module Enrollment.
Import Fingerprint SplitFacts LoopFacts.
Section Enrollment.
Context {H : Host}.

(** The signal of a run is not aborted when the run starts. *)
Lemma start_not_aborted (values_name : jsstring)
  (store : Settings.SettingsState) (st : component) :
  aborted (snd (start values_name store st))
    (fst (start values_name store st)) = false.
Proof.
  unfold start, newController, aborted. cbn.
  induction (controllers st) as [|b l IH]; [reflexivity | exact IH].
Qed.

(** The state in which the request is issued. *)
Lemma start_eq (values_name : jsstring) (store : Settings.SettingsState)
  (st : component) :
  start values_name store st =
  ({| isRegistering := true;
      sseLog := [startEntry values_name];
      isAddModalVisible := isAddModalVisible st;
      controllers := controllers st ++ [false];
      abortControllerRef := Some (List.length (controllers st));
      effects := effects st
                   ++ [Fetch (enrollRequest store values_name
                                (List.length (controllers st)))];
      logFaults := logFaults st |},
   List.length (controllers st)).
Proof. reflexivity. Qed.

(** A whole stream, read without a click: the complete lines of its text
    are processed in order, then the end of the stream is handled. *)
Lemma consume_whole (captured : bool) (sig k : nat)
  (cs : list (list byte)) (e : option jsError) (st : component) :
  aborted sig st = false ->
  consume captured sig None k cs e TextDecoder.create [] st =
  match processLines
          (removelast
             (split_nl (snd (TextDecoder.decode TextDecoder.create
                               (List.concat cs))))) st with
  | (st', ReturnSuccess) => (st', inl ExitSuccess)
  | (st', ReturnCancelled) => (st', inl ExitCancelledEvent)
  | (st', Continue) =>
      match e with
      | None => (done captured st', inl ExitStreamEnded)
      | Some err => (st', inr err)
      end
  end.
Proof.
  intros Ha. rewrite consume_concat by reflexivity.
  rewrite consume_cons. cbn [userAt]. unfold settle. rewrite Ha.
  destruct (TextDecoder.decode TextDecoder.create (List.concat cs))
    as [d text].
  cbn [snd app].
  pose proof (processLines_aborted sig (removelast (split_nl text)) st) as Hp.
  destruct (processLines (removelast (split_nl text)) st) as [st' r].
  cbn [fst] in Hp. destruct r; try reflexivity.
  cbn [consume userAt]. unfold settle. rewrite Hp, Ha.
  destruct e; reflexivity.
Qed.

(** The handler on a streamed answer, without a click. *)
Lemma handle_stream (values_name : jsstring)
  (store : Settings.SettingsState) (w : world) (r : response) (s : stream)
  (st : component) :
  outcome w = FetchResolved r -> ok r = true -> responseBody r = Some s ->
  click w = None ->
  handleAddFingerprint values_name store w st =
  let (st0, sig) := start values_name store st in
  match processLines
          (removelast
             (split_nl (snd (TextDecoder.decode TextDecoder.create
                               (List.concat (chunks s)))))) st0 with
  | (st', ReturnSuccess) => (finallyBlock sig st', ExitSuccess)
  | (st', ReturnCancelled) => (finallyBlock sig st', ExitCancelledEvent)
  | (st', Continue) =>
      match ending s with
      | None =>
          (finallyBlock sig (done (isRegistering st) st'), ExitStreamEnded)
      | Some err =>
          (finallyBlock sig (catchBlock err st'),
           if str_eqb (name err) (lit "AbortError") then ExitAborted
           else ExitConnectionError)
      end
  end.
Proof.
  intros Ho Hok Hb Hc. unfold handleAddFingerprint.
  pose proof (start_not_aborted values_name store st) as Ha.
  destruct (start values_name store st) as [st0 sig]. cbn [fst snd] in Ha.
  unfold tryBlock. rewrite Hc, Ho. cbn [userAt]. unfold settle at 1.
  rewrite Ha, Hok, Hb. cbn [negb].
  rewrite consume_whole by exact Ha.
  destruct (processLines _ st0) as [st' res].
  destruct res; try reflexivity. destruct (ending s); reflexivity.
Qed.

(** C1. Chunk boundaries are irrelevant: two streams that deliver the same
    bytes, cut into read chunks in any two ways (inside a line, inside a
    multi-byte character, with empty reads), leave the handler in the same
    final state, transcript included, and on the same exit. *)
Theorem chunk_boundaries_irrelevant (values_name : jsstring)
  (store : Settings.SettingsState) (w : world) (cs1 cs2 : list (list byte))
  (st : component) :
  click w = None ->
  List.concat cs1 = List.concat cs2 ->
  handleAddFingerprint values_name store (rechunk cs1 w) st =
  handleAddFingerprint values_name store (rechunk cs2 w) st.
Proof.
  intros Hc Hbytes. unfold handleAddFingerprint.
  pose proof (start_not_aborted values_name store st) as Ha.
  destruct (start values_name store st) as [st0 sig]. cbn [fst snd] in Ha.
  unfold tryBlock, rechunk. cbn [click outcome]. rewrite Hc. cbn [userAt].
  destruct (outcome w) as [err|r]; [reflexivity|].
  unfold settle at 1 3. rewrite Ha. cbn [ok json status responseBody].
  destruct (ok r); cbn [negb]; [|reflexivity].
  destruct (responseBody r) as [s|]; [|reflexivity].
  cbn [chunks ending].
  rewrite (consume_concat _ _ _ cs1), (consume_concat _ _ _ cs2)
    by reflexivity.
  rewrite Hbytes. reflexivity.
Qed.

Lemma finally_done_log (sig : nat) (captured : bool) (st : component) :
  sseLog (finallyBlock sig (done captured st)) = sseLog st ++ [endedMarker].
Proof.
  unfold finallyBlock, done. destruct captured; cbn;
    destruct (abortControllerRef st) as [id|]; cbn;
    try destruct (Nat.eqb id sig); reflexivity.
Qed.

(** The handler on a stream whose text is known line by line. *)
Lemma handle_lines (values_name : jsstring)
  (store : Settings.SettingsState) (w : world) (r : response) (s : stream)
  (lines : list jsstring) (partial : jsstring) (st : component) :
  outcome w = FetchResolved r -> ok r = true -> responseBody r = Some s ->
  ending s = None -> click w = None ->
  snd (TextDecoder.decode TextDecoder.create (List.concat (chunks s))) =
    joinLines lines ++ partial ->
  forallb noLineFeed lines = true -> noLineFeed partial = true ->
  handleAddFingerprint values_name store w st =
  let (st0, sig) := start values_name store st in
  match processLines lines st0 with
  | (st', ReturnSuccess) => (finallyBlock sig st', ExitSuccess)
  | (st', ReturnCancelled) => (finallyBlock sig st', ExitCancelledEvent)
  | (st', Continue) =>
      (finallyBlock sig (done (isRegistering st) st'), ExitStreamEnded)
  end.
Proof.
  intros Ho Hok Hb He Hc Ht Hl Hp.
  rewrite (handle_stream values_name store w r s st Ho Hok Hb Hc).
  rewrite Ht, split_nl_joinLines, removelast_last, He by assumption.
  reflexivity.
Qed.

(** C10. A partial line left in the buffer at the end of the stream is
    dropped: when the text of a stream that ends normally is a sequence of
    complete lines followed by an unfinished line, the handler processes
    the complete lines only. Its result does not mention the unfinished
    line, and when no complete line made it return, the transcript is the
    one after the complete lines followed by the stream-ended marker. *)
Theorem partial_line_discarded (values_name : jsstring)
  (store : Settings.SettingsState) (w : world) (r : response) (s : stream)
  (lines : list jsstring) (partial : jsstring) (st : component) :
  outcome w = FetchResolved r -> ok r = true -> responseBody r = Some s ->
  ending s = None -> click w = None ->
  snd (TextDecoder.decode TextDecoder.create (List.concat (chunks s))) =
    joinLines lines ++ partial ->
  forallb noLineFeed lines = true -> noLineFeed partial = true ->
  handleAddFingerprint values_name store w st =
    (let (st0, sig) := start values_name store st in
     match processLines lines st0 with
     | (st', ReturnSuccess) => (finallyBlock sig st', ExitSuccess)
     | (st', ReturnCancelled) => (finallyBlock sig st', ExitCancelledEvent)
     | (st', Continue) =>
         (finallyBlock sig (done (isRegistering st) st'), ExitStreamEnded)
     end) /\
  (forall st',
     processLines lines (fst (start values_name store st)) = (st', Continue) ->
     sseLog (fst (handleAddFingerprint values_name store w st)) =
     sseLog st' ++ [endedMarker]).
Proof.
  intros Ho Hok Hb He Hc Ht Hl Hp.
  pose proof (handle_lines values_name store w r s lines partial st
                Ho Hok Hb He Hc Ht Hl Hp) as Hh.
  split; [exact Hh|].
  intros st' Hst'. rewrite Hh.
  destruct (start values_name store st) as [st0 sig]. cbn [fst] in Hst'.
  rewrite Hst'. cbn [fst]. apply finally_done_log.
Qed.

(** A line that delivers no terminal event changes the transcript, its
    queue of faulty updates and the console only. *)
Lemma quiet_line (line : jsstring) (st : component) :
  terminal line = false ->
  exists log n faults,
    processLine line st =
    ({| isRegistering := isRegistering st;
        sseLog := sseLog st ++ log;
        isAddModalVisible := isAddModalVisible st;
        controllers := controllers st;
        abortControllerRef := abortControllerRef st;
        effects := effects st ++ repeat ConsoleError n;
        logFaults := logFaults st ++ faults |}, Continue).
Proof.
  unfold terminal, lineStatus. destruct st as [reg log0 vis cs ref es fs].
  line_cases line {| isRegistering := reg; sseLog := log0;
                     isAddModalVisible := vis; controllers := cs;
                     abortControllerRef := ref; effects := es;
                     logFaults := fs |};
    intros Hq; try discriminate.
  - eexists [_], 0%nat, []. cbn. rewrite !app_nil_r. reflexivity.
  - eexists [_], 1%nat, [_]. reflexivity.
  - eexists [_], 1%nat, []. cbn. rewrite !app_nil_r. reflexivity.
  - exists [], 0%nat, []. cbn. rewrite !app_nil_r. reflexivity.
Qed.

Lemma quiet_lines (lines : list jsstring) (st : component) :
  forallb (fun l => negb (terminal l)) lines = true ->
  exists log n faults,
    processLines lines st =
    ({| isRegistering := isRegistering st;
        sseLog := sseLog st ++ log;
        isAddModalVisible := isAddModalVisible st;
        controllers := controllers st;
        abortControllerRef := abortControllerRef st;
        effects := effects st ++ repeat ConsoleError n;
        logFaults := logFaults st ++ faults |}, Continue).
Proof.
  revert st. induction lines as [|l lines IH]; intros st Hq.
  - exists [], 0%nat, []. destruct st. cbn. rewrite !app_nil_r.
    reflexivity.
  - cbn in Hq. apply andb_prop in Hq as [Hl Hq].
    apply negb_true_iff in Hl.
    destruct (quiet_line l st Hl) as (log1 & n1 & f1 & E1).
    cbn [processLines]. rewrite E1.
    match goal with
    | |- context [processLines lines ?s] =>
        destruct (IH s Hq) as (log2 & n2 & f2 & E2)
    end.
    rewrite E2. cbn.
    exists (log1 ++ log2), (n1 + n2)%nat, (f1 ++ f2).
    rewrite repeat_app, !app_assoc. reflexivity.
Qed.

(** C2. A stream that ends normally without having delivered a success,
    error or cancelled event (in particular one that delivers nothing):
    the handler leaves by the stream-ended exit, the transcript ends with
    the stream-ended marker, registration is over, and apart from the
    request and console output the only effect is the warning of the
    [done] block, issued when the [isRegistering] captured by the handler
    is set; there is no success, error or info notice, no refresh, and the
    reader is not cancelled. *)
Theorem ended_without_result (values_name : jsstring)
  (store : Settings.SettingsState) (w : world) (r : response) (s : stream)
  (lines : list jsstring) (partial : jsstring) (st : component) :
  outcome w = FetchResolved r -> ok r = true -> responseBody r = Some s ->
  ending s = None -> click w = None ->
  snd (TextDecoder.decode TextDecoder.create (List.concat (chunks s))) =
    joinLines lines ++ partial ->
  forallb noLineFeed lines = true -> noLineFeed partial = true ->
  forallb (fun l => negb (terminal l)) lines = true ->
  snd (handleAddFingerprint values_name store w st) = ExitStreamEnded /\
  (exists log,
     sseLog (fst (handleAddFingerprint values_name store w st)) =
     startEntry values_name :: log ++ [endedMarker]) /\
  isRegistering (fst (handleAddFingerprint values_name store w st)) = false /\
  (exists n,
     effects (fst (handleAddFingerprint values_name store w st)) =
     effects st
       ++ [Fetch (enrollRequest store values_name
                    (List.length (controllers st)))]
       ++ repeat ConsoleError n
       ++ (if isRegistering st then
             [Notice Warning
                (VStr (lit "Registration process ended without a clear status."))]
           else [])).
Proof.
  intros Ho Hok Hb He Hc Ht Hl Hp Hq.
  rewrite (handle_lines values_name store w r s lines partial st
             Ho Hok Hb He Hc Ht Hl Hp).
  rewrite start_eq.
  match goal with
  | |- context [processLines lines ?s0] =>
      destruct (quiet_lines lines s0 Hq) as (log & n & faults & E)
  end.
  rewrite E. cells. unfold finallyBlock, done.
  destruct (isRegistering st); cells; rewrite Nat.eqb_refl; cells;
    (split; [reflexivity|]; split; [exists log; reflexivity|];
     split; [reflexivity|]; exists n; rewrite <- ?app_assoc; cbn [app];
     rewrite ?app_nil_r; reflexivity).
Qed.

(** *** Monotonicity *)

Lemma grows_refl (a : component) : grows a a.
Proof.
  repeat split; [exists [] | exists []]; rewrite app_nil_r; reflexivity.
Qed.

Lemma grows_trans (a b c : component) : grows a b -> grows b c -> grows a c.
Proof.
  intros ((l1 & H1) & (e1 & H2) & H3) ((l2 & H4) & (e2 & H5) & H6).
  repeat split.
  - exists (l1 ++ l2). rewrite H4, H1, app_assoc. reflexivity.
  - exists (e1 ++ e2). rewrite H5, H2, app_assoc. reflexivity.
  - congruence.
Qed.

Lemma grows_appendLog (v : val) (a : component) : grows a (appendLog v a).
Proof.
  repeat split; [exists [v] | exists []]; cells;
    rewrite ?app_nil_r; reflexivity.
Qed.

Lemma grows_emit (e : effect) (a : component) : grows a (emit e a).
Proof.
  repeat split; [exists [] | exists [e]]; cells;
    rewrite ?app_nil_r; reflexivity.
Qed.

Lemma grows_queueFault (e : jsError) (a : component) :
  grows a (queueFault e a).
Proof.
  repeat split; [exists [] | exists []]; cells;
    rewrite ?app_nil_r; reflexivity.
Qed.

Lemma grows_setIsRegistering (b : bool) (a : component) :
  grows a (setIsRegistering b a).
Proof.
  repeat split; [exists [] | exists []]; cells;
    rewrite ?app_nil_r; reflexivity.
Qed.

Lemma grows_setRef (r : option nat) (a : component) : grows a (setRef r a).
Proof.
  repeat split; [exists [] | exists []]; cells;
    rewrite ?app_nil_r; reflexivity.
Qed.

Lemma setFlag_length (id : nat) (l : list bool) :
  List.length (setFlag id l) = List.length l.
Proof.
  revert id. induction l as [|b l IH]; intros [|id]; cbn; auto.
Qed.

Lemma grows_userAt (click : option nat) (k : nat) (a : component) :
  grows a (userAt click k a).
Proof.
  unfold userAt, pressCancelOp, cancelOpClick, abort.
  destruct click as [n|]; [|apply grows_refl].
  destruct (Nat.eqb n k); [|apply grows_refl].
  destruct (isRegistering a); [|apply grows_refl].
  destruct (abortControllerRef a); [|apply grows_refl].
  repeat split; [exists [] | exists [] | ]; cells;
    rewrite ?app_nil_r, ?setFlag_length; reflexivity.
Qed.

Ltac grow :=
  repeat first
    [ apply grows_refl
    | eapply grows_trans; [| first [ apply grows_appendLog
                                   | apply grows_emit
                                   | apply grows_queueFault
                                   | apply grows_setIsRegistering
                                   | apply grows_setRef ] ] ].

Lemma grows_processLine (line : jsstring) (a : component) :
  grows a (fst (processLine line a)).
Proof. unfold catchParse. line_cases line a; cbn [fst]; grow. Qed.

Lemma grows_processLines (lines : list jsstring) (a : component) :
  grows a (fst (processLines lines a)).
Proof.
  revert a. induction lines as [|l lines IH]; intros a; [apply grows_refl|].
  cbn [processLines]. pose proof (grows_processLine l a) as Hl.
  destruct (processLine l a) as [a' r]. cbn [fst] in Hl.
  destruct r; cbn [fst]; try exact Hl.
  eapply grows_trans; [exact Hl | apply IH].
Qed.

Lemma grows_done (captured : bool) (a : component) :
  grows a (done captured a).
Proof. unfold done. destruct captured; grow. Qed.

Lemma grows_consume (captured : bool) (sig : nat) (click : option nat)
  (k : nat) (rest : list (list byte)) (e : option jsError)
  (d : TextDecoder.t) (b : jsstring) (a : component) :
  grows a (fst (consume captured sig click k rest e d b a)).
Proof.
  revert k d b a. induction rest as [|c rest IH]; intros k d b a.
  - cbn [consume]. destruct (settle _ _ _); cbn [fst].
    + eapply grows_trans; [apply grows_userAt | apply grows_done].
    + apply grows_userAt.
  - rewrite consume_cons. destruct (settle _ _ _); cbn [fst];
      [|apply grows_userAt].
    destruct (TextDecoder.decode d l) as [d' text].
    pose proof (grows_processLines (removelast (split_nl (b ++ text)))
                  (userAt click k a)) as Hp.
    destruct (processLines _ _) as [a' r]. cbn [fst] in Hp.
    pose proof (grows_userAt click k a) as Hu.
    destruct r; cbn [fst]; try (eapply grows_trans; eassumption).
    eapply grows_trans; [eapply grows_trans; eassumption | apply IH].
Qed.

Lemma grows_tryBlock (captured : bool) (sig : nat) (w : world)
  (a : component) :
  grows a (fst (tryBlock captured sig w a)).
Proof.
  unfold tryBlock.
  pose proof (grows_userAt (click w) 0 a) as H0.
  destruct (settle sig (userAt (click w) 0 a) _) as [r|err];
    cbn [fst]; [|exact H0].
  destruct (ok r); cbn [negb].
  - destruct (responseBody r) as [s|].
    + eapply grows_trans; [exact H0 | apply grows_consume].
    + cbn [fst]. eapply grows_trans; [exact H0 | grow].
  - pose proof (grows_userAt (click w) 1 (userAt (click w) 0 a)) as H1.
    destruct (getProp _ _); cbn [fst].
    + destruct (ToString _); cbn [fst].
      * eapply grows_trans; [eapply grows_trans; eassumption | grow].
      * eapply grows_trans; eassumption.
    + eapply grows_trans; eassumption.
Qed.

Lemma grows_catchBlock (error : jsError) (a : component) :
  grows a (catchBlock error a).
Proof. unfold catchBlock. destruct (str_eqb _ _); grow. Qed.

Lemma grows_finallyBlock (sig : nat) (a : component) :
  grows a (finallyBlock sig a).
Proof.
  unfold finallyBlock. cells.
  destruct (abortControllerRef a) as [id|]; [destruct (Nat.eqb id sig)|];
    grow.
Qed.

(** C4 (as the code has it). The guard against a second start is in the
    rendering: while [isRegistering] holds, the footer of the modal offers
    the cancel button only. The handler itself checks nothing: called in
    any state and against any server, it installs a new AbortController,
    issues the POST with it, and leaves a transcript that begins with the
    starting entry of this call. *)
Theorem start_is_unguarded (values_name : jsstring)
  (store : Settings.SettingsState) (w : world) (st : component) :
  footer (setIsRegistering true st) = [CancelOp] /\
  (exists log,
     sseLog (fst (handleAddFingerprint values_name store w st)) =
     startEntry values_name :: log) /\
  (exists es,
     effects (fst (handleAddFingerprint values_name store w st)) =
     effects st
       ++ Fetch (enrollRequest store values_name
                   (List.length (controllers st))) :: es) /\
  List.length (controllers (fst (handleAddFingerprint values_name store w st)))
    = S (List.length (controllers st)).
Proof.
  split; [reflexivity|].
  assert (Hg : grows (fst (start values_name store st))
                 (fst (handleAddFingerprint values_name store w st))).
  { unfold handleAddFingerprint.
    destruct (start values_name store st) as [st0 sig]. cbn [fst].
    pose proof (grows_tryBlock (isRegistering st) sig w st0) as Ht.
    destruct (tryBlock _ sig w st0) as [st1 [x|err]]; cbn [fst] in *.
    - eapply grows_trans; [exact Ht | apply grows_finallyBlock].
    - eapply grows_trans; [exact Ht|].
      eapply grows_trans; [apply grows_catchBlock | apply grows_finallyBlock]. }
  rewrite start_eq in Hg. cbn [fst] in Hg.
  destruct Hg as ((log & Hl) & (es & He) & Hc).
  cbn [sseLog effects controllers app] in Hl, He, Hc.
  split; [exists log; exact Hl|].
  split; [exists es; rewrite He, <- app_assoc; reflexivity|].
  rewrite Hc, length_app. cbn [List.length]. lia.
Qed.

(** *** Cancellation *)

Lemma setFlag_fresh (l : list bool) :
  nth (List.length l) (setFlag (List.length l) (l ++ [false])) false = true.
Proof. induction l as [|b l IH]; [reflexivity | exact IH]. Qed.

Lemma userAt_other (click : option nat) (k : nat) (st : component) :
  (forall j, click = Some j -> j <> k) -> userAt click k st = st.
Proof.
  intros Hj. unfold userAt. destruct click as [n|]; [|reflexivity].
  destruct (Nat.eqb_spec n k) as [->|_]; [|reflexivity].
  exfalso. exact (Hj k eq_refl eq_refl).
Qed.

Lemma done_aborted (sig : nat) (captured : bool) (st : component) :
  aborted sig (done captured st) = aborted sig st.
Proof. unfold done. destruct captured; reflexivity. Qed.

Lemma catchBlock_aborted (sig : nat) (error : jsError) (st : component) :
  aborted sig (catchBlock error st) = aborted sig st.
Proof. unfold catchBlock. destruct (str_eqb _ _); reflexivity. Qed.

Lemma finallyBlock_aborted (sig sig' : nat) (st : component) :
  aborted sig (finallyBlock sig' st) = aborted sig st.
Proof.
  unfold finallyBlock. cells.
  destruct (abortControllerRef st) as [id|]; [destruct (Nat.eqb id sig')|];
    reflexivity.
Qed.

(** Once the click is over, or when it had no effect, the signal stays
    as it is. *)
Lemma consume_quiet (captured : bool) (sig : nat) (click : option nat)
  (k : nat) (rest : list (list byte)) (e : option jsError)
  (d : TextDecoder.t) (b : jsstring) (st : component) :
  (forall j, click = Some j -> (j <= k)%nat) ->
  aborted sig (userAt click k st) = false ->
  aborted sig (fst (consume captured sig click k rest e d b st)) = false.
Proof.
  revert k d b st. induction rest as [|c rest IH]; intros k d b st Hj Ha.
  - cbn [consume]. unfold settle. rewrite Ha.
    destruct (readEnd e); cbn [fst]; [rewrite done_aborted|]; exact Ha.
  - rewrite consume_cons. unfold settle. rewrite Ha.
    destruct (TextDecoder.decode d c) as [d' text].
    pose proof (processLines_aborted sig
                  (removelast (split_nl (b ++ text))) (userAt click k st))
      as Hp.
    destruct (processLines _ _) as [st' r]. cbn [fst] in Hp.
    destruct r; cbn [fst]; try congruence.
    apply IH.
    + intros j E. specialize (Hj j E). lia.
    + rewrite userAt_other; [congruence|].
      intros j E. specialize (Hj j E). lia.
Qed.

(** A loop that ends with its signal aborted ends on the AbortError. *)
Lemma consume_aborted_exit (captured : bool) (sig : nat)
  (click : option nat) (k : nat) (rest : list (list byte))
  (e : option jsError) (d : TextDecoder.t) (b : jsstring) (st : component) :
  aborted sig (fst (consume captured sig click k rest e d b st)) = true ->
  snd (consume captured sig click k rest e d b st) = inr AbortError.
Proof.
  revert k d b st. induction rest as [|c rest IH]; intros k d b st.
  - cbn [consume]. unfold settle.
    destruct (aborted sig (userAt click k st)) eqn:Ha; [reflexivity|].
    destruct (readEnd e); cbn [fst]; rewrite ?done_aborted; congruence.
  - rewrite consume_cons. unfold settle.
    destruct (aborted sig (userAt click k st)) eqn:Ha; [reflexivity|].
    destruct (TextDecoder.decode d c) as [d' text].
    pose proof (processLines_aborted sig
                  (removelast (split_nl (b ++ text))) (userAt click k st))
      as Hp.
    destruct (processLines _ _) as [st' r]. cbn [fst] in Hp.
    destruct r; cbn [fst]; try congruence.
    apply IH.
Qed.

(** When the click during read [n] took effect, the chunks from [n] on
    are never looked at. *)
Lemma consume_cut (captured : bool) (sig n : nat) :
  forall (k : nat) (rest : list (list byte)) (e : option jsError)
         (d : TextDecoder.t) (b : jsstring) (st : component),
  aborted sig
    (fst (consume captured sig (Some (k + n)%nat) k rest e d b st)) = true ->
  consume captured sig (Some (k + n)%nat) k rest e d b st =
  consume captured sig (Some (k + n)%nat) k (firstn n rest) e d b st.
Proof.
  induction n as [|n IH]; intros k rest e d b st Hf.
  - cbn [firstn]. rewrite Nat.add_0_r in *.
    destruct (aborted sig (userAt (Some k) k st)) eqn:Ha.
    + destruct rest as [|c rest]; [reflexivity|].
      rewrite consume_cons. cbn [consume]. unfold settle. rewrite Ha.
      reflexivity.
    + exfalso. rewrite consume_quiet in Hf; [discriminate| |exact Ha].
      intros j [= <-]. lia.
  - destruct rest as [|c rest]; [reflexivity|]. cbn [firstn].
    revert Hf. rewrite !consume_cons.
    destruct (settle sig _ (inl c)); [|reflexivity].
    destruct (TextDecoder.decode d l) as [d' text].
    destruct (processLines _ _) as [st' r].
    destruct r; try reflexivity.
    replace (k + S n)%nat with (S k + n)%nat by lia.
    apply IH.
Qed.

Lemma conclude_aborted (sig sig' : nat)
  (res : component * (exit + jsError)) :
  aborted sig (fst (conclude sig' res)) = aborted sig (fst res).
Proof.
  destruct res as [st [x|err]]; cbn [conclude fst];
    rewrite finallyBlock_aborted, ?catchBlock_aborted; reflexivity.
Qed.

Lemma handle_click0 (values_name : jsstring)
  (store : Settings.SettingsState) (w : world) (st : component) :
  click w = Some 0%nat ->
  handleAddFingerprint values_name store w st =
  conclude (List.length (controllers st))
    (userAt (Some 0%nat) 0 (fst (start values_name store st)),
     inr AbortError).
Proof.
  intros Hc. unfold handleAddFingerprint. rewrite start_eq. cbn [fst].
  unfold tryBlock. rewrite Hc. unfold settle at 1.
  replace (aborted _ (userAt (Some 0%nat) 0 _)) with true; [reflexivity|].
  symmetry. unfold aborted. cbn. apply setFlag_fresh.
Qed.

Lemma handle_later (values_name : jsstring)
  (store : Settings.SettingsState) (w : world) (st : component) :
  click w <> Some 0%nat ->
  handleAddFingerprint values_name store w st =
  let (st0, sig) := start values_name store st in
  conclude sig
    match outcome w with
    | FetchRejected e => (st0, inr e)
    | FetchResolved r =>
        if ok r then
          match responseBody r with
          | Some s =>
              consume (isRegistering st) sig (click w) 1 (chunks s)
                (ending s) TextDecoder.create [] st0
          | None =>
              (setIsRegistering false
                 (appendLog (VStr (lit "No response body from server for SSE."))
                    (emit (Notice Error
                             (VStr (lit "No response body from server for SSE.")))
                       st0)), inl ExitNoBody)
          end
        else tryBlock (isRegistering st) sig w st0
    end.
Proof.
  intros Hc. unfold handleAddFingerprint.
  pose proof (start_not_aborted values_name store st) as Ha.
  destruct (start values_name store st) as [st0 sig]. cbn [fst snd] in Ha.
  unfold conclude.
  destruct (outcome w) as [e|r] eqn:Ho.
  - unfold tryBlock. rewrite Ho, userAt_other by congruence.
    unfold settle. rewrite Ha. reflexivity.
  - destruct (ok r) eqn:Hok; [|reflexivity].
    unfold tryBlock. rewrite Ho, userAt_other by congruence.
    unfold settle at 1. rewrite Ha, Hok. cbn [negb].
    destruct (responseBody r); reflexivity.
Qed.

(** C3 (as the code has it). When the cancel button took effect while the
    request or a read of the stream was pending, the handler leaves by the
    abort exit: registration is over, the last transcript entry and the
    last effect are the cancelled-by-user message, and when the click came
    during the read after [n] chunks, the result is the one of the stream
    cut after these [n] chunks: nothing that the server sent later is
    processed. *)
Theorem cancel_during_request_or_read (values_name : jsstring)
  (store : Settings.SettingsState) (w : world) (st : component) :
  click w = Some 0%nat \/
  (forall r, outcome w = FetchResolved r -> ok r = true) ->
  aborted (List.length (controllers st))
    (fst (handleAddFingerprint values_name store w st)) = true ->
  snd (handleAddFingerprint values_name store w st) = ExitAborted /\
  isRegistering (fst (handleAddFingerprint values_name store w st)) = false /\
  (exists log,
     sseLog (fst (handleAddFingerprint values_name store w st)) =
     log ++ [abortMessage]) /\
  (exists es,
     effects (fst (handleAddFingerprint values_name store w st)) =
     es ++ [Notice Info abortMessage]) /\
  (forall n r s,
     click w = Some (S n) -> outcome w = FetchResolved r ->
     responseBody r = Some s ->
     handleAddFingerprint values_name store w st =
     handleAddFingerprint values_name store
       (rechunk (firstn n (chunks s)) w) st).
Proof.
  intros Hwhen.
  set (sig := List.length (controllers st)).
  assert (Hexit : forall st1,
            let fin := conclude sig (st1, inr AbortError) in
            snd fin = ExitAborted /\
            isRegistering (fst fin) = false /\
            (exists log, sseLog (fst fin) = log ++ [abortMessage]) /\
            (exists es, effects (fst fin) = es ++ [Notice Info abortMessage])).
  { intros st1. unfold conclude, finallyBlock, catchBlock.
    change (str_eqb (name AbortError) (lit "AbortError")) with true.
    cbv iota. cells.
    destruct (abortControllerRef st1) as [id|];
      [destruct (Nat.eqb id sig)|]; cells;
      (split; [reflexivity|]; split; [reflexivity|];
       split; eexists; reflexivity). }
  destruct (click w) as [[|m]|] eqn:Hc.
  - (* the click comes while the request is pending *)
    rewrite (handle_click0 values_name store w st Hc). fold sig. intros _.
    destruct (Hexit (userAt (Some 0%nat) 0 (fst (start values_name store st))))
      as (H0 & H1 & H2 & H3).
    split; [exact H0|]. split; [exact H1|]. split; [exact H2|].
    split; [exact H3|]. intros n r s [=].
  - (* the click comes during a read, if the loop gets there *)
    assert (Hok : forall r, outcome w = FetchResolved r -> ok r = true)
      by (destruct Hwhen as [[=]|Hok]; exact Hok).
    assert (Hc0 : click w <> Some 0%nat) by congruence.
    rewrite (handle_later values_name store w st Hc0).
    pose proof (start_not_aborted values_name store st) as Ha0.
    rewrite start_eq in *. cbn [fst snd] in Ha0. fold sig in Ha0 |- *.
    set (st0 := {| isRegistering := true; sseLog := [startEntry values_name];
                   isAddModalVisible := isAddModalVisible st;
                   controllers := controllers st ++ [false];
                   abortControllerRef := Some sig;
                   effects := effects st
                     ++ [Fetch (enrollRequest store values_name sig)];
                   logFaults := logFaults st |})
      in *.
    rewrite conclude_aborted.
    destruct (outcome w) as [err|r] eqn:Ho.
    + cbn [fst]. rewrite Ha0. discriminate.
    + rewrite (Hok r eq_refl).
      destruct (responseBody r) as [s|] eqn:Hb;
        [|cbn [fst]; cells; fold st0; intros Hf;
          unfold aborted in Hf, Ha0; cbn in Hf, Ha0; congruence].
      rewrite Hc. intros Hf.
      pose proof (consume_aborted_exit (isRegistering st) sig
                    (Some (S m)) 1 (chunks s) (ending s)
                    TextDecoder.create [] st0 Hf) as Hx.
      destruct (consume (isRegistering st) sig (Some (S m)) 1 (chunks s)
                  (ending s) TextDecoder.create [] st0)
        as [st1 res] eqn:Econs.
      cbn [snd] in Hx. subst res.
      destruct (Hexit st1) as (H0 & H1 & H2 & H3).
      split; [exact H0|]. split; [exact H1|]. split; [exact H2|].
      split; [exact H3|].
      intros n r' s' [= <-] [= <-] Hb'.
      rewrite Hb in Hb'. injection Hb' as <-.
      assert (Hc' : click (rechunk (firstn m (chunks s)) w) <> Some 0%nat).
      { cbn [rechunk click]. congruence. }
      rewrite (handle_later values_name store _ st Hc').
      rewrite start_eq. fold sig. fold st0.
      cbn [rechunk outcome click]. rewrite Ho, Hb, Hc.
      cbn [ok responseBody chunks ending]. rewrite (Hok r eq_refl).
      pose proof (consume_cut (isRegistering st) sig m 1 (chunks s)
                    (ending s) TextDecoder.create [] st0) as Hcut.
      cbn [Nat.add] in Hcut. rewrite Econs in Hcut.
      rewrite <- (Hcut Hf). reflexivity.
  - (* no click *)
    assert (Hok : forall r, outcome w = FetchResolved r -> ok r = true)
      by (destruct Hwhen as [[=]|Hok]; exact Hok).
    assert (Hc0 : click w <> Some 0%nat) by congruence.
    rewrite (handle_later values_name store w st Hc0).
    pose proof (start_not_aborted values_name store st) as Ha0.
    rewrite start_eq in *. cbn [fst snd] in Ha0. fold sig in Ha0 |- *.
    set (st0 := {| isRegistering := true; sseLog := [startEntry values_name];
                   isAddModalVisible := isAddModalVisible st;
                   controllers := controllers st ++ [false];
                   abortControllerRef := Some sig;
                   effects := effects st
                     ++ [Fetch (enrollRequest store values_name sig)];
                   logFaults := logFaults st |})
      in *.
    rewrite conclude_aborted.
    destruct (outcome w) as [err|r] eqn:Ho.
    + cbn [fst]. rewrite Ha0. discriminate.
    + rewrite (Hok r eq_refl).
      destruct (responseBody r) as [s|] eqn:Hb;
        [|cbn [fst]; cells; fold st0; intros Hf;
          unfold aborted in Hf, Ha0; cbn in Hf, Ha0; congruence].
      rewrite Hc, consume_quiet; [discriminate|discriminate|exact Ha0].
Qed.

(** C8 (as the code has it). The handler does not check a payload
    against the format of an event; what it notes is what its [try]
    catches. For an event line whose payload is not JSON, or is [null],
    that is one transcript entry, the parse-error note, and one console
    message, and the loop goes on with the next line from a state in which
    registration, the modal, the controllers and the notices are as
    before. For the text that is not JSON nothing else happens; for [null]
    the update of the transcript that line 154 queued before the failing
    read throws in its turn when React runs it. Every other payload is
    handled as an event: its message, or its JSON text, becomes a
    transcript entry, and neither a note nor a console message is
    written. *)
Theorem parse_failure_is_local (line : jsstring) (rest : list jsstring)
  (st : component) :
  startsWith line (lit "data: ") = true ->
  (forall m, payloadError line = Some m ->
     processLine line st =
       (appendLog (parseErrorNote m)
          (emit ConsoleError (queuedBefore line st)), Continue) /\
     processLines (line :: rest) st =
       processLines rest
         (appendLog (parseErrorNote m)
            (emit ConsoleError (queuedBefore line st))) /\
     isRegistering (fst (processLine line st)) = isRegistering st /\
     isAddModalVisible (fst (processLine line st)) = isAddModalVisible st /\
     controllers (fst (processLine line st)) = controllers st /\
     abortControllerRef (fst (processLine line st)) =
       abortControllerRef st /\
     sseLog (fst (processLine line st)) = sseLog st ++ [parseErrorNote m] /\
     effects (fst (processLine line st)) = effects st ++ [ConsoleError] /\
     logFaults (fst (processLine line st)) =
       logFaults st ++
       match JSON_parse (substring line (List.length (lit "data: "))) with
       | inr _ => []
       | inl eventData =>
           [TypeError (TypeError_message eventData (lit "message"))]
       end) /\
  (forall eventData,
     JSON_parse (substring line (List.length (lit "data: "))) =
       inl eventData ->
     payloadError line = None ->
     sseLog (fst (processLine line st)) =
       sseLog st ++ [eventEntry eventData] /\
     logFaults (fst (processLine line st)) = logFaults st /\
     exists es,
       effects (fst (processLine line st)) = effects st ++ es /\
       ~ In ConsoleError es).
Proof.
  intros Hs. split.
  - intros m Hp.
    assert (Hline : processLine line st =
                    (appendLog (parseErrorNote m)
                       (emit ConsoleError (queuedBefore line st)),
                     Continue)).
    { unfold payloadError in Hp. unfold processLine, queuedBefore.
      rewrite Hs.
      destruct (JSON_parse _) as [eventData|m'].
      - unfold handleEvent.
        destruct (getProp eventData (lit "status")) as [?|e];
          [discriminate|].
        injection Hp as <-. reflexivity.
      - injection Hp as <-. reflexivity. }
    split; [exact Hline|].
    split; [cbn [processLines]; rewrite Hline; reflexivity|].
    rewrite Hline. unfold queuedBefore, queueEntry, payloadError in *.
    destruct (JSON_parse _) as [eventData|m'].
    + destruct (getProp eventData (lit "status")) as [?|e] eqn:Es;
        [discriminate|].
      rewrite (getProp_throws eventData (lit "status") (lit "message") e Es).
      cells. repeat split; reflexivity.
    + cells. rewrite app_nil_r. repeat split; reflexivity.
  - intros eventData Hj Hp. unfold payloadError in Hp.
    unfold eventEntry. unfold processLine, handleEvent, queueEntry.
    rewrite Hs. rewrite Hj in *.
    destruct (getProp eventData (lit "status")) as [status|e] eqn:Es;
      [|discriminate].
    destruct (getProp_defined eventData status (lit "status")
                (lit "message") Es) as [message Em].
    rewrite Em.
    destruct (strict_eq_str status (lit "success"));
      [|destruct (strict_eq_str status (lit "error"));
        [|destruct (strict_eq_str status (lit "cancelled"))]];
      cells; (split; [reflexivity|]; split; [reflexivity|]);
      rewrite <- ?app_assoc; cbn [app];
      [ eexists; split; [reflexivity|];
        intros [E|[E|[E|[E|[]]]]]; discriminate
      | eexists; split; [reflexivity|]; intros [E|[]]; discriminate
      | eexists; split; [reflexivity|]; intros [E|[E|[]]]; discriminate
      | exists []; split; [now rewrite app_nil_r | intros []] ].
Qed.

(** An event that is neither success, error nor cancelled. *)
Lemma progress_line (line : jsstring) (fields : list (jsstring * val))
  (st : component) :
  carries line (lit "progress") fields ->
  processLine line st = (appendLog (eventEntry (VObj fields)) st, Continue).
Proof.
  intros (Hs & Hp & Hst). unfold processLine. rewrite Hs, Hp.
  unfold handleEvent, eventEntry. cbn [getProp]. rewrite Hst.
  reflexivity.
Qed.

Lemma success_line (line : jsstring) (fields : list (jsstring * val))
  (st : component) :
  carries line (lit "success") fields ->
  processLine line st =
  (emit SetTimeout
     (emit ReaderCancel
        (emit Refresh
           (setIsRegistering false
              (emit (Notice Success
                       (or_else (lookup (lit "message") fields)
                          (VStr (lit "Fingerprint registered successfully!"))))
                 (appendLog (eventEntry (VObj fields)) st))))),
   ReturnSuccess).
Proof.
  intros (Hs & Hp & Hst). unfold processLine. rewrite Hs, Hp.
  unfold handleEvent, eventEntry. cbn [getProp]. rewrite Hst.
  reflexivity.
Qed.

Lemma refreshes_app (a b : list effect) :
  refreshes (a ++ b) = (refreshes a + refreshes b)%nat.
Proof. unfold refreshes. rewrite filter_app, length_app. reflexivity. Qed.

Lemma readerCancels_app (a b : list effect) :
  readerCancels (a ++ b) = (readerCancels a + readerCancels b)%nat.
Proof. unfold readerCancels. rewrite filter_app, length_app. reflexivity. Qed.

(** C5 (as the code has it). Two progress events followed by a success
    event: the handler leaves by the success exit with registration over,
    the reader is cancelled once, the identity list is refreshed exactly
    once, and the transcript holds four entries, the starting entry
    followed by one entry per event. *)
Theorem two_progress_then_success (values_name : jsstring)
  (store : Settings.SettingsState) (w : world) (r : response) (s : stream)
  (l1 l2 l3 more : jsstring) (f1 f2 f3 : list (jsstring * val))
  (st : component) :
  outcome w = FetchResolved r -> ok r = true -> responseBody r = Some s ->
  click w = None ->
  snd (TextDecoder.decode TextDecoder.create (List.concat (chunks s))) =
    joinLines [l1; l2; l3] ++ more ->
  forallb noLineFeed [l1; l2; l3] = true ->
  carries l1 (lit "progress") f1 ->
  carries l2 (lit "progress") f2 ->
  carries l3 (lit "success") f3 ->
  snd (handleAddFingerprint values_name store w st) = ExitSuccess /\
  sseLog (fst (handleAddFingerprint values_name store w st)) =
    [startEntry values_name; eventEntry (VObj f1); eventEntry (VObj f2);
     eventEntry (VObj f3)] /\
  List.length (sseLog (fst (handleAddFingerprint values_name store w st))) =
    4%nat /\
  isRegistering (fst (handleAddFingerprint values_name store w st)) = false /\
  refreshes (effects (fst (handleAddFingerprint values_name store w st))) =
    S (refreshes (effects st)) /\
  readerCancels (effects (fst (handleAddFingerprint values_name store w st))) =
    S (readerCancels (effects st)).
Proof.
  intros Ho Hok Hb Hc Ht Hl C1 C2 C3.
  rewrite (handle_stream values_name store w r s st Ho Hok Hb Hc).
  rewrite Ht, split_nl_joinLines_more by exact Hl.
  rewrite removelast_app by apply split_nl_nonempty.
  rewrite start_eq, processLines_app. cbn [processLines].
  rewrite (progress_line l1 f1 _ C1). cells.
  rewrite (progress_line l2 f2 _ C2). cells.
  rewrite (success_line l3 f3 _ C3). cells.
  unfold finallyBlock. cells. rewrite Nat.eqb_refl. cells.
  repeat split; try reflexivity.
  - rewrite !refreshes_app. cbn. lia.
  - rewrite !readerCancels_app. cbn. lia.
Qed.

End Enrollment.

#[local] Existing Instance Sample.host.

Lemma chunk_boundaries_irrelevant_witness :
  Fingerprint.click (Sample.streaming [] None None) = None /\
  List.concat [Sample.enrollmentBytes] = List.concat Sample.ragged /\
  Fingerprint.handleAddFingerprint (lit "bob") Sample.store
    (Fingerprint.rechunk [Sample.enrollmentBytes]
       (Sample.streaming [] None None)) Sample.idle =
  Fingerprint.handleAddFingerprint (lit "bob") Sample.store
    (Fingerprint.rechunk Sample.ragged (Sample.streaming [] None None))
    Sample.idle.
Proof.
  split; [reflexivity|]. split; [vm_compute; reflexivity|].
  apply (chunk_boundaries_irrelevant (H := Sample.host));
    [reflexivity | vm_compute; reflexivity].
Defined.

Lemma partial_line_discarded_witness :
  snd (Fingerprint.handleAddFingerprint (lit "bob") Sample.store
         Sample.unfinished Sample.idle) = Fingerprint.ExitStreamEnded /\
  (Fingerprint.handleAddFingerprint (lit "bob") Sample.store
     Sample.unfinished Sample.idle =
     (let (st0, sig) := Fingerprint.start (lit "bob") Sample.store
                          Sample.idle in
      match Fingerprint.processLines
              [Sample.chars (Sample.chomp Sample.progressLine)] st0 with
      | (st', Fingerprint.ReturnSuccess) =>
          (Fingerprint.finallyBlock sig st', Fingerprint.ExitSuccess)
      | (st', Fingerprint.ReturnCancelled) =>
          (Fingerprint.finallyBlock sig st', Fingerprint.ExitCancelledEvent)
      | (st', Fingerprint.Continue) =>
          (Fingerprint.finallyBlock sig
             (Fingerprint.done (Fingerprint.isRegistering Sample.idle) st'),
           Fingerprint.ExitStreamEnded)
      end) /\
   (forall st',
      Fingerprint.processLines
        [Sample.chars (Sample.chomp Sample.progressLine)]
        (fst (Fingerprint.start (lit "bob") Sample.store Sample.idle)) =
        (st', Fingerprint.Continue) ->
      Fingerprint.sseLog
        (fst (Fingerprint.handleAddFingerprint (lit "bob") Sample.store
                Sample.unfinished Sample.idle)) =
      Fingerprint.sseLog st' ++ [Fingerprint.endedMarker])).
Proof.
  split; [vm_compute; reflexivity|].
  apply (partial_line_discarded (H := Sample.host) (lit "bob") Sample.store
           Sample.unfinished
           {| Fingerprint.ok := true; Fingerprint.status := 200;
              Fingerprint.json := inl VNull;
              Fingerprint.responseBody :=
                Some {| Fingerprint.chunks :=
                          [Sample.progressLine
                             ++ Sample.chomp Sample.successLine];
                        Fingerprint.ending := None |} |}
           {| Fingerprint.chunks :=
                [Sample.progressLine ++ Sample.chomp Sample.successLine];
              Fingerprint.ending := None |}
           [Sample.chars (Sample.chomp Sample.progressLine)]
           (Sample.chars (Sample.chomp Sample.successLine)) Sample.idle);
    vm_compute; reflexivity.
Defined.

Lemma ended_without_result_witness :
  snd (Fingerprint.handleAddFingerprint (lit "bob") Sample.store
         Sample.inconclusive Sample.idle) = Fingerprint.ExitStreamEnded /\
  (exists log,
     Fingerprint.sseLog
       (fst (Fingerprint.handleAddFingerprint (lit "bob") Sample.store
               Sample.inconclusive Sample.idle)) =
     Fingerprint.startEntry (lit "bob") :: log ++ [Fingerprint.endedMarker]) /\
  Fingerprint.isRegistering
    (fst (Fingerprint.handleAddFingerprint (lit "bob") Sample.store
            Sample.inconclusive Sample.idle)) = false /\
  (exists n,
     Fingerprint.effects
       (fst (Fingerprint.handleAddFingerprint (lit "bob") Sample.store
               Sample.inconclusive Sample.idle)) =
     Fingerprint.effects Sample.idle
       ++ [Fingerprint.Fetch
             (Fingerprint.enrollRequest Sample.store (lit "bob")
                (List.length (Fingerprint.controllers Sample.idle)))]
       ++ repeat Fingerprint.ConsoleError n
       ++ (if Fingerprint.isRegistering Sample.idle then
             [Fingerprint.Notice Fingerprint.Warning
                (VStr (lit "Registration process ended without a clear status."))]
           else [])).
Proof.
  apply (ended_without_result (H := Sample.host) (lit "bob") Sample.store
           Sample.inconclusive
           {| Fingerprint.ok := true; Fingerprint.status := 200;
              Fingerprint.json := inl VNull;
              Fingerprint.responseBody :=
                Some {| Fingerprint.chunks :=
                          [Sample.commentLine;
                           Sample.progressLine ++ Sample.bytes "data: {"];
                        Fingerprint.ending := None |} |}
           {| Fingerprint.chunks :=
                [Sample.commentLine;
                 Sample.progressLine ++ Sample.bytes "data: {"];
              Fingerprint.ending := None |}
           [Sample.lineText Sample.commentLine;
            Sample.lineText Sample.progressLine]
           (Sample.chars (Sample.bytes "data: {")) Sample.idle);
    vm_compute; reflexivity.
Defined.

Lemma parse_failure_is_local_witness :
  Fingerprint.processLines
    [Sample.lineText Sample.brokenLine; Sample.lineText Sample.successLine]
    Sample.busy =
  Fingerprint.processLines [Sample.lineText Sample.successLine]
    (Fingerprint.appendLog
       (Fingerprint.parseErrorNote (lit "Unexpected token"))
       (Fingerprint.emit Fingerprint.ConsoleError Sample.busy)) /\
  Fingerprint.logFaults
    (fst (Fingerprint.processLine (Sample.lineText Sample.nullLine)
            Sample.busy)) =
    [TypeError (lit "Cannot read properties of null (reading 'message')")] /\
  Fingerprint.sseLog
    (fst (Fingerprint.processLine (Sample.lineText Sample.nullLine)
            Sample.busy)) =
    Fingerprint.sseLog Sample.busy
      ++ [Fingerprint.parseErrorNote
            (lit "Cannot read properties of null (reading 'status')")].
Proof.
  split; [|split].
  - refine (proj1 (proj2 (proj1
              (parse_failure_is_local (H := Sample.host)
                 (Sample.lineText Sample.brokenLine)
                 [Sample.lineText Sample.successLine] Sample.busy _)
              (lit "Unexpected token") _)));
      vm_compute; reflexivity.
  - refine (proj2 (proj2 (proj2 (proj2 (proj2 (proj2 (proj2 (proj2 (proj1
              (parse_failure_is_local (H := Sample.host)
                 (Sample.lineText Sample.nullLine) [] Sample.busy _)
              (lit "Cannot read properties of null (reading 'status')")
              _)))))))));
      vm_compute; reflexivity.
  - refine (proj1 (proj2 (proj2 (proj2 (proj2 (proj2 (proj2 (proj1
              (parse_failure_is_local (H := Sample.host)
                 (Sample.lineText Sample.nullLine) [] Sample.busy _)
              (lit "Cannot read properties of null (reading 'status')")
              _))))))));
      vm_compute; reflexivity.
Defined.

(** The claim as the specification words it fails on a payload that is
    JSON but no event: the line [data: {"foo":"bar"}] is taken for an
    event, the JSON text of its payload becomes a transcript entry, and
    neither a parse-error note nor a console message is written. *)
Lemma payload_is_not_validated :
  startsWith (Sample.lineText Sample.strangerLine) (lit "data: ") = true /\
  JSON_parse
    (substring (Sample.lineText Sample.strangerLine)
       (List.length (lit "data: "))) =
    inl (VObj [(lit "foo", VStr (lit "bar"))]) /\
  Fingerprint.processLine (Sample.lineText Sample.strangerLine)
    Sample.busy =
    (Fingerprint.appendLog
       (VStr (substring (Sample.lineText Sample.strangerLine)
                (List.length (lit "data: "))))
       Sample.busy,
     Fingerprint.Continue) /\
  Fingerprint.effects
    (fst (Fingerprint.processLine (Sample.lineText Sample.strangerLine)
            Sample.busy)) =
    Fingerprint.effects Sample.busy.
Proof. vm_compute. repeat split. Qed.

Lemma two_progress_then_success_witness :
  snd (Fingerprint.handleAddFingerprint (lit "bob") Sample.store
         (Sample.streaming Sample.ragged None None) Sample.idle) =
    Fingerprint.ExitSuccess /\
  Fingerprint.sseLog
    (fst (Fingerprint.handleAddFingerprint (lit "bob") Sample.store
            (Sample.streaming Sample.ragged None None) Sample.idle)) =
    [Fingerprint.startEntry (lit "bob");
     Fingerprint.eventEntry (VObj (Sample.fieldsOf Sample.progressLine));
     Fingerprint.eventEntry (VObj (Sample.fieldsOf Sample.stepLine));
     Fingerprint.eventEntry (VObj (Sample.fieldsOf Sample.successLine))] /\
  List.length
    (Fingerprint.sseLog
       (fst (Fingerprint.handleAddFingerprint (lit "bob") Sample.store
               (Sample.streaming Sample.ragged None None) Sample.idle))) =
    4%nat /\
  Fingerprint.isRegistering
    (fst (Fingerprint.handleAddFingerprint (lit "bob") Sample.store
            (Sample.streaming Sample.ragged None None) Sample.idle)) =
    false /\
  Fingerprint.refreshes
    (Fingerprint.effects
       (fst (Fingerprint.handleAddFingerprint (lit "bob") Sample.store
               (Sample.streaming Sample.ragged None None) Sample.idle))) =
    S (Fingerprint.refreshes (Fingerprint.effects Sample.idle)) /\
  Fingerprint.readerCancels
    (Fingerprint.effects
       (fst (Fingerprint.handleAddFingerprint (lit "bob") Sample.store
               (Sample.streaming Sample.ragged None None) Sample.idle))) =
    S (Fingerprint.readerCancels (Fingerprint.effects Sample.idle)).
Proof.
  apply (two_progress_then_success (H := Sample.host) (lit "bob")
           Sample.store (Sample.streaming Sample.ragged None None)
           {| Fingerprint.ok := true; Fingerprint.status := 200;
              Fingerprint.json := inl VNull;
              Fingerprint.responseBody :=
                Some {| Fingerprint.chunks := Sample.ragged;
                        Fingerprint.ending := None |} |}
           {| Fingerprint.chunks := Sample.ragged;
              Fingerprint.ending := None |}
           (Sample.lineText Sample.progressLine)
           (Sample.lineText Sample.stepLine)
           (Sample.lineText Sample.successLine) []
           (Sample.fieldsOf Sample.progressLine)
           (Sample.fieldsOf Sample.stepLine)
           (Sample.fieldsOf Sample.successLine) Sample.idle);
    try (vm_compute; reflexivity);
    (split; [|split]; vm_compute; reflexivity).
Defined.

(** C5 as stated, with a transcript of three entries, fails on the stream
    of two progress events and a success event: the transcript holds four
    entries, the first being the starting entry. *)
Lemma transcript_of_three_refuted :
  ~ (snd (Fingerprint.handleAddFingerprint (lit "bob") Sample.store
            (Sample.streaming [Sample.enrollmentBytes] None None)
            Sample.idle) = Fingerprint.ExitSuccess /\
     List.length
       (Fingerprint.sseLog
          (fst (Fingerprint.handleAddFingerprint (lit "bob") Sample.store
                  (Sample.streaming [Sample.enrollmentBytes] None None)
                  Sample.idle))) = 3%nat).
Proof. vm_compute. intros [_ Hlen]. discriminate Hlen. Qed.

Lemma cancel_during_request_or_read_witness :
  Fingerprint.aborted (List.length (Fingerprint.controllers Sample.idle))
    (fst (Fingerprint.handleAddFingerprint (lit "bob") Sample.store
            Sample.cancelledMidway Sample.idle)) = true /\
  snd (Fingerprint.handleAddFingerprint (lit "bob") Sample.store
         Sample.cancelledMidway Sample.idle) = Fingerprint.ExitAborted /\
  Fingerprint.isRegistering
    (fst (Fingerprint.handleAddFingerprint (lit "bob") Sample.store
            Sample.cancelledMidway Sample.idle)) = false /\
  Fingerprint.handleAddFingerprint (lit "bob") Sample.store
    Sample.cancelledMidway Sample.idle =
  Fingerprint.handleAddFingerprint (lit "bob") Sample.store
    (Fingerprint.rechunk [Sample.progressLine] Sample.cancelledMidway)
    Sample.idle.
Proof.
  assert (Hok : Fingerprint.click Sample.cancelledMidway = Some 0%nat \/
                (forall r,
                   Fingerprint.outcome Sample.cancelledMidway =
                     Fingerprint.FetchResolved r ->
                   Fingerprint.ok r = true)).
  { right. intros r [= <-]. reflexivity. }
  assert (Hf : Fingerprint.aborted
                 (List.length (Fingerprint.controllers Sample.idle))
                 (fst (Fingerprint.handleAddFingerprint (lit "bob")
                         Sample.store Sample.cancelledMidway Sample.idle)) =
               true).
  { vm_compute. reflexivity. }
  destruct (cancel_during_request_or_read (lit "bob") Sample.store
              Sample.cancelledMidway Sample.idle Hok Hf)
    as (H0 & H1 & _ & _ & H4).
  split; [exact Hf|]. split; [exact H0|]. split; [exact H1|].
  exact (H4 1%nat _ _ eq_refl eq_refl eq_refl).
Defined.

(** C3 as stated fails when the click comes while the body of a refusal
    is being read: the cancel button is rendered and aborts the signal of
    this run, yet the handler leaves by the not-ok exit with an error
    notice, and the transcript holds no cancelled-by-user entry. *)
Lemma cancel_absorbed_by_refusal :
  Fingerprint.aborted (List.length (Fingerprint.controllers Sample.idle))
    (fst (Fingerprint.handleAddFingerprint (lit "bob") Sample.store
            Sample.refusedThenCancelled Sample.idle)) = true /\
  snd (Fingerprint.handleAddFingerprint (lit "bob") Sample.store
         Sample.refusedThenCancelled Sample.idle) <> Fingerprint.ExitAborted /\
  Fingerprint.sseLog
    (fst (Fingerprint.handleAddFingerprint (lit "bob") Sample.store
            Sample.refusedThenCancelled Sample.idle)) =
    [Fingerprint.startEntry (lit "bob");
     VStr (lit "Error 500: Failed to parse error response from server.")].
Proof.
  split; [vm_compute; reflexivity|].
  split; [vm_compute; discriminate | vm_compute; reflexivity].
Qed.

(** C4 as stated fails: called while a first enrollment is registering,
    the handler does not refuse; it replaces the transcript and issues a
    second request. *)
Lemma second_start_not_refused :
  Fingerprint.isRegistering Sample.busy = true /\
  ~ (Fingerprint.sseLog
       (fst (Fingerprint.handleAddFingerprint (lit "eve") Sample.store
               (Sample.streaming [] None None) Sample.busy)) =
       Fingerprint.sseLog Sample.busy /\
     Fingerprint.effects
       (fst (Fingerprint.handleAddFingerprint (lit "eve") Sample.store
               (Sample.streaming [] None None) Sample.busy)) =
       Fingerprint.effects Sample.busy /\
     Fingerprint.controllers
       (fst (Fingerprint.handleAddFingerprint (lit "eve") Sample.store
               (Sample.streaming [] None None) Sample.busy)) =
       Fingerprint.controllers Sample.busy).
Proof.
  split; [reflexivity|]. intros (_ & He & _).
  vm_compute in He. discriminate He.
Qed.

End Enrollment.

(** ** The resource controllers *)

Module Controllers.
Import Resource.
Section Controllers.
Context {H : Host}.

(** C6 (as the code has it). [fetchMonitoringStatus] and [fetchDoorStatus]
    store the status field as the server sent it, recognized or not, and
    report no error for it; a value outside the known ones is rendered
    with the default badge and the unknown-status text, like ['unknown'].
    The status is left alone and an error is reported only when the
    request fails. *)
Theorem status_stored_as_received :
  storesAsReceived fetchMonitoringStatus (lit "/monitoring/status")
    monitoringBadge monitoringRecognized /\
  storesAsReceived fetchDoorStatus (lit "/servo/status") doorBadge
    doorRecognized.
Proof.
  split; intros api store st;
    (split; [intros data s Hs | intros answer error Hfail]).
  - unfold fetchMonitoringStatus, fetchStatus. rewrite Hs. cbn [fst].
    split; [reflexivity|]. split; [reflexivity|].
    unfold monitoringRecognized, monitoringBadge. cbn [status setLoading
      setStatus emit]. intros Hr.
    apply orb_false_elim in Hr as [Hr _].
    apply orb_false_elim in Hr as [Hr H3].
    apply orb_false_elim in Hr as [H1 H2].
    rewrite H1, H2, H3. reflexivity.
  - unfold fetchMonitoringStatus, fetchStatus.
    destruct Hfail as [->|(data & -> & ->)]; cbn [fst];
      (split; [reflexivity|]; do 2 eexists;
       cbn [effects setLoading emit]; rewrite <- !app_assoc; reflexivity).
  - unfold fetchDoorStatus, fetchStatus. rewrite Hs. cbn [fst].
    split; [reflexivity|]. split; [reflexivity|].
    unfold doorRecognized, doorBadge. cbn [status setLoading setStatus emit].
    intros Hr.
    apply orb_false_elim in Hr as [Hr _].
    apply orb_false_elim in Hr as [H1 H2].
    rewrite H1, H2. reflexivity.
  - unfold fetchDoorStatus, fetchStatus.
    destruct Hfail as [->|(data & -> & ->)]; cbn [fst];
      (split; [reflexivity|]; do 2 eexists;
       cbn [effects setLoading emit]; rewrite <- !app_assoc; reflexivity).
Qed.



End Controllers.

#[local] Existing Instance Sample.host.

Lemma status_stored_as_received_witness :
  Resource.status Sample.afterJammed = VStr (lit "jammed") /\
  Resource.monitoringBadge Sample.afterJammed =
    Resource.monitoringBadge
      (Resource.setStatus (VStr (lit "unknown")) Sample.stopped) /\
  Resource.status
    (fst (Resource.fetchDoorStatus (Api.createAPI Sample.store) Sample.store
            (inr Sample.timedOut) Sample.stopped)) =
    Resource.status Sample.stopped.
Proof.
  destruct status_stored_as_received as [Hm Hd].
  destruct (Hm (Api.createAPI Sample.store) Sample.store Sample.stopped)
    as [Hstore _].
  destruct (Hstore Sample.jammed (VStr (lit "jammed")) eq_refl)
    as (H1 & _ & H3).
  destruct (Hd (Api.createAPI Sample.store) Sample.store Sample.stopped)
    as [_ Hfail].
  destruct (Hfail (inr Sample.timedOut) Sample.timedOut (or_introl eq_refl))
    as [H4 _].
  split; [exact H1|]. split; [exact (H3 eq_refl) | exact H4].
Defined.


(** C6 as stated fails on the answer [{"status": "jammed"}] received while
    the component shows ['disabled']: the status becomes ['jammed'], which
    is neither ['unknown'] nor what was held before, and no error is
    reported. *)
Lemma unrecognized_status_is_stored :
  Resource.monitoringRecognized (VStr (lit "jammed")) = false /\
  Resource.status Sample.afterJammed = VStr (lit "jammed") /\
  Resource.status Sample.afterJammed <> VStr (lit "unknown") /\
  Resource.status Sample.afterJammed <> Resource.status Sample.stopped /\
  Resource.effects Sample.afterJammed =
    [Resource.Request
       (Api.get (Api.createAPI Sample.store) Sample.store
          (lit "/monitoring/status"))].
Proof.
  split; [reflexivity|]. split; [reflexivity|].
  split; [vm_compute; discriminate|].
  split; [vm_compute; discriminate | reflexivity].
Qed.


End Controllers.

(** ** Requests and the configuration *)

Module Requests.
Section Requests.
Context {H : Host}.

Lemma strip_path (base p : jsstring) :
  firstn (List.length (base ++ p) - List.length p) (base ++ p) = base.
Proof.
  rewrite length_app, Nat.add_sub, firstn_app, Nat.sub_diag, firstn_all.
  cbn [firstn]. apply app_nil_r.
Qed.

(** C9. Whatever the sequence of configuration changes, API calls (through
    instances created from any earlier configuration) and enrollment
    starts, every request that the code issues carries the base address
    and the token that the store holds at the moment it is issued. *)
Theorem requests_read_the_store (store : Settings.SettingsState)
  (acts : list Timeline.action) :
  Timeline.issued store acts = Timeline.fresh store acts.
Proof.
  revert store. induction acts as [|a acts IH]; intros store; [reflexivity|].
  destruct a as [f|created m u|values_name st]; cbn [Timeline.issued
    Timeline.fresh].
  - apply IH.
  - rewrite IH. reflexivity.
  - rewrite IH. f_equal.
    rewrite Enrollment.start_eq. cbn [fst Fingerprint.effects].
    rewrite skipn_app, Nat.sub_diag, skipn_all. cbn [skipn app].
    unfold Timeline.ofFetch. cbn [flat_map app].
    unfold Fingerprint.enrollRequest at 1 2.
    cbn [Fingerprint.url Fingerprint.authorization].
    rewrite strip_path. reflexivity.
Qed.

End Requests.

#[local] Existing Instance Sample.host.

(** An instance created under the default settings is used after the
    settings were changed, the token is rotated, and an enrollment and a
    list request follow through an instance created before the rotation:
    each request has the token of its moment. *)
Example requests_follow_the_store :
  map Timeline.auth
    (Timeline.issued Sample.store
       [Timeline.fetchResourceStatus Settings.initial (lit "/servo/status");
        Timeline.Configure (Settings.setToken (lit "rotated"));
        Timeline.Enroll (lit "bob") Sample.idle;
        Timeline.listIdentities Sample.store]) =
  [lit "Bearer secret"; lit "Bearer rotated"; lit "Bearer rotated"].
Proof. reflexivity. Qed.

End Requests.

(** ** Every run of the enrollment handler *)

Module Runs.
Import Fingerprint Trace SplitFacts LoopFacts.

Ltac trace_solve :=
  unfold extends; cells; rewrite <- ?app_assoc; cbn [app];
  first
    [ exists [], []; cbn [app]; rewrite ?app_nil_r; repeat split; reflexivity
    | eexists [], _; cbn [app]; split; [reflexivity | split; reflexivity]
    | eexists _, []; rewrite app_nil_r;
      split; [reflexivity | split; reflexivity] ].

(** A state built by setters, as a record. *)
Ltac record :=
  unfold setRef, setIsRegistering, appendLog, setSseLog, emit,
    setIsAddModalVisible, setControllers;
  cbn [fst snd isRegistering sseLog isAddModalVisible controllers
       abortControllerRef effects logFaults];
  rewrite <- ?app_assoc; cbn [app].

Section Runs.
Context {H : Host}.

Lemma extends_refl (a : component) : extends a a [].
Proof. trace_solve. Qed.

Lemma extends_step (a b c : component) (tail : list tag) :
  extends a b [] -> extends b c tail -> extends a c tail.
Proof.
  intros (q1 & c1 & E1 & Q1 & K1) (q2 & c2 & E2 & Q2 & K2).
  destruct c1; [|discriminate]. rewrite app_nil_r in E1.
  exists (q1 ++ q2), c2. rewrite E2, E1, forallb_app, Q1, Q2.
  rewrite <- !app_assoc. repeat split; assumption.
Qed.

Lemma extends_same_effects (a b c : component) (tail : list tag) :
  effects b = effects c -> extends a b tail -> extends a c tail.
Proof. intros E (q & k & E1 & Q & K). exists q, k. rewrite <- E. auto. Qed.

Lemma extends_from (a b c : component) (tail : list tag) :
  effects a = effects b -> extends a c tail -> extends b c tail.
Proof. intros E (q & k & E1 & Q & K). exists q, k. rewrite <- E. auto. Qed.

Lemma line_trace (line : jsstring) (st : component) :
  extends st (fst (processLine line st))
    (lineClosing (snd (processLine line st))).
Proof.
  unfold catchParse.
  line_cases line st; cbn [fst snd lineClosing closing]; trace_solve.
Qed.

Lemma lines_trace (lines : list jsstring) (st : component) :
  extends st (fst (processLines lines st))
    (lineClosing (snd (processLines lines st))).
Proof.
  revert st. induction lines as [|l lines IH]; intros st;
    [apply extends_refl|].
  cbn [processLines]. pose proof (line_trace l st) as Hl.
  destruct (processLine l st) as [st' r]. cbn [fst snd] in Hl.
  destruct r; try exact Hl.
  eapply extends_step; [exact Hl | apply IH].
Qed.

Lemma userAt_effects (click : option nat) (k : nat) (st : component) :
  effects (userAt click k st) = effects st.
Proof.
  unfold userAt, pressCancelOp, cancelOpClick, abort.
  destruct click as [n|]; [|reflexivity].
  destruct (Nat.eqb n k); [|reflexivity].
  destruct (isRegistering st); [|reflexivity].
  destruct (abortControllerRef st); reflexivity.
Qed.

Lemma consume_trace (captured : bool) (sig : nat) (click : option nat)
  (k : nat) (rest : list (list byte)) (e : option jsError)
  (d : TextDecoder.t) (b : jsstring) (st : component) :
  extends st (fst (consume captured sig click k rest e d b st))
    (afterLoop captured (snd (consume captured sig click k rest e d b st))).
Proof.
  revert k d b st. induction rest as [|c rest IH]; intros k d b st.
  - cbn [consume]. apply (extends_from (userAt click k st));
      [apply userAt_effects|].
    destruct (settle _ _ _); cbn [fst snd afterLoop closing];
      [|apply extends_refl].
    unfold done. destruct captured; trace_solve.
  - rewrite consume_cons. apply (extends_from (userAt click k st));
      [apply userAt_effects|].
    destruct (settle _ _ _); cbn [fst snd afterLoop]; [|apply extends_refl].
    destruct (TextDecoder.decode d l) as [d' text].
    pose proof (lines_trace (removelast (split_nl (b ++ text)))
                  (userAt click k st)) as Hp.
    destruct (processLines _ _) as [st' r]. cbn [fst snd] in Hp.
    destruct r; cbn [fst snd afterLoop]; try exact Hp.
    eapply extends_step; [exact Hp | apply IH].
Qed.

Lemma try_trace (captured : bool) (sig : nat) (w : world) (st : component) :
  extends st (fst (tryBlock captured sig w st))
    (afterLoop captured (snd (tryBlock captured sig w st))).
Proof.
  unfold tryBlock.
  apply (extends_from (userAt (click w) 0 st)); [apply userAt_effects|].
  destruct (settle sig (userAt (click w) 0 st) _) as [r|err];
    cbn [fst snd afterLoop]; [|apply extends_refl].
  destruct (ok r); cbn [negb].
  - destruct (responseBody r) as [s|]; [apply consume_trace|].
    cbn [fst snd afterLoop closing]. trace_solve.
  - apply (extends_from (userAt (click w) 1 (userAt (click w) 0 st)));
      [apply userAt_effects|].
    destruct (getProp _ _); [destruct (ToString _)|];
      cbn [fst snd afterLoop closing]; trace_solve.
Qed.

Lemma finallyBlock_effects (sig : nat) (st : component) :
  effects (finallyBlock sig st) = effects st.
Proof.
  unfold finallyBlock. cells.
  destruct (abortControllerRef st) as [id|]; [destruct (Nat.eqb id sig)|];
    reflexivity.
Qed.

Lemma conclude_trace (captured : bool) (sig : nat) (st : component)
  (res : component * (exit + jsError)) :
  extends st (fst res) (afterLoop captured (snd res)) ->
  extends st (fst (conclude sig res))
    (closing captured (snd (conclude sig res))).
Proof.
  destruct res as [st1 [x|err]]; cbn [fst snd afterLoop conclude]; intros Hr.
  - eapply extends_same_effects; [|exact Hr].
    symmetry. apply finallyBlock_effects.
  - eapply extends_step; [exact Hr|].
    apply (extends_same_effects _ (catchBlock err st1));
      [symmetry; apply finallyBlock_effects|].
    unfold catchBlock. destruct (str_eqb (name err) (lit "AbortError"));
      cbn [closing]; trace_solve.
Qed.

(** The effects of a run: the request, then quiet effects, then the
    closing effects of the exit. *)
Lemma run_trace (values_name : jsstring) (store : Settings.SettingsState)
  (w : world) (st : component) :
  exists q c,
    effects (fst (handleAddFingerprint values_name store w st)) =
      effects st
        ++ Fetch (enrollRequest store values_name
                    (List.length (controllers st))) :: q ++ c /\
    forallb quiet q = true /\
    map kind c =
      closing (isRegistering st)
        (snd (handleAddFingerprint values_name store w st)).
Proof.
  unfold handleAddFingerprint. rewrite Enrollment.start_eq.
  match goal with
  | |- context [tryBlock ?cap ?sig w ?st0] =>
      destruct (conclude_trace cap sig st0 (tryBlock cap sig w st0)
                  (try_trace cap sig w st0)) as (q & c & E & Q & K)
  end.
  exists q, c. rewrite E. cbn [effects]. rewrite <- app_assoc.
  repeat split; assumption.
Qed.

Lemma occurrences_app (t : tag) (a b : list effect) :
  occurrences t (a ++ b) = (occurrences t a + occurrences t b)%nat.
Proof. unfold occurrences. rewrite filter_app, length_app. reflexivity. Qed.

Lemma occurrences_quiet (t : tag) (q : list effect) :
  (match t with TConsole | TNotice Error => false | _ => true end) = true ->
  forallb quiet q = true -> occurrences t q = 0%nat.
Proof.
  intros Ht. induction q as [|e q IH]; [reflexivity|].
  cbn [forallb]. intros Hq. apply andb_prop in Hq as [He Hq].
  unfold occurrences in *. cbn [filter]. unfold quiet in He.
  destruct (kind e) as [[]| | | | |], t as [[]| | | | |];
    try discriminate; cbn [tag_eqb noticeKind_eqb]; auto.
Qed.

Lemma occurrences_kinds (t : tag) (c : list effect) :
  occurrences t c = List.length (filter (fun k => tag_eqb k t) (map kind c)).
Proof.
  unfold occurrences. induction c as [|e c IH]; [reflexivity|].
  cbn [filter map]. destruct (tag_eqb (kind e) t); cbn [List.length];
    rewrite IH; reflexivity.
Qed.

(** How often a kind that is not quiet occurs after a run. *)
Lemma run_occurrences (t : tag) (values_name : jsstring)
  (store : Settings.SettingsState) (w : world) (st : component) :
  (match t with TConsole | TNotice Error => false | _ => true end) = true ->
  occurrences t (effects (fst (handleAddFingerprint values_name store w st)))
  = (occurrences t (effects st)
     + (if tag_eqb TFetch t then 1 else 0)
     + List.length
         (filter (fun k => tag_eqb k t)
            (closing (isRegistering st)
               (snd (handleAddFingerprint values_name store w st)))))%nat.
Proof.
  intros Ht.
  destruct (run_trace values_name store w st) as (q & c & E & Q & K).
  rewrite E, <- K.
  change (Fetch ?r :: q ++ c) with ([Fetch r] ++ q ++ c).
  rewrite !occurrences_app, (occurrences_quiet t q Ht Q),
    <- (occurrences_kinds t c).
  unfold occurrences at 2. cbn [filter kind]. 
  destruct (tag_eqb TFetch t); cbn [List.length]; lia.
Qed.

(** X2. Whatever the server answers and whenever the user cancels, one
    call of the handler issues exactly one request: nothing is retried. *)
Theorem one_request_per_run (values_name : jsstring)
  (store : Settings.SettingsState) (w : world) (st : component) :
  occurrences TFetch
    (effects (fst (handleAddFingerprint values_name store w st))) =
  S (occurrences TFetch (effects st)).
Proof.
  rewrite (run_occurrences TFetch) by reflexivity.
  destruct (snd (handleAddFingerprint values_name store w st));
    destruct (isRegistering st); cbn; lia.
Qed.

(** X3. The identity list is refreshed, the auto-close timer set and the
    success notice shown exactly once when the run leaves by the success
    exit and never otherwise; the reader is cancelled exactly once when
    the run leaves on a success or cancelled event and never otherwise,
    in particular not when the stream ends, fails or is aborted. *)
Theorem success_bookkeeping (values_name : jsstring)
  (store : Settings.SettingsState) (w : world) (st : component) :
  let res := handleAddFingerprint values_name store w st in
  occurrences TRefresh (effects (fst res)) =
    (occurrences TRefresh (effects st)
     + (if isSuccess (snd res) then 1 else 0))%nat /\
  occurrences TTimer (effects (fst res)) =
    (occurrences TTimer (effects st)
     + (if isSuccess (snd res) then 1 else 0))%nat /\
  occurrences (TNotice Success) (effects (fst res)) =
    (occurrences (TNotice Success) (effects st)
     + (if isSuccess (snd res) then 1 else 0))%nat /\
  occurrences TReaderCancel (effects (fst res)) =
    (occurrences TReaderCancel (effects st)
     + (if isSuccess (snd res) || isCancelledEvent (snd res) then 1 else 0))%nat.
Proof.
  cbv zeta.
  rewrite (run_occurrences TRefresh), (run_occurrences TTimer),
    (run_occurrences (TNotice Success)), (run_occurrences TReaderCancel)
    by reflexivity.
  destruct (snd (handleAddFingerprint values_name store w st));
    destruct (isRegistering st); cbn; repeat split; lia.
Qed.

(** X4. The warning that the process ended without a clear status is
    shown only when the stream ends normally in a run whose handler
    captured [isRegistering = true]; a handler called while
    [isRegistering] is false, as the submit button calls it, never shows
    it. *)
Theorem warning_needs_captured_flag (values_name : jsstring)
  (store : Settings.SettingsState) (w : world) (st : component) :
  occurrences (TNotice Warning)
    (effects (fst (handleAddFingerprint values_name store w st))) =
  (occurrences (TNotice Warning) (effects st)
   + (if isRegistering st
         && isStreamEnded (snd (handleAddFingerprint values_name store w st))
      then 1 else 0))%nat.
Proof.
  rewrite (run_occurrences (TNotice Warning)) by reflexivity.
  destruct (snd (handleAddFingerprint values_name store w st));
    destruct (isRegistering st); cbn; lia.
Qed.

(** *** What a run leaves alone *)

Lemma userAt_frame (click : option nat) (k : nat) (st : component) :
  abortControllerRef (userAt click k st) = abortControllerRef st /\
  isAddModalVisible (userAt click k st) = isAddModalVisible st /\
  isRegistering (userAt click k st) = isRegistering st.
Proof.
  unfold userAt, pressCancelOp, cancelOpClick, abort.
  destruct click as [n|]; [|repeat split].
  destruct (Nat.eqb n k); [|repeat split].
  destruct (isRegistering st) eqn:E; [|repeat split; exact E].
  destruct (abortControllerRef st) eqn:R; repeat split; assumption.
Qed.

Lemma consume_frame (captured : bool) (sig : nat) (click : option nat)
  (k : nat) (rest : list (list byte)) (e : option jsError)
  (d : TextDecoder.t) (b : jsstring) (st : component) :
  abortControllerRef (fst (consume captured sig click k rest e d b st)) =
    abortControllerRef st /\
  isAddModalVisible (fst (consume captured sig click k rest e d b st)) =
    isAddModalVisible st.
Proof.
  revert k d b st. induction rest as [|c rest IH]; intros k d b st;
    destruct (userAt_frame click k st) as (Ur & Um & _).
  - cbn [consume]. destruct (settle _ _ _); cbn [fst];
      [unfold done; destruct captured; cells|]; split; assumption.
  - rewrite consume_cons. destruct (settle _ _ _); cbn [fst];
      [|split; assumption].
    destruct (TextDecoder.decode d l) as [d' text].
    destruct (processLines_frame (removelast (split_nl (b ++ text)))
                (userAt click k st)) as (_ & Pr & Pm).
    destruct (processLines _ _) as [st' r]. cbn [fst] in Pr, Pm.
    destruct r; cbn [fst]; try (split; congruence).
    destruct (IH (S k) d' (last (split_nl (b ++ text)) []) st') as [Ir Im].
    split; congruence.
Qed.

Lemma try_frame (captured : bool) (sig : nat) (w : world) (st : component) :
  abortControllerRef (fst (tryBlock captured sig w st)) =
    abortControllerRef st /\
  isAddModalVisible (fst (tryBlock captured sig w st)) =
    isAddModalVisible st.
Proof.
  unfold tryBlock.
  destruct (userAt_frame (click w) 0 st) as (Ur & Um & _).
  destruct (settle sig (userAt (click w) 0 st) _) as [r|err]; cbn [fst];
    [|split; assumption].
  destruct (ok r); cbn [negb].
  - destruct (responseBody r) as [s|].
    + destruct (consume_frame captured sig (click w) 1 (chunks s) (ending s)
                  TextDecoder.create [] (userAt (click w) 0 st)) as [Cr Cm].
      split; congruence.
    + cbn [fst]. cells. split; assumption.
  - destruct (userAt_frame (click w) 1 (userAt (click w) 0 st))
      as (Vr & Vm & _).
    destruct (getProp _ _); [destruct (ToString _)|]; cbn [fst]; cells;
      split; congruence.
Qed.

(** X1. However a run ends (success, refusal, end of stream, network
    failure, cancellation), it leaves the component not registering, with
    the ref to the AbortController cleared, and with the modal as it was:
    the handler itself never closes the modal. *)
Theorem run_ends_idle (values_name : jsstring)
  (store : Settings.SettingsState) (w : world) (st : component) :
  isRegistering (fst (handleAddFingerprint values_name store w st)) = false /\
  abortControllerRef (fst (handleAddFingerprint values_name store w st)) =
    None /\
  isAddModalVisible (fst (handleAddFingerprint values_name store w st)) =
    isAddModalVisible st.
Proof.
  unfold handleAddFingerprint. rewrite Enrollment.start_eq.
  match goal with
  | |- context [tryBlock ?cap ?sig w ?st0] =>
      destruct (try_frame cap sig w st0) as [Tr Tm];
      destruct (tryBlock cap sig w st0) as [st1 res]
  end.
  cbn [fst abortControllerRef isAddModalVisible] in Tr, Tm.
  assert (Hfin : forall st2,
            abortControllerRef st2 = abortControllerRef st1 ->
            isAddModalVisible st2 = isAddModalVisible st1 ->
            isRegistering
              (finallyBlock (List.length (controllers st)) st2) = false /\
            abortControllerRef
              (finallyBlock (List.length (controllers st)) st2) = None /\
            isAddModalVisible
              (finallyBlock (List.length (controllers st)) st2) =
              isAddModalVisible st).
  { intros st2 Hr Hm. unfold finallyBlock. cells. rewrite Hr, Tr.
    rewrite Nat.eqb_refl. cells. repeat split. congruence. }
  destruct res as [x|err]; cbn [conclude fst].
  - apply Hfin; reflexivity.
  - apply Hfin; unfold catchBlock; destruct (str_eqb _ _); reflexivity.
Qed.

(** *** After a terminal event *)

Lemma processLine_unregistered (line : jsstring) (st : component) :
  isRegistering st = false ->
  isRegistering (fst (processLine line st)) = false.
Proof.
  intros Hr. unfold catchParse. line_cases line st; cells;
    first [reflexivity | exact Hr].
Qed.

Lemma processLines_unregistered (lines : list jsstring) (st : component) :
  isRegistering st = false ->
  isRegistering (fst (processLines lines st)) = false.
Proof.
  revert st. induction lines as [|l lines IH]; intros st Hr; [exact Hr|].
  cbn [processLines]. pose proof (processLine_unregistered l st Hr) as Hl.
  destruct (processLine l st) as [st' r]. cbn [fst] in Hl.
  destruct r; cbn [fst]; auto.
Qed.

Lemma terminal_unregisters (line : jsstring) (st : component) :
  terminal line = true ->
  isRegistering (fst (processLine line st)) = false.
Proof.
  unfold terminal, lineStatus, catchParse.
  line_cases line st; cells; intros Ht;
    first [reflexivity | discriminate Ht].
Qed.

Lemma terminal_among_unregisters (lines : list jsstring) (st : component) :
  existsb terminal lines = true ->
  isRegistering (fst (processLines lines st)) = false.
Proof.
  revert st. induction lines as [|l lines IH]; intros st; [discriminate|].
  cbn [existsb processLines]. intros Ht.
  destruct (terminal l) eqn:Tl.
  - pose proof (terminal_unregisters l st Tl) as Hl.
    destruct (processLine l st) as [st' r]. cbn [fst] in Hl.
    destruct r; cbn [fst]; try exact Hl.
    apply processLines_unregistered, Hl.
  - destruct (Enrollment.quiet_line l st Tl) as (log & n & faults & E).
    rewrite E. apply IH. exact Ht.
Qed.

(** While the component is not registering, the cancel button is not
    there: a click changes nothing. *)
Lemma consume_unclickable (captured : bool) (sig : nat)
  (click : option nat) (k : nat) (rest : list (list byte))
  (e : option jsError) (d : TextDecoder.t) (b : jsstring) (st : component) :
  isRegistering st = false ->
  consume captured sig click k rest e d b st =
  consume captured sig None k rest e d b st.
Proof.
  revert k d b st. induction rest as [|c rest IH]; intros k d b st Hr.
  - cbn [consume]. unfold userAt, pressCancelOp. rewrite Hr.
    destruct click as [n|]; [destruct (Nat.eqb n k)|]; reflexivity.
  - rewrite !consume_cons.
    assert (Hu : userAt click k st = st).
    { unfold userAt, pressCancelOp. rewrite Hr.
      destruct click as [n|]; [destruct (Nat.eqb n k)|]; reflexivity. }
    rewrite Hu. cbn [userAt].
    destruct (settle sig st (inl c)); [|reflexivity].
    destruct (TextDecoder.decode d l) as [d' text].
    pose proof (processLines_unregistered
                  (removelast (split_nl (b ++ text))) st Hr) as Hp.
    destruct (processLines _ st) as [st' r]. cbn [fst] in Hp.
    destruct r; try reflexivity. apply IH. exact Hp.
Qed.

(** X5. Once a chunk has delivered a success, error or cancelled event,
    the cancel button is gone: a click during any later read has no
    effect, and the run goes on as if the user had not clicked. In
    particular an error event leaves the stream open and the request
    beyond the reach of the cancel button. *)
Theorem terminal_event_disarms_cancel (values_name : jsstring)
  (store : Settings.SettingsState) (w : world) (r : response) (s : stream)
  (c1 : list byte) (rest : list (list byte)) (n : nat) (st : component) :
  outcome w = FetchResolved r -> ok r = true -> responseBody r = Some s ->
  chunks s = c1 :: rest ->
  click w = Some (S (S n)) ->
  existsb terminal
    (removelast
       (split_nl (snd (TextDecoder.decode TextDecoder.create c1)))) = true ->
  handleAddFingerprint values_name store w st =
  handleAddFingerprint values_name store (withClick None w) st.
Proof.
  intros Ho Hok Hb Hcs Hc Ht.
  rewrite !Enrollment.handle_later
    by (cbn [withClick click]; congruence).
  destruct (start values_name store st) as [st0 sig].
  cbn [withClick outcome click]. rewrite Ho, Hok, Hb, Hc, Hcs.
  f_equal. rewrite !consume_cons. cbn [userAt Nat.eqb].
  unfold settle. destruct (aborted sig st0); [reflexivity|].
  revert Ht. cbn [app].
  destruct (TextDecoder.decode TextDecoder.create c1) as [d' text].
  cbn [snd]. intros Ht.
  pose proof (terminal_among_unregisters _ st0 Ht) as Hp.
  destruct (processLines _ st0) as [st' res]. cbn [fst] in Hp.
  destruct res; try reflexivity.
  apply consume_unclickable. exact Hp.
Qed.

(** *** The line on which the loop returns *)

Lemma strict_eq_str_true (v : val) (s : jsstring) :
  strict_eq_str v s = true -> v = VStr s.
Proof.
  destruct v; try discriminate. unfold strict_eq_str, str_eqb.
  destruct (list_eq_dec Z.eq_dec s0 s); [congruence | discriminate].
Qed.

Lemma returning_spec (line : jsstring) (st : component) :
  continues (snd (processLine line st)) = negb (returning line).
Proof.
  unfold returning, lineStatus, processLine.
  destruct (startsWith line (lit "data: ")); [|reflexivity].
  destruct (JSON_parse _) as [eventData|m]; [|reflexivity].
  unfold handleEvent.
  destruct (getProp eventData (lit "status")) as [status|e] eqn:Es;
    [|rewrite (getProp_throws eventData (lit "status") (lit "message") e Es);
      reflexivity].
  destruct (getProp_defined eventData status (lit "status") (lit "message")
              Es) as [message Em].
  rewrite Em.
  destruct (strict_eq_str status (lit "success")) eqn:E1; [reflexivity|].
  destruct (strict_eq_str status (lit "error")) eqn:E2.
  - apply strict_eq_str_true in E2. subst status. reflexivity.
  - destruct (strict_eq_str status (lit "cancelled")); reflexivity.
Qed.

Lemma nonreturning_continue (lines : list jsstring) (st : component) :
  forallb (fun x => negb (returning x)) lines = true ->
  snd (processLines lines st) = Continue.
Proof.
  revert st. induction lines as [|l lines IH]; intros st; [reflexivity|].
  cbn [forallb processLines]. intros Hn. apply andb_prop in Hn as [Hl Hn].
  pose proof (returning_spec l st) as Hs. rewrite Hl in Hs.
  destruct (processLine l st) as [st' r]. cbn [snd] in Hs.
  destruct r; try discriminate. apply IH, Hn.
Qed.

(** X6. After the first success or cancelled event nothing else counts:
    when the text of the stream begins with lines that do not make the
    loop return, followed by a line that does, the run is the processing
    of these lines followed by the [finally] block, whatever the stream
    sends afterwards and however it ends. *)
Theorem nothing_after_return (values_name : jsstring)
  (store : Settings.SettingsState) (w : world) (r : response) (s : stream)
  (pre : list jsstring) (l more : jsstring) (st : component) :
  outcome w = FetchResolved r -> ok r = true -> responseBody r = Some s ->
  click w = None ->
  snd (TextDecoder.decode TextDecoder.create (List.concat (chunks s))) =
    joinLines (pre ++ [l]) ++ more ->
  forallb noLineFeed (pre ++ [l]) = true ->
  forallb (fun x => negb (returning x)) pre = true ->
  returning l = true ->
  continues
    (snd (processLines (pre ++ [l])
            (fst (start values_name store st)))) = false /\
  handleAddFingerprint values_name store w st =
    (finallyBlock (List.length (controllers st))
       (fst (processLines (pre ++ [l]) (fst (start values_name store st)))),
     exitOf
       (snd (processLines (pre ++ [l])
               (fst (start values_name store st))))).
Proof.
  intros Ho Hok Hb Hc Ht Hl Hpre Hret.
  rewrite (Enrollment.handle_stream values_name store w r s st Ho Hok Hb Hc).
  rewrite Ht, split_nl_joinLines_more by exact Hl.
  rewrite removelast_app by apply split_nl_nonempty.
  rewrite Enrollment.start_eq. cbn [fst].
  match goal with
  | |- context [processLines (pre ++ [l]) ?s0] => set (st0 := s0)
  end.
  rewrite (processLines_app (pre ++ [l])).
  assert (Hk : continues (snd (processLines (pre ++ [l]) st0)) = false).
  { rewrite processLines_app.
    pose proof (nonreturning_continue pre st0 Hpre) as Hp.
    destruct (processLines pre st0) as [st1 r1]. cbn [snd] in Hp. subst r1.
    cbn [processLines]. pose proof (returning_spec l st1) as Hs.
    rewrite Hret in Hs. destruct (processLine l st1) as [st2 r2].
    cbn [snd] in Hs |- *. destruct r2; [discriminate | |]; reflexivity. }
  split; [exact Hk|].
  destruct (processLines (pre ++ [l]) st0) as [st2 r2].
  cbn [snd fst] in *. destruct r2; [discriminate | |]; reflexivity.
Qed.

(** *** Refusals *)

(** X7. A refusal is reported from the status and the body of the answer
    alone: when the answer is not ok and the message of its body can be
    read and converted to a string, the run ends by the not-ok exit with
    the transcript made of the starting entry and the refusal, one error
    notice, and the stream of the answer, if it has one, never read. A
    message that cannot be converted (an object with a [toString] member
    of its own) throws in the template literal of line 114: the run then
    ends in the outer [catch], as a connection error. *)
Theorem refusal_is_reported (values_name : jsstring)
  (store : Settings.SettingsState) (w : world) (r : response) (m : val)
  (st : component) :
  outcome w = FetchResolved r -> ok r = false -> click w = None ->
  getProp (errorDataOf (json r)) (lit "message") = inl m ->
  handleAddFingerprint values_name store w st =
  match ToString (refusalDetail m) with
  | Some text =>
      ({| isRegistering := false;
          sseLog := [startEntry values_name; refusalMessage (status r) text];
          isAddModalVisible := isAddModalVisible st;
          controllers := controllers st ++ [false];
          abortControllerRef := None;
          effects := effects st
            ++ [Fetch (enrollRequest store values_name
                         (List.length (controllers st)));
                Notice Error (refusalMessage (status r) text)];
          logFaults := logFaults st |},
       ExitNotOk)
  | None =>
      ({| isRegistering := false;
          sseLog :=
            [startEntry values_name;
             VStr (lit "Connection error: " ++ ToPrimitive_message)];
          isAddModalVisible := isAddModalVisible st;
          controllers := controllers st ++ [false];
          abortControllerRef := None;
          effects := effects st
            ++ [Fetch (enrollRequest store values_name
                         (List.length (controllers st)));
                Notice Error
                  (VStr (lit "Connection error: " ++ ToPrimitive_message));
                ConsoleError];
          logFaults := logFaults st |},
       ExitConnectionError)
  end.
Proof.
  intros Ho Hok Hc Hm. unfold handleAddFingerprint.
  pose proof (Enrollment.start_not_aborted values_name store st) as Ha.
  rewrite Enrollment.start_eq in *. cbn [fst snd] in Ha.
  unfold tryBlock. rewrite Hc, Ho. cbn [userAt]. unfold settle.
  rewrite Ha, Hok. cbn [negb]. fold (errorDataOf (json r)). rewrite Hm.
  fold (refusalDetail m).
  destruct (ToString (refusalDetail m)) as [text|] eqn:Et.
  - unfold conclude, finallyBlock. cells. rewrite Nat.eqb_refl. cells.
    unfold refusalMessage. record. reflexivity.
  - unfold conclude, catchBlock, finallyBlock, ToPrimitiveError.
    cbn [name message TypeError].
    change (str_eqb (lit "TypeError") (lit "AbortError")) with false.
    cbv iota. cells. rewrite Nat.eqb_refl. record. reflexivity.
Qed.

(** X8. A refusal whose body is the JSON value [null] is not reported as
    a refusal: reading its message throws, the error lands in the outer
    [catch], and the run ends by the connection-error exit with a
    "Connection error" entry that carries the message of the TypeError
    and not the status of the answer. *)
Theorem null_refusal_reads_as_connection_error (values_name : jsstring)
  (store : Settings.SettingsState) (w : world) (r : response)
  (st : component) :
  outcome w = FetchResolved r -> ok r = false -> click w = None ->
  json r = inl VNull ->
  handleAddFingerprint values_name store w st =
  ({| isRegistering := false;
      sseLog :=
        [startEntry values_name;
         VStr (lit "Connection error: "
                 ++ TypeError_message VNull (lit "message"))];
      isAddModalVisible := isAddModalVisible st;
      controllers := controllers st ++ [false];
      abortControllerRef := None;
      effects := effects st
        ++ [Fetch (enrollRequest store values_name
                     (List.length (controllers st)));
            Notice Error
              (VStr (lit "Connection error: "
                       ++ TypeError_message VNull (lit "message")));
            ConsoleError];
      logFaults := logFaults st |},
   ExitConnectionError).
Proof.
  intros Ho Hok Hc Hj. unfold handleAddFingerprint.
  pose proof (Enrollment.start_not_aborted values_name store st) as Ha.
  rewrite Enrollment.start_eq in *. cbn [fst snd] in Ha.
  unfold tryBlock. rewrite Hc, Ho. cbn [userAt]. unfold settle.
  rewrite Ha, Hok, Hj. cbn [negb getProp].
  unfold conclude, catchBlock, finallyBlock. cbn [name message TypeError].
  change (str_eqb (lit "TypeError") (lit "AbortError")) with false.
  cbv iota. cells. rewrite Nat.eqb_refl. record. reflexivity.
Qed.

End Runs.

#[local] Existing Instance Sample.host.

Lemma terminal_event_disarms_cancel_witness :
  snd (handleAddFingerprint (lit "bob") Sample.store
         Scenario.errorThenSuccess Sample.idle) = ExitSuccess /\
  handleAddFingerprint (lit "bob") Sample.store Scenario.errorThenSuccess
    Sample.idle =
  handleAddFingerprint (lit "bob") Sample.store
    (withClick None Scenario.errorThenSuccess) Sample.idle.
Proof.
  split; [vm_compute; reflexivity|].
  apply (terminal_event_disarms_cancel (lit "bob") Sample.store
           Scenario.errorThenSuccess
           {| ok := true; status := 200; json := inl VNull;
              responseBody :=
                Some {| chunks := [Scenario.errorLine; Sample.successLine];
                        ending := None |} |}
           {| chunks := [Scenario.errorLine; Sample.successLine];
              ending := None |}
           Scenario.errorLine [Sample.successLine] 0 Sample.idle);
    vm_compute; reflexivity.
Defined.

Lemma nothing_after_return_witness :
  snd (handleAddFingerprint (lit "bob") Sample.store
         Scenario.cancelledThenMore Sample.idle) = ExitCancelledEvent /\
  continues
    (snd (processLines
            ([Sample.lineText Sample.progressLine]
               ++ [Sample.lineText Scenario.cancelledLine])
            (fst (start (lit "bob") Sample.store Sample.idle)))) = false /\
  handleAddFingerprint (lit "bob") Sample.store Scenario.cancelledThenMore
    Sample.idle =
    (finallyBlock (List.length (controllers Sample.idle))
       (fst (processLines
               ([Sample.lineText Sample.progressLine]
                  ++ [Sample.lineText Scenario.cancelledLine])
               (fst (start (lit "bob") Sample.store Sample.idle)))),
     exitOf
       (snd (processLines
               ([Sample.lineText Sample.progressLine]
                  ++ [Sample.lineText Scenario.cancelledLine])
               (fst (start (lit "bob") Sample.store Sample.idle))))).
Proof.
  split; [vm_compute; reflexivity|].
  apply (nothing_after_return (lit "bob") Sample.store
           Scenario.cancelledThenMore
           {| ok := true; status := 200; json := inl VNull;
              responseBody :=
                Some {| chunks :=
                          [Sample.progressLine ++ Scenario.cancelledLine
                             ++ Sample.successLine];
                        ending := Some Sample.timedOut |} |}
           {| chunks :=
                [Sample.progressLine ++ Scenario.cancelledLine
                   ++ Sample.successLine];
              ending := Some Sample.timedOut |}
           [Sample.lineText Sample.progressLine]
           (Sample.lineText Scenario.cancelledLine)
           (Sample.chars Sample.successLine) Sample.idle);
    vm_compute; reflexivity.
Defined.

Lemma refusal_is_reported_witness :
  (snd (handleAddFingerprint (lit "bob") Sample.store
          (Scenario.answering Scenario.refused) Sample.idle) = ExitNotOk /\
   sseLog (fst (handleAddFingerprint (lit "bob") Sample.store
                  (Scenario.answering Scenario.refused) Sample.idle)) =
     [startEntry (lit "bob");
      VStr (lit "Error 409: Name already enrolled")]) /\
  (snd (handleAddFingerprint (lit "bob") Sample.store
          (Scenario.answering Scenario.refusedOddly) Sample.idle) =
     ExitConnectionError /\
   sseLog (fst (handleAddFingerprint (lit "bob") Sample.store
                  (Scenario.answering Scenario.refusedOddly) Sample.idle)) =
     [startEntry (lit "bob");
      VStr (lit "Connection error: Cannot convert object to primitive value")]).
Proof.
  split.
  - rewrite (refusal_is_reported (lit "bob") Sample.store
               (Scenario.answering Scenario.refused) Scenario.refused
               (VStr (lit "Name already enrolled")) Sample.idle
               eq_refl eq_refl eq_refl eq_refl).
    split; reflexivity.
  - rewrite (refusal_is_reported (lit "bob") Sample.store
               (Scenario.answering Scenario.refusedOddly)
               Scenario.refusedOddly
               (VObj [(lit "toString", VStr (lit "x"))]) Sample.idle
               eq_refl eq_refl eq_refl eq_refl).
    split; reflexivity.
Defined.

Lemma null_refusal_reads_as_connection_error_witness :
  snd (handleAddFingerprint (lit "bob") Sample.store
         (Scenario.answering Scenario.refusedNull) Sample.idle) =
    ExitConnectionError /\
  sseLog (fst (handleAddFingerprint (lit "bob") Sample.store
                 (Scenario.answering Scenario.refusedNull) Sample.idle)) =
    [startEntry (lit "bob");
     VStr (lit "Connection error: "
             ++ lit "Cannot read properties of null (reading 'message')")].
Proof.
  rewrite (null_refusal_reads_as_connection_error (lit "bob") Sample.store
             (Scenario.answering Scenario.refusedNull) Scenario.refusedNull
             Sample.idle eq_refl eq_refl eq_refl eq_refl).
  split; reflexivity.
Defined.

End Runs.

(** ** The modal and a request in flight *)

Module ModalFacts.
Import Fingerprint Modal LoopFacts.
Section ModalFacts.
Context {H : Host}.

Lemma error_line (line : jsstring) (fields : list (jsstring * val))
  (st : component) :
  carries line (lit "error") fields ->
  processLine line st =
  (setIsRegistering false
     (emit (Notice Error
              (or_else (lookup (lit "message") fields)
                 (VStr (lit "An error occurred during registration."))))
        (appendLog (eventEntry (VObj fields)) st)),
   Continue).
Proof.
  intros (Hs & Hp & Hst). unfold processLine. rewrite Hs, Hp.
  unfold handleEvent, eventEntry. cbn [getProp]. rewrite Hst.
  reflexivity.
Qed.

Lemma fresh_flag (l : list bool) : nth (List.length l) (l ++ [false]) false = false.
Proof. induction l as [|b l IH]; [reflexivity | exact IH]. Qed.

(** X9. After an error event the loop goes on reading, the footer offers
    Close and Submit, and closing the modal does not abort the request:
    its signal is still not aborted and the ref still points to it. Only
    opening the modal again aborts it. *)
Theorem close_keeps_request_reopen_aborts (values_name : jsstring)
  (store : Settings.SettingsState) (st : component) (line : jsstring)
  (fields : list (jsstring * val)) (field : option jsstring) :
  carries line (lit "error") fields ->
  snd (processLine line (fst (start values_name store st))) = Continue /\
  footer (fst (processLine line (fst (start values_name store st)))) =
    [Close; Submit] /\
  aborted (List.length (controllers st))
    (cells (handleModalCloseOrCancel
              {| cells := fst (processLine line
                                 (fst (start values_name store st)));
                 nameField := field |})) = false /\
  abortControllerRef
    (cells (handleModalCloseOrCancel
              {| cells := fst (processLine line
                                 (fst (start values_name store st)));
                 nameField := field |})) =
    Some (List.length (controllers st)) /\
  aborted (List.length (controllers st))
    (cells (showAddModal
              (handleModalCloseOrCancel
                 {| cells := fst (processLine line
                                    (fst (start values_name store st)));
                    nameField := field |}))) = true.
Proof.
  intros Hc. rewrite (error_line line fields _ Hc), Enrollment.start_eq.
  cbn [fst snd]. split; [reflexivity|]. split; [reflexivity|].
  unfold handleModalCloseOrCancel, showAddModal, aborted, abort.
  cbn [cells nameField]. cells. cbn [andb]. cells.
  split; [apply fresh_flag|]. split; [reflexivity|].
  apply Enrollment.setFlag_fresh.
Qed.

End ModalFacts.

#[local] Existing Instance Sample.host.

Lemma close_keeps_request_reopen_aborts_witness :
  footer (fst (processLine (Sample.lineText Scenario.errorLine)
                 (fst (start (lit "bob") Sample.store Sample.idle)))) =
    [Close; Submit] /\
  aborted 0
    (cells (handleModalCloseOrCancel
              {| cells := fst (processLine
                                 (Sample.lineText Scenario.errorLine)
                                 (fst (start (lit "bob") Sample.store
                                         Sample.idle)));
                 nameField := Some (lit "bob") |})) = false /\
  aborted 0
    (cells (showAddModal
              (handleModalCloseOrCancel
                 {| cells := fst (processLine
                                    (Sample.lineText Scenario.errorLine)
                                    (fst (start (lit "bob") Sample.store
                                            Sample.idle)));
                    nameField := Some (lit "bob") |}))) = true.
Proof.
  destruct (close_keeps_request_reopen_aborts (lit "bob") Sample.store
              Sample.idle (Sample.lineText Scenario.errorLine)
              (Sample.fieldsOf Scenario.errorLine) (Some (lit "bob")))
    as (_ & H1 & H2 & _ & H4).
  - split; [|split]; vm_compute; reflexivity.
  - split; [exact H1|]. split; [exact H2 | exact H4].
Defined.

End ModalFacts.

(** ** Log management *)

Module LogFacts.
Import Logs SplitFacts.
Section LogFacts.
Context {H : Host}.

Lemma join_split (s : jsstring) : joinWithLineFeed (split_nl s) = s.
Proof.
  induction s as [|c s IH]; [reflexivity|].
  cbn [split_nl]. pose proof (split_nl_nonempty s) as Hn.
  destruct (c =? 10) eqn:Ec.
  - apply Z.eqb_eq in Ec. subst c. cbn [joinWithLineFeed].
    destruct (split_nl s) as [|l ls]; [congruence|].
    rewrite IH. reflexivity.
  - destruct (split_nl s) as [|l ls]; [congruence|].
    cbn [joinWithLineFeed] in *. destruct ls; rewrite <- IH; reflexivity.
Qed.

Lemma split_length (s : jsstring) :
  List.length (split_nl s) = S (lineFeeds s).
Proof.
  unfold lineFeeds. induction s as [|c s IH]; [reflexivity|].
  cbn [split_nl filter]. pose proof (split_nl_nonempty s) as Hn.
  destruct (c =? 10).
  - cbn [List.length]. rewrite IH. reflexivity.
  - destruct (split_nl s) as [|l ls]; [congruence|]. exact IH.
Qed.

Lemma numbered_content (i : nat) (lines : list jsstring) :
  map content (numbered i lines) = lines.
Proof.
  revert i. induction lines as [|l lines IH]; intros i; [reflexivity|].
  cbn [numbered map content]. rewrite IH. reflexivity.
Qed.

Lemma numbered_length (i : nat) (lines : list jsstring) :
  List.length (numbered i lines) = List.length lines.
Proof.
  revert i. induction lines as [|l lines IH]; intros i; [reflexivity|].
  cbn [numbered List.length]. rewrite IH. reflexivity.
Qed.

Lemma numbered_keys (i : nat) (lines : list jsstring) :
  map key (numbered i lines) = map Z.of_nat (seq i (List.length lines)) /\
  map line (numbered i lines) =
    map (fun k => Z.of_nat k + 1) (seq i (List.length lines)).
Proof.
  revert i. induction lines as [|l lines IH]; intros i; [split; reflexivity|].
  cbn [numbered map key line List.length seq].
  destruct (IH (S i)) as [-> ->]. split; reflexivity.
Qed.

(** X10. The table of lines loses nothing: joining the contents of its
    rows with line feeds gives the log back, there is one row more than
    line feeds in a log that is not empty and no row for an empty log,
    and the rows are keyed 0, 1, 2, ... and numbered 1, 2, 3, ... in
    order. *)
Theorem log_lines_round_trip (st : component) :
  joinWithLineFeed (map content (logLines st)) = logContent st /\
  List.length (logLines st) =
    match logContent st with
    | [] => 0%nat
    | _ => S (lineFeeds (logContent st))
    end /\
  map key (logLines st) =
    map Z.of_nat (seq 0 (List.length (logLines st))) /\
  map line (logLines st) =
    map (fun k => Z.of_nat k + 1) (seq 0 (List.length (logLines st))).
Proof.
  unfold logLines. destruct (logContent st) as [|c s] eqn:E;
    [repeat split|].
  rewrite numbered_content, numbered_length, join_split, split_length.
  destruct (numbered_keys 0 (split_nl (c :: s))) as [Hk Hl].
  rewrite split_length in Hk, Hl. repeat split; assumption.
Qed.

(** X11. Refreshing the list of logs always selects its first entry: when
    the answer holds a list that is not empty, the selection becomes the
    first entry whatever was selected before, and both loading flags end
    false. When the entry converts to a string, the content of that file
    is requested, and the content shown is what that request returns, or
    nothing when it fails. When it does not (an object with a [toString]
    member of its own), the template literal of line 196 throws before
    any request is made: the error is reported as a failed load and the
    content is blanked. *)
Theorem refresh_selects_first (positive : val -> bool) (api : Api.instance)
  (store : Settings.SettingsState) (data f : val) (rest : list val)
  (content : jsstring + jsError) (st : component) :
  getProp data (lit "logs") = inl (VArr (f :: rest)) ->
  let st' := fetchLogFiles positive api store (inl data) content st in
  selectedLog st' = f /\
  logFiles st' = VArr (f :: rest) /\
  loadingFiles st' = false /\ loadingContent st' = false /\
  match ToString f with
  | Some name =>
      logContent st' = match content with inl c => c | inr _ => [] end /\
      exists tail,
        effects st' =
        effects st
          ++ [Request (Api.get api store (lit "/logs"));
              Request (Api.get api store (lit "/logs/" ++ name))]
          ++ tail
  | None =>
      logContent st' = [] /\
      effects st' =
      effects st
        ++ [Request (Api.get api store (lit "/logs"));
            Notice Error (TextDecoder.text "获取日志内容失败，请重试");
            ConsoleError (TextDecoder.text "获取日志内容失败:")
              ToPrimitiveError]
  end.
Proof.
  intros Hl. cbv zeta. unfold fetchLogFiles. rewrite Hl.
  cbn [truthy nonEmpty andb first hd or_else].
  unfold fetchLogContent_end, fetchLogContent_begin.
  destruct (ToString f) as [name|].
  - destruct content as [c|e];
      cbn [selectedLog logFiles logContent loadingFiles loadingContent
           effects setLogFiles setSelectedLog setLogContent setLoadingFiles
           setLoadingContent emit];
      (repeat (split; [reflexivity|])); eexists;
      rewrite <- !app_assoc; cbn [app]; reflexivity.
  - cbn [selectedLog logFiles logContent loadingFiles loadingContent
         effects setLogFiles setSelectedLog setLogContent setLoadingFiles
         setLoadingContent emit].
    repeat (split; [reflexivity|]).
    rewrite <- !app_assoc. reflexivity.
Qed.


(** X13. A log that cannot be loaded blanks the display: after selecting
    a file whose content request fails, the selector shows that file, the
    content and the table are empty whatever was shown before, and the
    download handler only warns. *)
Theorem failed_load_blanks_display (api : Api.instance)
  (store : Settings.SettingsState) (value : val) (error : jsError)
  (st : component) :
  let st' := handleLogSelect api store value (inr error) st in
  selectedLog st' = value /\
  logContent st' = [] /\
  logLines st' = [] /\
  loadingContent st' = false /\
  effects (handleDownload st') =
    effects st'
      ++ [Notice Warning (TextDecoder.text "没有可下载的日志内容")].
Proof.
  cbv zeta. unfold handleLogSelect, fetchLogContent, fetchLogContent_end,
    fetchLogContent_begin, handleDownload, nothingToDownload, logLines.
  destruct (ToString value);
    cbn [selectedLog logContent loadingContent setSelectedLog setLogContent
         setLoadingContent emit];
    rewrite orb_true_r; repeat split.
Qed.

End LogFacts.

#[local] Existing Instance Sample.host.

Lemma refresh_selects_first_witness :
  selectedLog
    (fetchLogFiles (fun _ => false) (Api.createAPI Sample.store)
       Sample.store
       (inl (VObj [(lit "logs",
                    VArr [VStr (lit "boot.log"); VStr (lit "door.log")])]))
       (inl (lit "started"))
       (setSelectedLog (VStr (lit "door.log")) initial)) =
    VStr (lit "boot.log") /\
  logContent
    (fetchLogFiles (fun _ => false) (Api.createAPI Sample.store)
       Sample.store
       (inl (VObj [(lit "logs",
                    VArr [VObj [(lit "toString", VStr (lit "x"))]])]))
       (inl (lit "started"))
       (setLogContent (lit "older")
          (setSelectedLog (VStr (lit "door.log")) initial))) = [].
Proof.
  split.
  - refine (proj1 (refresh_selects_first (fun _ => false)
             (Api.createAPI Sample.store) Sample.store
             (VObj [(lit "logs",
                     VArr [VStr (lit "boot.log"); VStr (lit "door.log")])])
             (VStr (lit "boot.log")) [VStr (lit "door.log")]
             (inl (lit "started"))
             (setSelectedLog (VStr (lit "door.log")) initial) eq_refl)).
  - refine (proj1 (proj2 (proj2 (proj2 (proj2
             (refresh_selects_first (fun _ => false)
                (Api.createAPI Sample.store) Sample.store
                (VObj [(lit "logs",
                        VArr [VObj [(lit "toString", VStr (lit "x"))]])])
                (VObj [(lit "toString", VStr (lit "x"))]) []
                (inl (lit "started"))
                (setLogContent (lit "older")
                   (setSelectedLog (VStr (lit "door.log")) initial))
                eq_refl)))))).
Defined.


End LogFacts.

(** ** The menu *)

Module MenuFacts.
Import Menu.

Lemma str_eqb_eq (a b : jsstring) : str_eqb a b = true -> a = b.
Proof.
  unfold str_eqb. destruct (list_eq_dec Z.eq_dec a b);
    [trivial | discriminate].
Qed.

(** X14. The menu follows the navigation: clicking one of the five items
    navigates to a path for which that same item is the selected one, and
    any other key leads home, where the first item is selected. *)
Theorem menu_round_trip (key : jsstring) :
  selectedKey (handleMenuClick key) =
  if existsb (str_eqb key) items then key else lit "1".
Proof.
  unfold handleMenuClick, items. cbn [existsb].
  destruct (str_eqb key (lit "1")) eqn:E1;
    [apply str_eqb_eq in E1; subst; reflexivity|].
  destruct (str_eqb key (lit "2")) eqn:E2;
    [apply str_eqb_eq in E2; subst; reflexivity|].
  destruct (str_eqb key (lit "3")) eqn:E3;
    [apply str_eqb_eq in E3; subst; reflexivity|].
  destruct (str_eqb key (lit "4")) eqn:E4;
    [apply str_eqb_eq in E4; subst; reflexivity|].
  destruct (str_eqb key (lit "5")) eqn:E5;
    [apply str_eqb_eq in E5; subst; reflexivity|].
  reflexivity.
Qed.

End MenuFacts.

(** ** What the resource components display *)

Module DisplayFacts.
Import Resource Display.
Section DisplayFacts.
Context {H : Host}.

(** X15. The two places that render a status agree, whatever value the
    status cell holds: the text of the badge is the text of the
    statistic, in the monitoring component and in the door component. *)
Theorem badge_and_statistic_agree (st : component) :
  snd (monitoringBadge st) = monitoringText st /\
  snd (doorBadge st) = doorText st.
Proof.
  unfold monitoringBadge, monitoringText, doorBadge, doorText. split.
  - destruct (strict_eq_str (status st) (lit "enabled_and_active"));
      [reflexivity|].
    destruct (strict_eq_str (status st) (lit "enabled_but_paused"));
      [reflexivity|].
    destruct (strict_eq_str (status st) (lit "disabled")); reflexivity.
  - destruct (strict_eq_str (status st) (lit "locked")); [reflexivity|].
    destruct (strict_eq_str (status st) (lit "unlocked")); reflexivity.
Qed.

(** X16. The switch of the monitoring component ends where the user put
    it when the command succeeds, from any status (paused and unknown
    included), and stays where it was when the command fails. *)
Theorem switch_follows_toggle (checked : bool) (api : Api.instance)
  (store : Settings.SettingsState) (st : component) :
  isActive (fst (handleToggleMonitoring checked api store (inl tt) st)) =
    checked /\
  (forall error,
     isActive (fst (handleToggleMonitoring checked api store (inr error) st))
     = isActive st).
Proof.
  destruct checked; split; try reflexivity; intros error; reflexivity.
Qed.

End DisplayFacts.
End DisplayFacts.

(** ** The settings form *)

Module SettingsFormFacts.
Import SettingsForm.

(** X17. Saving stores what the form shows and nothing else: after the
    form is submitted, the base address and the token of the store are
    those of the form, the form is unchanged, the theme is untouched,
    and the effect has seen the new values. *)
Theorem submit_stores_the_form (v : view) :
  Settings.baseUrl (store (submit v)) = formBaseUrl v /\
  Settings.token (store (submit v)) = formToken v /\
  formBaseUrl (submit v) = formBaseUrl v /\
  formToken (submit v) = formToken v /\
  Settings.isDarkMode (store (submit v)) = Settings.isDarkMode (store v) /\
  deps (submit v) = (formBaseUrl v, formToken v).
Proof.
  unfold submit, handleSave, render, withStore. cbn.
  destruct (str_eqb (fst (deps v)) (formBaseUrl v)) eqn:E1;
    [destruct (str_eqb (snd (deps v)) (formToken v)) eqn:E2|];
    cbn; repeat split.
  apply MenuFacts.str_eqb_eq in E1, E2. destruct (deps v); cbn in *.
  congruence.
Qed.

(** X18. Restoring the defaults resets the store, but the form does not
    always follow it: from a store that already held the default base
    address and the empty token, the form is left showing the token
    [fingerprint_system_token_2025_secure], which the store does not
    hold; from any other store the form ends with the empty token of the
    store. Submitting the form then stores whatever token it shows. *)
Theorem reset_leaves_token_in_form (s : Settings.SettingsState)
  (shownBaseUrl shownToken : jsstring) :
  let v := {| store := s; formBaseUrl := shownBaseUrl;
              formToken := shownToken;
              deps := (Settings.baseUrl s, Settings.token s) |} in
  store (handleReset v) = Settings.initial /\
  formBaseUrl (handleReset v) = lit "http://localhost:80" /\
  formToken (handleReset v) =
    (if str_eqb (Settings.baseUrl s) (lit "http://localhost:80")
        && str_eqb (Settings.token s) []
     then lit "fingerprint_system_token_2025_secure" else []) /\
  Settings.token (store (submit (handleReset v))) = formToken (handleReset v).
Proof.
  cbv zeta. unfold submit, handleSave, handleReset, render, withStore.
  cbn [store formBaseUrl formToken deps fst snd Settings.reset
       Settings.baseUrl Settings.token Settings.initial].
  destruct (str_eqb (Settings.baseUrl s) (lit "http://localhost:80")
            && str_eqb (Settings.token s) []); cbn; repeat split;
    match goal with
    | |- context [if ?c then _ else _] => destruct c; reflexivity
    end.
Qed.

End SettingsFormFacts.

(** ** The identity list *)

Module IdentityFacts.
Import Identity.

(** *** Decimal keys *)

Lemma code_unit_inj (a b : ascii) :
  Z.of_N (N_of_ascii a) = Z.of_N (N_of_ascii b) -> a = b.
Proof.
  intro E. apply N2Z.inj in E.
  rewrite <- (ascii_N_embedding a), <- (ascii_N_embedding b). now rewrite E.
Qed.

Lemma lit_inj (s t : string) : lit s = lit t -> s = t.
Proof.
  unfold lit. intro E.
  rewrite <- (string_of_list_ascii_of_string s),
          <- (string_of_list_ascii_of_string t).
  f_equal.
  revert E. generalize (list_ascii_of_string t).
  induction (list_ascii_of_string s) as [|a l IH]; intros [|b l'] E;
    cbn in E; try discriminate; [reflexivity|].
  injection E as Ea El. f_equal; [now apply code_unit_inj | now apply IH].
Qed.

Lemma Z_toString_inj (a b : Z) : Z_toString a = Z_toString b -> a = b.
Proof.
  unfold Z_toString. intro E. apply lit_inj in E.
  apply DecimalZ.to_int_inj.
  assert (Hn : forall z, Z.to_int z <> Decimal.Pos Decimal.Nil /\
                         Z.to_int z <> Decimal.Neg Decimal.Nil).
  { intros [|p|p]; cbn; split; try discriminate;
      intro E'; injection E' as E';
      now apply DecimalPos.Unsigned.to_uint_nonnil in E'. }
  assert (E' : NilZero.int_of_string (NilZero.string_of_int (Z.to_int a)) =
               NilZero.int_of_string (NilZero.string_of_int (Z.to_int b)))
    by now rewrite E.
  rewrite !NilZero.isi in E' by apply Hn.
  now injection E'.
Qed.

Lemma indexKey_inj (i j : nat) : indexKey i = indexKey j -> i = j.
Proof.
  unfold indexKey. intro E. apply Z_toString_inj in E. lia.
Qed.

Lemma numeral_digits (d : Decimal.uint) : forallb digit (numeral d) = true.
Proof.
  induction d; cbn; trivial.
Qed.

Lemma numeral_acc (d : Decimal.uint) (acc : positive) :
  fold_left step (numeral d) (Z.pos acc) = Z.pos (Pos.of_uint_acc d acc).
Proof.
  revert acc.
  induction d; intro acc; [reflexivity| ..];
    unfold numeral; cbn [NilEmpty.string_of_uint];
    change (lit (String ?a ?s)) with (Z.of_N (N_of_ascii a) :: lit s);
    fold (numeral d); cbn [fold_left Pos.of_uint_acc];
    rewrite <- IHd; f_equal; unfold step;
    match goal with
    | |- context [Z.of_N (N_of_ascii ?a)] =>
        let v := eval cbv in (Z.of_N (N_of_ascii a)) in
        change (Z.of_N (N_of_ascii a)) with v
    end; lia.
Qed.

Lemma numeral_value (d : Decimal.uint) :
  digitsValue (numeral d) = Z.of_N (Pos.of_uint d).
Proof.
  unfold digitsValue.
  induction d; [reflexivity| exact IHd | ..];
    unfold numeral; cbn [NilEmpty.string_of_uint];
    change (lit (String ?a ?s)) with (Z.of_N (N_of_ascii a) :: lit s);
    fold (numeral d); cbn [fold_left Pos.of_uint Z.of_N];
    rewrite <- numeral_acc; f_equal.
Qed.

Lemma nzhead_head (d d' : Decimal.uint) :
  Decimal.nzhead d <> Decimal.D0 d'.
Proof.
  induction d; cbn; try discriminate. exact IHd.
Qed.

Lemma to_uint_head (p : positive) (d : Decimal.uint) :
  Pos.to_uint p <> Decimal.D0 d.
Proof.
  intro E.
  pose proof (DecimalPos.Unsigned.to_of (Pos.to_uint p)) as Hn.
  rewrite DecimalPos.Unsigned.of_to in Hn. cbn [N.to_uint] in Hn.
  unfold Decimal.unorm in Hn.
  destruct (Decimal.nzhead (Pos.to_uint p)) eqn:Hz;
    try (rewrite E in Hn; discriminate).
  - rewrite Hn in E. injection E as E. subst d.
    now apply (DecimalPos.Unsigned.to_uint_nonzero p).
  - now apply (nzhead_head (Pos.to_uint p) u).
Qed.

(** The decimal text of an integer in the range of array indices is an
    array index, of that value. *)
Lemma arrayIndex_toString (n : Z) :
  0 <= n <= 4294967294 -> arrayIndex (Z_toString n) = Some n.
Proof.
  intros [Hlo Hhi]. destruct n as [|p|p]; [reflexivity| |lia].
  unfold Z_toString. cbn [Z.to_int NilZero.string_of_int].
  pose proof (DecimalPos.Unsigned.to_uint_nonnil p) as Hnil.
  pose proof (to_uint_head p) as Hhead.
  pose proof (numeral_digits (Pos.to_uint p)) as Hd.
  pose proof (numeral_value (Pos.to_uint p)) as Hv.
  rewrite DecimalPos.Unsigned.of_to in Hv. cbn [Z.of_N] in Hv.
  assert (Es : NilZero.string_of_uint (Pos.to_uint p) =
               NilEmpty.string_of_uint (Pos.to_uint p))
    by (destruct (Pos.to_uint p); [congruence | reflexivity ..]).
  rewrite Es. fold (numeral (Pos.to_uint p)).
  unfold arrayIndex.
  destruct (numeral (Pos.to_uint p)) as [|c r] eqn:En.
  - destruct (Pos.to_uint p); try congruence; discriminate En.
  - rewrite Hd, Hv.
    assert (Hc : match r with [] => true | _ :: _ => negb (c =? 48) end = true).
    { destruct r; [reflexivity|].
      destruct (Pos.to_uint p) as [|u|u|u|u|u|u|u|u|u|u];
        try congruence; try (exfalso; now apply (Hhead u));
        unfold numeral in En; cbn in En; injection En as Ec _;
        subst c; reflexivity. }
    rewrite Hc. cbn [andb].
    destruct (Z.leb_spec (Z.pos p) 4294967294); [reflexivity | lia].
Qed.

Section IdentityFacts.
Context {H : Host}.
Variable toObjectError : jsError.

(** *** The order of the rows is a rearrangement of the members *)

Lemma insert_perm (n : Z) (p : jsstring * val) l :
  Permutation (insert n p l) ((n, p) :: l).
Proof.
  induction l as [|[m q] r IH]; cbn [insert]; [reflexivity|].
  destruct (n <? m); [reflexivity|].
  eapply perm_trans; [apply perm_skip, IH | apply perm_swap].
Qed.

Lemma sort_perm l : Permutation (sortByIndex l) l.
Proof.
  induction l as [|[n p] r IH]; cbn [sortByIndex]; [constructor|].
  eapply perm_trans; [apply insert_perm | apply perm_skip, IH].
Qed.

Lemma split_perm (o : list (jsstring * val)) :
  Permutation (map snd (flat_map withIndex o) ++ filter isName o) o.
Proof.
  induction o as [|p r IH]; [constructor|].
  cbn [flat_map filter]. unfold withIndex at 1, isName at 1.
  destruct (arrayIndex (fst p)); cbn [app map snd].
  - apply perm_skip, IH.
  - apply Permutation_sym, Permutation_cons_app, Permutation_sym, IH.
Qed.

Lemma ordered_perm (o : list (jsstring * val)) : Permutation (ordered o) o.
Proof.
  unfold ordered. eapply perm_trans; [|apply split_perm].
  apply Permutation_app_tail, Permutation_map, sort_perm.
Qed.

Lemma filter_perm {A : Type} (f : A -> bool) (l l' : list A) :
  Permutation l l' -> Permutation (filter f l) (filter f l').
Proof.
  induction 1 as [|x l l' _ IH|x y l|l l' l'' _ IH1 _ IH2]; cbn [filter].
  - constructor.
  - destruct (f x); [apply perm_skip|]; exact IH.
  - destruct (f x), (f y); try reflexivity. apply perm_swap.
  - eapply perm_trans; eassumption.
Qed.

(** *** Keys *)

Lemma key_eqb_true (a b : jsstring) : str_eqb a b = true <-> a = b.
Proof.
  unfold str_eqb. destruct (list_eq_dec Z.eq_dec a b); split;
    congruence.
Qed.

Lemma key_eqb_false (a b : jsstring) : str_eqb a b = false <-> a <> b.
Proof.
  unfold str_eqb. destruct (list_eq_dec Z.eq_dec a b); split;
    congruence.
Qed.

Lemma without_In (id : jsstring) (l : list (jsstring * val)) p :
  In p (without id l) <-> In p l /\ fst p <> id.
Proof.
  unfold without. rewrite filter_In, negb_true_iff, key_eqb_false.
  reflexivity.
Qed.

Lemma without_keys (id : jsstring) (l : list (jsstring * val)) :
  NoDup (map fst l) -> NoDup (map fst (without id l)).
Proof.
  induction l as [|p r IH]; cbn [map without filter]; intro Hn;
    [constructor|].
  inversion Hn as [|? ? Hin Hr]; subst.
  destruct (negb (str_eqb (fst p) id)); [|now apply IH].
  cbn [map]. constructor; [|now apply IH].
  intro Hin'. apply Hin.
  apply in_map_iff in Hin' as [q [Eq Hq]].
  apply without_In in Hq as [Hq _].
  apply in_map_iff. now exists q.
Qed.

Lemma without_comm (a b : jsstring) (l : list (jsstring * val)) :
  without a (without b l) = without b (without a l).
Proof.
  unfold without.
  induction l as [|p r IH]; cbn [filter]; [reflexivity|].
  destruct (negb (str_eqb (fst p) b)) eqn:Eb,
           (negb (str_eqb (fst p) a)) eqn:Ea;
    cbn [filter]; rewrite ?Ea, ?Eb, IH; reflexivity.
Qed.

Lemma without_idem (a : jsstring) (l : list (jsstring * val)) :
  without a (without a l) = without a l.
Proof.
  unfold without.
  induction l as [|p r IH]; cbn [filter]; [reflexivity|].
  destruct (negb (str_eqb (fst p) a)) eqn:Ea;
    cbn [filter]; rewrite ?Ea, IH; reflexivity.
Qed.

Lemma without_length (id : jsstring) (l : list (jsstring * val)) :
  NoDup (map fst l) -> In id (map fst l) ->
  S (List.length (without id l)) = List.length l.
Proof.
  induction l as [|p r IH]; cbn [map]; intros Hn Hin; [destruct Hin|].
  inversion Hn as [|? ? Hnin Hr]; subst.
  unfold without in *. cbn [filter].
  destruct (list_eq_dec Z.eq_dec (fst p) id) as [E|E].
  - apply key_eqb_true in E as Eb. rewrite Eb. cbn [negb List.length].
    f_equal.
    assert (Hall : forall q, In q r -> negb (str_eqb (fst q) id) = true).
    { intros q Hq. apply negb_true_iff, key_eqb_false. intro Eq.
      apply Hnin. rewrite E, <- Eq. now apply in_map. }
    clear -Hall. induction r as [|q r IH]; [reflexivity|].
    cbn [filter]. rewrite (Hall q (or_introl eq_refl)). cbn [List.length].
    f_equal. apply IH. intros q' Hq'. apply Hall. now right.
  - apply key_eqb_false in E as Eb. rewrite Eb. cbn [negb List.length].
    f_equal. apply IH; [assumption|].
    destruct Hin as [Hin|Hin]; [congruence | assumption].
Qed.

(** *** Own properties *)

Lemma own_cons (k : jsstring) (v : val) (r : list (jsstring * val)) :
  own ((k, v) :: r) = (k, v) :: without k (own r).
Proof. reflexivity. Qed.

Lemma own_keys (fields : list (jsstring * val)) :
  NoDup (map fst (own fields)).
Proof.
  induction fields as [|[k v] r IH]; [constructor|].
  rewrite own_cons. cbn [map fst]. constructor.
  - intro Hin. apply in_map_iff in Hin as [q [Eq Hq]].
    apply without_In in Hq as [_ Hne]. congruence.
  - now apply without_keys.
Qed.

Lemma own_spec (fields : list (jsstring * val)) (k : jsstring) (v : val) :
  In (k, v) (own fields) <->
  In k (map fst fields) /\ lookup k fields = v.
Proof.
  induction fields as [|[k0 v0] r IH].
  - cbn. tauto.
  - rewrite own_cons. cbn [In map fst lookup].
    rewrite without_In, IH. cbn [fst].
    destruct (list_eq_dec Z.eq_dec k0 k) as [E|E].
    + apply key_eqb_true in E as Eb. rewrite Eb. subst k0. split.
      * intros [E'|[_ Hne]]; [|congruence]. split; [now left | congruence].
      * intros [_ Ev]. left. congruence.
    + apply key_eqb_false in E as Eb. rewrite Eb. split.
      * intros [E'|[[Hin Hv] _]]; [congruence|]. split; [now right | exact Hv].
      * intros [[E'|Hin] Hv]; [congruence|]. right. repeat split; auto.
  Qed.

Lemma own_distinct (fields : list (jsstring * val)) :
  NoDup (map fst fields) -> own fields = fields.
Proof.
  induction fields as [|[k v] r IH]; [reflexivity|].
  cbn [map fst]. intro Hn. inversion Hn as [|? ? Hnin Hr]; subst.
  rewrite own_cons, (IH Hr). f_equal.
  unfold without. clear -Hnin.
  induction r as [|q r IH]; [reflexivity|].
  cbn [filter].
  assert (Eb : str_eqb (fst q) k = false).
  { apply key_eqb_false. intro E. apply Hnin. left. exact E. }
  rewrite Eb. cbn [negb]. f_equal. apply IH. intro Hin. apply Hnin.
  now right.
Qed.

Lemma own_without (id : jsstring) (fields : list (jsstring * val)) :
  own (without id fields) = without id (own fields).
Proof.
  induction fields as [|[k v] r IH]; [reflexivity|].
  rewrite own_cons.
  unfold without at 1. cbn [filter fst]. fold (without id r).
  unfold without at 3. cbn [filter fst]. fold (without id (without k (own r))).
  destruct (list_eq_dec Z.eq_dec k id) as [E|E].
  - apply key_eqb_true in E as Eb. rewrite Eb. cbn [negb]. subst k.
    now rewrite IH, without_idem.
  - apply key_eqb_false in E as Eb. rewrite Eb. cbn [negb].
    now rewrite own_cons, IH, without_comm.
Qed.

(** *** Elements of arrays and strings *)

Lemma indexed_keys {A : Type} (i : nat) (l : list A) (k : jsstring) :
  In k (map fst (indexed i l)) -> exists j, (i <= j)%nat /\ k = indexKey j.
Proof.
  revert i. induction l as [|x r IH]; intros i Hin; [destruct Hin|].
  cbn [indexed map fst In] in Hin. destruct Hin as [E|Hin].
  - exists i. split; [lia | congruence].
  - apply IH in Hin as [j [Hj E]]. exists j. split; [lia | exact E].
Qed.

Lemma indexed_distinct {A : Type} (i : nat) (l : list A) :
  NoDup (map fst (indexed i l)).
Proof.
  revert i. induction l as [|x r IH]; intro i; [constructor|].
  cbn [indexed map fst]. constructor; [|apply IH].
  intro Hin. apply indexed_keys in Hin as [j [Hj E]].
  apply indexKey_inj in E. lia.
Qed.

Lemma entries_distinct (data : val) (es : list (jsstring * val)) :
  Object_entries toObjectError data = inl es -> NoDup (map fst es).
Proof.
  destruct data; cbn [Object_entries]; intro E; try discriminate;
    injection E as <-.
  - constructor.
  - constructor.
  - apply indexed_distinct.
  - apply indexed_distinct.
  - eapply Permutation_NoDup;
      [apply Permutation_sym, Permutation_map, ordered_perm | apply own_keys].
Qed.

(** *** The handlers *)

Lemma fetch_rows api store (answer : val + jsError) (st : component) :
  fingerprints (fetchFingerprints toObjectError api store answer st) =
  match answer with
  | inl data =>
      match Object_entries toObjectError data with
      | inl es => es
      | inr _ => fingerprints st
      end
  | inr _ => fingerprints st
  end.
Proof.
  unfold fetchFingerprints.
  destruct answer as [data|e];
    [destruct (Object_entries toObjectError data)|]; reflexivity.
Qed.

Lemma delete_rows api store id (answer : unit + jsError)
  (list : val + jsError) (st : component) :
  fingerprints (handleDelete toObjectError api store id answer list st) =
  match answer with
  | inl _ =>
      match list with
      | inl data =>
          match Object_entries toObjectError data with
          | inl es => es
          | inr _ => fingerprints st
          end
      | inr _ => fingerprints st
      end
  | inr _ => fingerprints st
  end.
Proof.
  unfold handleDelete. destruct answer as [u|e]; [|reflexivity].
  rewrite fetch_rows. reflexivity.
Qed.

(** X19. The table is keyed by [id] ([rowKey="id"]): the ids of the rows
    are pairwise distinct after every list request and after every
    deletion, whatever the server answered (an object, an array, a string,
    a scalar, [null], or no answer at all), provided they were before; the
    empty initial list qualifies. *)
Theorem row_ids_stay_distinct (api : Api.instance)
  (store : Settings.SettingsState) (st : component)
  (Hst : NoDup (map fst (fingerprints st))) :
  (forall answer,
     NoDup (map fst (fingerprints
                       (fetchFingerprints toObjectError api store answer
                          st)))) /\
  (forall id answer list,
     NoDup (map fst (fingerprints
                       (handleDelete toObjectError api store id answer list
                          st)))).
Proof.
  assert (Hf : forall answer : val + jsError,
             NoDup (map fst
                      match answer with
                      | inl data =>
                          match Object_entries toObjectError data with
                          | inl es => es
                          | inr _ => fingerprints st
                          end
                      | inr _ => fingerprints st
                      end)).
  { intros [data|e]; [|exact Hst].
    destruct (Object_entries toObjectError data) eqn:E; [|exact Hst].
    eapply entries_distinct, E. }
  split.
  - intro answer. rewrite fetch_rows. apply Hf.
  - intros id [u|e] list; rewrite delete_rows; [apply Hf | exact Hst].
Qed.

(** X20. The rows are the own properties of the answer: an object answer
    gives a row [(id, name)] exactly when [id] is a key of the object and
    [name] is the value [data[id]]; with X19, one row per key. *)
Theorem rows_are_the_members (api : Api.instance)
  (store : Settings.SettingsState) (fields : list (jsstring * val))
  (st : component) (id : jsstring) (name : val) :
  In (id, name)
    (fingerprints
       (fetchFingerprints toObjectError api store (inl (VObj fields)) st))
  <->
  In id (map fst fields) /\ getProp (VObj fields) id = inl name.
Proof.
  rewrite fetch_rows. cbn [Object_entries getProp].
  assert (Ev : inl (lookup id fields) = (inl name : val + jsError) <->
               lookup id fields = name)
    by (split; [intro E; now injection E | now intros ->]).
  rewrite Ev, <- own_spec. split; intro Hin.
  - eapply Permutation_in; [apply ordered_perm | exact Hin].
  - eapply Permutation_in; [apply Permutation_sym, ordered_perm | exact Hin].
Qed.

(** X21. List, delete an id that is listed, list again: when the server
    answers the second list request with the same members less the deleted
    key, the id is gone, the other rows are the same, and the list is
    shorter by exactly one row. *)
Theorem deletion_removes_one_row (api : Api.instance)
  (store : Settings.SettingsState) (fields : list (jsstring * val))
  (id : jsstring) (st : component)
  (Hid : In id (map fst
                  (fingerprints
                     (fetchFingerprints toObjectError api store
                        (inl (VObj fields)) st)))) :
  let listed :=
    fetchFingerprints toObjectError api store (inl (VObj fields)) st in
  let after :=
    handleDelete toObjectError api store id (inl tt)
      (inl (VObj (without id fields))) listed in
  ~ In id (map fst (fingerprints after)) /\
  S (List.length (fingerprints after)) = List.length (fingerprints listed) /\
  (forall row,
     In row (fingerprints after) <->
     In row (fingerprints listed) /\ fst row <> id).
Proof.
  intros listed after. subst listed after.
  rewrite delete_rows. rewrite fetch_rows in *.
  cbn [Object_entries] in *. rewrite own_without.
  pose proof (ordered_perm (own fields)) as P1.
  pose proof (ordered_perm (without id (own fields))) as P2.
  split; [|split].
  - intro Hin.
    apply (Permutation_in _ (Permutation_map fst P2)) in Hin.
    apply in_map_iff in Hin as [q [Eq Hq]].
    apply without_In in Hq as [_ Hne]. congruence.
  - rewrite (Permutation_length P2), (Permutation_length P1).
    apply without_length; [apply own_keys|].
    exact (Permutation_in _ (Permutation_map fst P1) Hid).
  - intro row. split.
    + intro Hin. apply (Permutation_in _ P2) in Hin.
      apply without_In in Hin as [Hin Hne]. split; [|exact Hne].
      exact (Permutation_in _ (Permutation_sym P1) Hin).
    + intros [Hin Hne]. apply (Permutation_in _ (Permutation_sym P2)).
      apply without_In. split; [|exact Hne].
      exact (Permutation_in _ P1 Hin).
Qed.

(** *** Numeric ids *)

Lemma insert_sorted (n : Z) (p : jsstring * val) l :
  StronglySorted (fun a b => fst a <= fst b) l ->
  StronglySorted (fun a b => fst a <= fst b) (insert n p l).
Proof.
  induction l as [|[m q] r IH]; cbn [insert]; intro Hs.
  - constructor; constructor.
  - inversion Hs as [|? ? Hr Hall]; subst.
    destruct (Z.ltb_spec n m) as [Hlt|Hge].
    + constructor; [exact Hs|]. constructor; [cbn; lia|].
      eapply Forall_impl; [|exact Hall]. cbn. intros a Ha. lia.
    + constructor; [now apply IH|].
      eapply Permutation_Forall;
        [apply Permutation_sym, insert_perm|].
      constructor; [cbn; lia | exact Hall].
Qed.

Lemma sort_sorted l :
  StronglySorted (fun a b => fst a <= fst b) (sortByIndex l).
Proof.
  induction l as [|[n p] r IH]; cbn [sortByIndex]; [constructor|].
  now apply insert_sorted.
Qed.

Lemma sorted_strict (l : list (Z * (jsstring * val))) :
  StronglySorted (fun a b => fst a <= fst b) l -> NoDup (map fst l) ->
  StronglySorted Z.lt (map fst l).
Proof.
  induction 1 as [|a l Hs IH Hall]; cbn [map]; intro Hn; [constructor|].
  inversion Hn as [|? ? Hnin Hr]; subst.
  constructor; [now apply IH|].
  apply Forall_forall. intros m Hm.
  apply in_map_iff in Hm as Hm'. destruct Hm' as [b [Eb Hb]].
  rewrite Forall_forall in Hall. specialize (Hall b Hb).
  assert (fst a <> m) by (intro E; apply Hnin; now rewrite E).
  lia.
Qed.

Lemma member_keys (members : list (Z * val)) :
  NoDup (map fst members) -> NoDup (map fst (map member members)).
Proof.
  induction members as [|e r IH]; cbn [map]; intro Hn; [constructor|].
  inversion Hn as [|? ? Hnin Hr]; subst.
  constructor; [|now apply IH].
  intro Hin. apply Hnin.
  apply in_map_iff in Hin as [q [Eq Hq]].
  apply in_map_iff in Hq as [e' [<- He']].
  cbn [member fst] in Eq. apply Z_toString_inj in Eq.
  rewrite <- Eq. now apply in_map.
Qed.

Lemma member_index (members : list (Z * val)) :
  Forall (fun e => 0 <= fst e <= 4294967294) members ->
  flat_map withIndex (map member members) = map tagged members /\
  filter isName (map member members) = [].
Proof.
  induction 1 as [|e r He _ [IH1 IH2]]; [split; reflexivity|].
  cbn [map flat_map filter]. unfold withIndex at 1, isName at 1.
  cbn [member fst]. rewrite (arrayIndex_toString _ He).
  cbn [app]. rewrite IH1, IH2. split; reflexivity.
Qed.

(** X22. Ids that are array indices (the decimal text of an integer
    between 0 and 2^32 - 2) are listed in ascending numeric order: the
    rows are the members sorted by id, so they do not depend on the order
    in which the server wrote them. *)
Theorem numeric_ids_listed_ascending (api : Api.instance)
  (store : Settings.SettingsState) (members : list (Z * val))
  (st : component)
  (Hrange : Forall (fun e => 0 <= fst e <= 4294967294) members)
  (Hdistinct : NoDup (map fst members)) :
  exists sorted,
    Permutation sorted members /\
    StronglySorted Z.lt (map fst sorted) /\
    fingerprints
      (fetchFingerprints toObjectError api store
         (inl (VObj (map member members))) st) =
    map member sorted.
Proof.
  rewrite fetch_rows. cbn [Object_entries].
  rewrite (own_distinct _ (member_keys _ Hdistinct)).
  unfold ordered. destruct (member_index _ Hrange) as [-> ->].
  rewrite app_nil_r.
  pose proof (sort_perm (map tagged members)) as P.
  assert (Eu : map untagged (map tagged members) = members).
  { rewrite map_map. rewrite <- (map_id members) at 2.
    apply map_ext. now intros [n v]. }
  assert (Ef : map fst (map tagged members) = map fst members).
  { rewrite map_map. apply map_ext. now intros [n v]. }
  exists (map untagged (sortByIndex (map tagged members))).
  split; [|split].
  - rewrite <- Eu at 2. now apply Permutation_map.
  - assert (Eg : map fst (map untagged (sortByIndex (map tagged members))) =
                 map fst (sortByIndex (map tagged members))).
    { rewrite map_map. apply map_ext. now intros [n [k v]]. }
    rewrite Eg. apply sorted_strict; [apply sort_sorted|].
    eapply Permutation_NoDup;
      [apply Permutation_sym, Permutation_map, P|].
    now rewrite Ef.
  - rewrite map_map. apply map_ext_in. intros x Hx.
    apply (Permutation_in _ P) in Hx.
    apply in_map_iff in Hx as [[n v] [<- _]]. reflexivity.
Qed.

(** X23. An answer of [null] is treated exactly as a failed request (the
    rows stay, the same error notice is shown), and a number or a boolean
    exactly as an empty object (the rows are emptied without any
    notice). *)
Theorem null_answer_is_a_failure (api : Api.instance)
  (store : Settings.SettingsState) (st : component) :
  fetchFingerprints toObjectError api store (inl VNull) st =
    fetchFingerprints toObjectError api store (inr toObjectError) st /\
  (forall error,
     fingerprints
       (fetchFingerprints toObjectError api store (inr error) st) =
     fingerprints st) /\
  (forall data, (exists b, data = VBool b) \/ (exists n, data = VNum n) ->
     fetchFingerprints toObjectError api store (inl data) st =
       fetchFingerprints toObjectError api store (inl (VObj [])) st /\
     fingerprints
       (fetchFingerprints toObjectError api store (inl data) st) = [] /\
     effects (fetchFingerprints toObjectError api store (inl data) st) =
       effects st ++ [Request (Api.get api store (lit "/fingerprints"))]).
Proof.
  split; [reflexivity|]. split; [intro error; now rewrite fetch_rows|].
  intros data [[b ->]|[n ->]]; repeat split.
Qed.

Lemma requests_app (a b : list effect) :
  requests (a ++ b) = requests a ++ requests b.
Proof. unfold requests. apply flat_map_app. Qed.

(** X24. A deletion lists again exactly when the DELETE resolved: then
    the requests are the DELETE followed by one GET of the list; a failed
    DELETE issues nothing more and leaves the rows and the loading flag
    as they were. *)
Theorem deletion_relists_on_success (api : Api.instance)
  (store : Settings.SettingsState) (id : jsstring)
  (list : val + jsError) (st : component) :
  requests
    (effects (handleDelete toObjectError api store id (inl tt) list st)) =
    requests (effects st) ++
    [Api.delete api store (lit "/fingerprints/" ++ id);
     Api.get api store (lit "/fingerprints")] /\
  (forall error,
     let failed :=
       handleDelete toObjectError api store id (inr error) list st in
     requests (effects failed) =
       requests (effects st) ++
       [Api.delete api store (lit "/fingerprints/" ++ id)] /\
     fingerprints failed = fingerprints st /\
     loading failed = loading st).
Proof.
  split.
  - unfold handleDelete, fetchFingerprints.
    destruct list as [data|e];
      [destruct (Object_entries toObjectError data)|];
      unfold setLoading, setFingerprints, emit;
      cbn [effects fingerprints loading];
      rewrite !requests_app, <- !app_assoc; cbn [requests flat_map app];
      rewrite ?app_nil_r; reflexivity.
  - intros error failed. subst failed.
    unfold handleDelete, emit. cbn [effects fingerprints loading].
    rewrite !requests_app, <- !app_assoc. cbn [requests flat_map app].
    repeat split.
Qed.

End IdentityFacts.

#[local] Existing Instance Sample.host.

Lemma row_ids_stay_distinct_witness :
  NoDup
    (map fst
       (fingerprints
          (fetchFingerprints (TypeError (lit "Cannot convert undefined or null to object"))
             (Api.createAPI Sample.store) Sample.store
             (inl (VObj [(lit "2", VStr (lit "Bo")); (lit "1", VStr (lit "Al"))]))
             {| fingerprints := []; loading := false; effects := [] |}))).
Proof.
  refine (proj1 (row_ids_stay_distinct _ (Api.createAPI Sample.store)
                   Sample.store
                   {| fingerprints := []; loading := false; effects := [] |}
                   _) _).
  cbn. constructor.
Defined.

Lemma deletion_removes_one_row_witness :
  let e := TypeError (lit "Cannot convert undefined or null to object") in
  let fields := [(lit "2", VStr (lit "Bo")); (lit "1", VStr (lit "Al"))] in
  let st := {| fingerprints := []; loading := false; effects := [] |} in
  let listed :=
    fetchFingerprints e (Api.createAPI Sample.store) Sample.store
      (inl (VObj fields)) st in
  S (List.length
       (fingerprints
          (handleDelete e (Api.createAPI Sample.store) Sample.store (lit "2")
             (inl tt) (inl (VObj (without (lit "2") fields))) listed))) =
  List.length (fingerprints listed).
Proof.
  intros e fields st listed.
  refine (proj1 (proj2 (deletion_removes_one_row e
                          (Api.createAPI Sample.store) Sample.store fields
                          (lit "2") st _))).
  vm_compute. right. left. reflexivity.
Defined.

Lemma numeric_ids_listed_ascending_witness :
  exists sorted,
    Permutation sorted [(7, VStr (lit "Bo")); (3, VStr (lit "Al"))] /\
    StronglySorted Z.lt (map fst sorted) /\
    fingerprints
      (fetchFingerprints (TypeError (lit "Cannot convert undefined or null to object"))
         (Api.createAPI Sample.store) Sample.store
         (inl (VObj (map member
                       [(7, VStr (lit "Bo")); (3, VStr (lit "Al"))])))
         {| fingerprints := []; loading := false; effects := [] |}) =
    map member sorted.
Proof.
  apply numeric_ids_listed_ascending.
  - repeat constructor; cbn; lia.
  - cbn. repeat constructor; cbn; intuition lia.
Defined.

Lemma null_answer_is_a_failure_witness :
  fingerprints
    (fetchFingerprints (TypeError (lit "Cannot convert undefined or null to object"))
       (Api.createAPI Sample.store) Sample.store (inl (VBool true))
       {| fingerprints := [(lit "1", VStr (lit "Al"))]; loading := false;
          effects := [] |}) = [].
Proof.
  refine (proj1 (proj2 (proj2 (proj2 (null_answer_is_a_failure _
            (Api.createAPI Sample.store) Sample.store
            {| fingerprints := [(lit "1", VStr (lit "Al"))];
               loading := false; effects := [] |})) (VBool true) _))).
  left. exists true. reflexivity.
Defined.

End IdentityFacts.
